(** * SupportIQ: ticket enrichment and routing pipeline

    A shallow embedding of the Python services of the repository
    (priority scorer, sentiment analyzer, classifier, routing rules,
    router, ticket API, worker task, text normalizer) and the properties
    of its natural-language specification, stated and settled on it.

    Conventions.
    - A Python [str] is a list of Unicode code points ([text]); literals
      are written [str "..."] and decoded from UTF-8.
    - A Python [int] is [Z]. The floats of the router's scores are IEEE
      754 binary64 numbers, Rocq's primitive [float]; the floats of the
      scorer, the sentiment analyzer and the classifier are read as the
      rational numbers they denote ([Q]).
    - What the Python runtime brings that depends on the Unicode
      database ([str.lower], [str.isupper], normalisation, ...) or on a
      remote provider is a field of the class [PyRuntime] or an explicit
      reply argument: theorems hold for every runtime and every reply,
      examples run on [ascii_runtime]. *)

From Stdlib Require Import ZArith NArith QArith Qround Qminmax List Ascii String Lia Bool.
From Stdlib Require Import Floats Lqa Permutation Sorted.
From stdpp Require Import base option list gmap strings.

#[local] Open Scope Z_scope.

(* ================================================================= *)
(** * Python text *)

Abbreviation char := N.
Abbreviation text := (list N).

Module Text.

(** Code points of a UTF-8 byte sequence (well-formed input assumed:
    it only decodes the literals of this file). *)
Fixpoint utf8_decode (bs : list N) : text :=
  match bs with
  | [] => []
  | b :: r =>
      if (b <? 128)%N then b :: utf8_decode r
      else if (b <? 224)%N then
        match r with
        | b1 :: r1 => ((b - 192) * 64 + (b1 - 128))%N :: utf8_decode r1
        | _ => []
        end
      else if (b <? 240)%N then
        match r with
        | b1 :: b2 :: r2 =>
            ((b - 224) * 4096 + (b1 - 128) * 64 + (b2 - 128))%N :: utf8_decode r2
        | _ => []
        end
      else
        match r with
        | b1 :: b2 :: b3 :: r3 =>
            ((b - 240) * 262144 + (b1 - 128) * 4096 + (b2 - 128) * 64 + (b3 - 128))%N
              :: utf8_decode r3
        | _ => []
        end
  end.

Definition str (s : string) : text :=
  utf8_decode (map N_of_ascii (list_ascii_of_string s)).

Definition text_eqb (a b : text) : bool := bool_decide (a = b).

(** [x in xs] for a list of strings. *)
Definition mem (x : text) (xs : list text) : bool := existsb (text_eqb x) xs.

(** [d.get(k)] on a dict kept as its items in insertion order. *)
Fixpoint dict_get {V} (d : list (text * V)) (k : text) : option V :=
  match d with
  | [] => None
  | (k', v) :: d' => if text_eqb k k' then Some v else dict_get d' k
  end.

(** [s.startswith(p)] *)
Fixpoint starts_with (p s : text) : bool :=
  match p, s with
  | [], _ => true
  | _ :: _, [] => false
  | a :: p', b :: s' => (a =? b)%N && starts_with p' s'
  end.

(** [sub in s]: substring test. *)
Fixpoint contains (sub s : text) : bool :=
  starts_with sub s ||
  match s with
  | [] => false
  | _ :: s' => contains sub s'
  end.

(** [s.count(c)] for a one-character [c]. *)
Definition count_char (c : char) (s : text) : nat :=
  length (List.filter (fun x => (x =? c)%N) s).

(** The code points Python's [str.isspace] accepts; [str.strip()] and
    the regular expression class [\s] use the same set. *)
Definition isspace (c : char) : bool :=
  ((9 <=? c) && (c <=? 13) || (28 <=? c) && (c <=? 32)
   || (c =? 133) || (c =? 160) || (c =? 5760)
   || (8192 <=? c) && (c <=? 8202)
   || (c =? 8232) || (c =? 8233) || (c =? 8239) || (c =? 8287)
   || (c =? 12288))%N.

Fixpoint lstrip (s : text) : text :=
  match s with
  | [] => []
  | c :: s' => if isspace c then lstrip s' else s
  end.

Definition rstrip (s : text) : text := rev (lstrip (rev s)).

(** [s.strip()] *)
Definition strip (s : text) : text := rstrip (lstrip s).

(** Truth value of a string: [bool(s)]. *)
Definition truthy (s : text) : bool :=
  match s with [] => false | _ => true end.

Definition NL : char := 10%N.
Definition SP : char := 32%N.

End Text.
Import Text.

(* ================================================================= *)
(** * The Python runtime *)

(** Library behaviour that depends on the Unicode character database,
    kept abstract. *)
Class PyRuntime := {
  (** [str.lower()] *)
  py_lower : text -> text;
  (** [c.isalpha()] and [c.isupper()] on one character *)
  py_isalpha : char -> bool;
  py_isupper : char -> bool;
  (** Equality of a pattern character and a subject character under
      [re.IGNORECASE], and the classes [\w] and [\d] of [re]. *)
  re_ieq : char -> char -> bool;
  re_word : char -> bool;
  re_digit : char -> bool;
  (** [unicodedata.normalize('NFC', s)] and [html.unescape(s)] *)
  py_nfc : text -> text;
  html_unescape : text -> text;
  (** [f"{x:.2f}"] for a float and [str(n)] for an integer *)
  py_format_2f : Q -> text;
  py_str_int : Z -> text;
  (** [findall] of the compiled patterns [EMAIL_PATTERN],
      [PHONE_PATTERN] and [URL_PATTERN] of the text processor *)
  findall_email : text -> list text;
  findall_phone : text -> list text;
  findall_url : text -> list text
}.

(** Rationals as Python compares them. *)
Definition Qleb (a b : Q) : bool := Qle_bool a b.
Definition Qltb (a b : Q) : bool := negb (Qle_bool b a).

(** [re.search(p, s, re.IGNORECASE)] for a pattern made of literal
    characters: some position of [s] where every pattern character
    matches up to case. *)
Section Regex.
Context `{PyRuntime}.

Fixpoint istarts_with (p s : text) : bool :=
  match p, s with
  | [], _ => true
  | _ :: _, [] => false
  | a :: p', b :: s' => re_ieq a b && istarts_with p' s'
  end.

(** Leftmost search: try the matcher at every suffix. *)
Fixpoint search (m : text -> bool) (s : text) : bool :=
  m s ||
  match s with
  | [] => false
  | _ :: s' => search m s'
  end.

Definition isearch (p s : text) : bool := search (istarts_with p) s.

(** The rest of [\w+ \d+] once one word character is consumed: either
    stop the run (a space and a digit follow) or take one more word
    character. *)
Fixpoint word_run_then_digit (s : text) : bool :=
  match s with
  | [] => false
  | c :: s' =>
      (re_ieq SP c && match s' with d :: _ => re_digit d | [] => false end)
      || (re_word c && word_run_then_digit s')
  end.

(** [by \w+ \d+] anchored at the head of [s]. *)
Definition match_by_word_digits (s : text) : bool :=
  match s with
  | b :: y :: sp :: w :: rest =>
      re_ieq 98%N b && re_ieq 121%N y && re_ieq SP sp && re_word w
      && word_run_then_digit rest
  | _ => false
  end.
End Regex.

(* ================================================================= *)
(** * Numbers *)

(** [min(a, b)] and [max(a, b)] on floats: the first argument unless the
    second is strictly smaller (larger). *)
Definition py_min (a b : Q) : Q := if Qltb b a then b else a.
Definition py_max (a b : Q) : Q := if Qltb a b then b else a.

(** [round(x)]: to the nearest integer, ties to the even one. *)
Definition round_half_even (q : Q) : Z :=
  let f := Qfloor q in
  let r := (q - inject_Z f)%Q in
  if Qltb r (1 # 2) then f
  else if Qltb (1 # 2) r then f + 1
  else if Z.even f then f else f + 1.

(** [round(x, ndigits)] *)
Definition py_round (q : Q) (ndigits : nat) : Q :=
  let m := Pos.pow 10 (Pos.of_nat ndigits) in
  match ndigits with
  | O => inject_Z (round_half_even q)
  | _ => round_half_even (q * inject_Z (Zpos m)) # m
  end.

Set Warnings "-inexact-float".

(* ================================================================= *)
(** * Python floats

    The numbers the router scores agents with are Python floats, IEEE
    754 binary64: Rocq's primitive [float], whose operations round to
    nearest, ties to even, as Python's do. *)

Module PyFloat.

(** An integer as an unrounded binary number. *)
Definition int_spec (z : Z) : spec_float :=
  match z with
  | Z0 => S754_zero false
  | Zpos p => S754_finite false p 0
  | Zneg p => S754_finite true p 0
  end.

(** [float(z)]: the float nearest to the integer. Beyond the range of
    the floats Python raises [OverflowError], far out of reach of the
    [Integer] columns; the infinity stands for it here. *)
Definition of_int (z : Z) : float :=
  SF2Prim (binary_normalize prec emax z 0 false).

(** [a / b] on two integers, [b] not zero: the float nearest to the
    quotient. *)
Definition int_truediv (a b : Z) : float :=
  SF2Prim (SFdiv prec emax (int_spec a) (int_spec b)).

(** [bool(x)]: false on the two zeros only. *)
Definition truthy (x : float) : bool := negb (x =? 0)%float.

(** [min(a, b)]: the first argument unless the second is smaller. *)
Definition min (a b : float) : float := if (b <? a)%float then b else a.

(** The number a finite float stands for. *)
Definition exact (x : float) : option Q :=
  match Prim2SF x with
  | S754_zero _ => Some 0%Q
  | S754_finite s m e =>
      let v :=
        if 0 <=? e then inject_Z (Zpos m * 2 ^ e)
        else Zpos m # Pos.pow 2 (Z.to_pos (- e)) in
      Some (if s then (- v)%Q else v)
  | _ => None
  end.

(** [round(x, ndigits)] with [ndigits] given: the float nearest to the
    decimal number with [ndigits] decimals nearest to [x], ties to
    even; the sign is kept, and what is not finite is returned as it
    is. *)
Definition round (x : float) (ndigits : nat) : float :=
  match Prim2SF x, exact x with
  | S754_finite s _ _, Some q =>
      let p := 10 ^ Z.of_nat ndigits in
      let n := round_half_even (q * inject_Z p) in
      if n =? 0 then (if s then neg_zero else zero)
      else SF2Prim (SFdiv prec emax (int_spec n) (int_spec p))
  | _, _ => x
  end.

(** [f"{x:.2f}"] *)
Definition format_2f `{PyRuntime} (x : float) : text :=
  match Prim2SF x, exact x with
  | S754_nan, _ => str "nan"
  | S754_infinity s, _ => if s then str "-inf" else str "inf"
  | S754_zero s, _ => (if s then str "-" else []) ++ py_format_2f 0
  | _, Some q => py_format_2f q
  | _, None => []
  end.

(** The place of a number that is not a NaN in the order of the
    floats: its class (the infinities, the negative and the positive
    numbers, the zeros), then exponent and mantissa. *)
Definition code (f : spec_float) : Z * Z * Z :=
  match f with
  | S754_nan => (0, 0, 0)
  | S754_zero _ => (0, 0, 0)
  | S754_infinity s => (if s then -2 else 2, 0, 0)
  | S754_finite s m e => if s then (-1, - e, Zneg m) else (1, e, Zpos m)
  end.

Definition lex_lt (a b : Z * Z * Z) : Prop :=
  let '(a1, a2, a3) := a in
  let '(b1, b2, b3) := b in
  a1 < b1 \/ (a1 = b1 /\ (a2 < b2 \/ (a2 = b2 /\ a3 < b3))).

End PyFloat.

(** A runtime that is exact on ASCII text: case mapping and classes of
    the ASCII letters and digits, NFC as the identity, and the five
    predefined HTML entities written with their semicolon. It finds no
    e-mail address, phone number or URL, and so stands for the Python
    runtime on texts without any, or when PII masking is off. It runs
    the examples; no theorem over [PyRuntime] depends on it. *)
Definition ascii_is_upper (c : char) : bool := ((65 <=? c) && (c <=? 90))%N.
Definition ascii_is_lower (c : char) : bool := ((97 <=? c) && (c <=? 122))%N.
Definition ascii_is_digit (c : char) : bool := ((48 <=? c) && (c <=? 57))%N.
Definition ascii_to_lower (c : char) : char :=
  if ascii_is_upper c then (c + 32)%N else c.

(** One left-to-right pass, as [html.unescape] makes: the replacement
    text is not scanned again. [skip] counts the characters of an entity
    name still to be dropped. *)
Fixpoint ascii_unescape_from (skip : nat) (s : text) : text :=
  match s with
  | [] => []
  | c :: s' =>
      match skip with
      | S k => ascii_unescape_from k s'
      | O =>
          if (c =? 38)%N then
            if starts_with (str "amp;") s' then 38%N :: ascii_unescape_from 4 s'
            else if starts_with (str "lt;") s' then 60%N :: ascii_unescape_from 3 s'
            else if starts_with (str "gt;") s' then 62%N :: ascii_unescape_from 3 s'
            else if starts_with (str "quot;") s' then 34%N :: ascii_unescape_from 5 s'
            else if starts_with (str "apos;") s' then 39%N :: ascii_unescape_from 5 s'
            else c :: ascii_unescape_from 0 s'
          else c :: ascii_unescape_from 0 s'
      end
  end.

(** Decimal digits of a natural number, most significant first. *)
Fixpoint digits_from (fuel : nat) (n : N) (acc : text) : text :=
  match fuel with
  | O => acc
  | S fuel' =>
      let acc' := (48 + n mod 10)%N :: acc in
      if (n <? 10)%N then acc' else digits_from fuel' (n / 10)%N acc'
  end.

Definition decimal (n : N) : text := digits_from (S (N.to_nat (N.log2 n))) n [].

Definition int_text (z : Z) : text :=
  if z <? 0 then 45%N :: decimal (Z.to_N (- z)) else decimal (Z.to_N z).

(** Two decimals after the point, the hundredths rounded half to even. *)
Definition format_2f (q : Q) : text :=
  let h := round_half_even (q * 100) in
  let a := Z.to_N (Z.abs h) in
  (if Qltb q 0 then [45%N] else [])
  ++ decimal (a / 100)%N ++ [46%N]
  ++ [(48 + (a / 10) mod 10)%N; (48 + a mod 10)%N].

#[export] Instance ascii_runtime : PyRuntime := {|
  py_lower := map ascii_to_lower;
  py_isalpha := fun c => ascii_is_upper c || ascii_is_lower c;
  py_isupper := ascii_is_upper;
  re_ieq := fun a b => (ascii_to_lower a =? ascii_to_lower b)%N;
  re_word := fun c => ascii_is_upper c || ascii_is_lower c || ascii_is_digit c || (c =? 95)%N;
  re_digit := ascii_is_digit;
  py_nfc := fun s => s;
  html_unescape := ascii_unescape_from 0;
  py_format_2f := format_2f;
  py_str_int := int_text;
  findall_email := fun _ => [];
  findall_phone := fun _ => [];
  findall_url := fun _ => []
|}.

(* ================================================================= *)
(** * services/priority_scorer.py *)

Module PriorityScorer.

Inductive PriorityLevel := CRITICAL | HIGH | MEDIUM | LOW | MINIMAL.

(** [PriorityFactor]; the free-text [description] plays no part in the
    computation and is left out. *)
Record PriorityFactor := { name : text; weight : Z }.

(** A JSON scalar of the request metadata; [True]/[False] are the
    numbers 1 and 0, as Python's [==] has them. An absent key and a
    [None] value are both [None : option pyval]. *)
Inductive pyval := VNum (q : Q) | VStr (s : text).

Definition pyval_eqb (a b : pyval) : bool :=
  match a, b with
  | VNum x, VNum y => Qeq_bool x y
  | VStr x, VStr y => text_eqb x y
  | _, _ => false
  end.

Definition opt_pyval_eqb (a b : option pyval) : bool :=
  match a, b with
  | None, None => true
  | Some x, Some y => pyval_eqb x y
  | _, _ => false
  end.

(** An entry of [self.custom_rules], by its ["type"]; the options are
    the keys a rule may leave out. *)
Inductive CustomRule :=
| KeywordRule (keywords : list text) (rname : option text) (rweight : option Z)
| CustomerFieldRule (field : option text) (value : option pyval)
    (rname : option text) (rweight : option Z)
| OtherRule.

Definition URGENT_KEYWORDS : gmap string (list text) :=
  <["en" := map str ["urgent"; "asap"; "immediately"; "critical"; "emergency";
                     "right now"; "can't wait"; "deadline"; "down"; "outage"]]>
  (<["tr" := map str ["acil"; "hemen"; "kritik"; "acilen"; "ivedi"; "derhal";
                      "bekleyemez"; "şimdi"; "çöktü"; "erişilemiyor"]]> ∅).

Definition HIGH_KEYWORDS : gmap string (list text) :=
  <["en" := map str ["not working"; "broken"; "error"; "can't access"; "failed";
                     "stuck"; "blocked"; "crash"; "lost"; "missing"; "deleted"]]>
  (<["tr" := map str ["çalışmıyor"; "bozuk"; "hata"; "erişemiyorum"; "başarısız";
                      "takıldı"; "engellendi"; "çöktü"; "kayboldu"; "silindi"]]> ∅).

Definition CRITICAL_CATEGORIES : list (text * Z) :=
  [(str "technical_issue", 1); (str "bug_report", 1); (str "complaint", 2)].

Definition LOW_PRIORITY_CATEGORIES : list (text * Z) :=
  [(str "feature_request", -1); (str "general_inquiry", 0)].

Definition TIER_BOOSTS : list (text * Z) :=
  [(str "enterprise", 2); (str "vip", 2); (str "premium", 1);
   (str "standard", 0); (str "free", -1)].

Definition LEVEL_MAP (s : Z) : option PriorityLevel :=
  if s =? 5 then Some CRITICAL
  else if s =? 4 then Some HIGH
  else if s =? 3 then Some MEDIUM
  else if s =? 2 then Some LOW
  else if s =? 1 then Some MINIMAL
  else None.

(** The entries of [patterns] that [calculate] reads; [word_count] and
    [has_money_mention] only travel to the breakdown. *)
Record TextPatterns := {
  caps_ratio : Q;
  exclamation_count : Z;
  question_marks : Z;
  has_deadline_mention : bool
}.

Record Breakdown := {
  base_score : Z;
  total_adjustment : Z;
  final_score : Z;
  text_patterns : TextPatterns
}.

Record PriorityResult := {
  score : Z;
  level : PriorityLevel;
  factors : list text;
  factor_details : list PriorityFactor;
  breakdown : Breakdown
}.

Section WithRuntime.
Context `{PyRuntime}.

(** Both languages are scanned whatever [language] is. *)
Definition _check_keywords (txt : text) (keywords : gmap string (list text))
    (language : text) : list text :=
  let text_lower := py_lower txt in
  flat_map
    (fun lang => List.filter (fun keyword => contains keyword text_lower)
                   (default [] (keywords !! lang)))
    ["en"; "tr"]%string.

Definition deadline_patterns : list (text -> bool) :=
  [ istarts_with (str "deadline"); istarts_with (str "due date");
    match_by_word_digits; istarts_with (str "until");
    istarts_with (str "son tarih"); istarts_with (str "tarihe kadar");
    istarts_with (str "süre") ].

Definition _analyze_text_patterns (txt : text) : TextPatterns :=
  match txt with
  | [] =>
      {| caps_ratio := 0; exclamation_count := 0; question_marks := 0;
         has_deadline_mention := false |}
  | _ =>
      let alpha_chars := List.filter py_isalpha txt in
      {| caps_ratio :=
           match alpha_chars with
           | [] => 0
           | _ => Z.of_nat (length (List.filter py_isupper alpha_chars))
                    # Pos.of_nat (length alpha_chars)
           end;
         exclamation_count := Z.of_nat (count_char 33%N txt);
         question_marks := Z.of_nat (count_char 63%N txt);
         has_deadline_mention := existsb (fun p => search p txt) deadline_patterns |}
  end.

Definition _apply_custom_rules (custom_rules : list CustomRule) (txt : text)
    (metadata : gmap text pyval) : list PriorityFactor :=
  flat_map
    (fun rule =>
       match rule with
       | KeywordRule keywords rname rweight =>
           if existsb (fun kw => contains (py_lower kw) (py_lower txt)) keywords
           then [ {| name := default (str "custom_keyword") rname;
                     weight := default 1 rweight |} ]
           else []
       | CustomerFieldRule field value rname rweight =>
           if opt_pyval_eqb (field ≫= fun f => metadata !! f) value
           then [ {| name := default (str "custom_field") rname;
                     weight := default 1 rweight |} ]
           else []
       | OtherRule => []
       end)
    custom_rules.

Definition sum_weights (fs : list PriorityFactor) : Z :=
  fold_left (fun acc f => acc + weight f) fs 0.

(** The numbered steps of [calculate], each giving the factors it
    appends. *)

(* 1. Check urgent keywords *)
Definition urgent_factors (urgent_found : list text) : list PriorityFactor :=
  match urgent_found with
  | [] => []
  | _ => [ {| name := str "urgent_keyword"; weight := 2 |} ]
  end.

(* 2. Check high priority keywords: [if high_found and not urgent_found] *)
Definition high_factors (high_found urgent_found : list text) : list PriorityFactor :=
  match high_found, urgent_found with
  | _ :: _, [] => [ {| name := str "high_priority_keyword"; weight := 1 |} ]
  | _, _ => []
  end.

(* 3. Sentiment impact *)
Definition sentiment_factors (sentiment : option text) : list PriorityFactor :=
  match sentiment with
  | Some s =>
      if mem s [str "negative"; str "angry"]
      then [ {| name := str "sentiment_" ++ s;
                weight := if text_eqb s (str "angry") then 2 else 1 |} ]
      else []
  | None => []
  end.

(* 4. High anger level *)
Definition anger_factors (anger_level : option Q) : list PriorityFactor :=
  match anger_level with
  | Some a =>
      if Qleb (7 # 10) a
      then [ {| name := str "high_anger"; weight := 1 |} ]
      else []
  | None => []
  end.

(* 5. Customer tier *)
Definition tier_factors (customer_tier : text) : list PriorityFactor :=
  let tier_boost := default 0 (dict_get TIER_BOOSTS (py_lower customer_tier)) in
  if tier_boost =? 0 then []
  else [ {| name := str "customer_tier_" ++ customer_tier; weight := tier_boost |} ].

(* 6. Category impact *)
Definition category_factors (category : option text) : list PriorityFactor :=
  match category with
  | Some c =>
      if truthy c then
        match dict_get CRITICAL_CATEGORIES c with
        | Some w => [ {| name := str "critical_category_" ++ c; weight := w |} ]
        | None =>
            match dict_get LOW_PRIORITY_CATEGORIES c with
            | Some w => [ {| name := str "low_priority_category_" ++ c; weight := w |} ]
            | None => []
            end
        end
      else []
  | None => []
  end.

(* 7. Text pattern analysis *)
Definition pattern_factors (patterns : TextPatterns) : list PriorityFactor :=
  (if Qltb (1 # 2) (caps_ratio patterns)
   then [ {| name := str "excessive_caps"; weight := 1 |} ] else [])
  ++ (if 3 <=? exclamation_count patterns
      then [ {| name := str "multiple_exclamations"; weight := 1 |} ] else [])
  ++ (if has_deadline_mention patterns
      then [ {| name := str "deadline_mention"; weight := 1 |} ] else []).

(** [PriorityScorer.calculate]; [custom_rules] is [self.custom_rules]. *)
Definition calculate (custom_rules : list CustomRule) (txt : text)
    (sentiment : option text) (anger_level : option Q) (customer_tier : text)
    (category : option text) (language : text) (metadata : gmap text pyval)
    : PriorityResult :=
  let base_score := 3 in
  let urgent_found := _check_keywords txt URGENT_KEYWORDS language in
  let high_found := _check_keywords txt HIGH_KEYWORDS language in
  let patterns := _analyze_text_patterns txt in
  (* 8. Apply custom rules *)
  let custom_factors := _apply_custom_rules custom_rules txt metadata in
  let factors :=
    urgent_factors urgent_found ++ high_factors high_found urgent_found
    ++ sentiment_factors sentiment ++ anger_factors anger_level
    ++ tier_factors customer_tier ++ category_factors category
    ++ pattern_factors patterns ++ custom_factors in
  let total_weight := sum_weights factors in
  let final_score := Z.max 1 (Z.min 5 (base_score + total_weight)) in
  {| score := final_score;
     level := default MEDIUM (LEVEL_MAP final_score);
     factors := map name factors;
     factor_details := factors;
     breakdown := {| base_score := base_score;
                     total_adjustment := total_weight;
                     final_score := final_score;
                     text_patterns := patterns |} |}.

(** [recalculate_with_override]: the new score. *)
Definition recalculate_with_override (current_score : Z) (direction : text) : Z :=
  let adjustment := if text_eqb direction (str "up") then 1 else -1 in
  Z.max 1 (Z.min 5 (current_score + adjustment)).

End WithRuntime.
End PriorityScorer.

(** ** Section 4.4 of the specification, read as a table

    The weight table of the specification, summed directly: each row is
    a trigger and a signed weight. It is compared with [calculate]. *)
Module PrioritySpec.
Import PriorityScorer.

Section WithRuntime.
Context `{PyRuntime}.

Definition row (trigger : bool) (w : Z) : Z := if trigger then w else 0.

Definition lexemes (d : gmap string (list text)) : list text :=
  default [] (d !! "en"%string) ++ default [] (d !! "tr"%string).

Definition any_lexeme (txt : text) (d : gmap string (list text)) : bool :=
  existsb (fun k => contains k (py_lower txt)) (lexemes d).

Definition is_label (sentiment : option text) (l : string) : bool :=
  match sentiment with
  | Some s => text_eqb s (str l)
  | None => false
  end.

Definition tier_weight (tier : text) : Z :=
  let t := py_lower tier in
  if text_eqb t (str "free") then -1
  else if text_eqb t (str "standard") then 0
  else if text_eqb t (str "premium") then 1
  else if text_eqb t (str "vip") || text_eqb t (str "enterprise") then 2
  else 0.

Definition category_weight (category : option text) : Z :=
  match category with
  | None => 0
  | Some c =>
      if text_eqb c (str "technical_issue") || text_eqb c (str "bug_report") then 1
      else if text_eqb c (str "complaint") then 2
      else if text_eqb c (str "feature_request") then -1
      else 0
  end.

Definition alpha_count (txt : text) : Z := Z.of_nat (length (List.filter py_isalpha txt)).
Definition caps_count (txt : text) : Z :=
  Z.of_nat (length (List.filter (fun c => py_isalpha c && py_isupper c) txt)).

Definition custom_hit (txt : text) (metadata : gmap text pyval) (rule : CustomRule)
    : option Z :=
  match rule with
  | KeywordRule keywords _ w =>
      if existsb (fun kw => contains (py_lower kw) (py_lower txt)) keywords
      then Some (default 1 w) else None
  | CustomerFieldRule field value _ w =>
      if opt_pyval_eqb (field ≫= fun f => metadata !! f) value
      then Some (default 1 w) else None
  | OtherRule => None
  end.

Definition custom_weight (custom_rules : list CustomRule) (txt : text)
    (metadata : gmap text pyval) : Z :=
  fold_right (fun rule acc => default 0 (custom_hit txt metadata rule) + acc) 0
    custom_rules.

Definition weight_sum (custom_rules : list CustomRule) (txt : text)
    (sentiment : option text) (anger_level : option Q) (customer_tier : text)
    (category : option text) (metadata : gmap text pyval) : Z :=
  let urgent := any_lexeme txt URGENT_KEYWORDS in
  let high := any_lexeme txt HIGH_KEYWORDS in
  row urgent 2
  + row (high && negb urgent) 1
  + row (is_label sentiment "negative") 1
  + row (is_label sentiment "angry") 2
  + row (match anger_level with Some a => Qleb (7 # 10) a | None => false end) 1
  + tier_weight customer_tier
  + category_weight category
  + row (alpha_count txt <? 2 * caps_count txt) 1
  + row (3 <=? Z.of_nat (count_char 33%N txt)) 1
  + row (existsb (fun p => search p txt) deadline_patterns) 1
  + custom_weight custom_rules txt metadata.

Definition clamp_1_5 (x : Z) : Z := Z.max 1 (Z.min 5 x).

End WithRuntime.
End PrioritySpec.

(* ================================================================= *)
(** * services/sentiment.py *)

Module SentimentAnalyzer.

Inductive Sentiment := POSITIVE | NEUTRAL | NEGATIVE | ANGRY.

(** [Sentiment.value] *)
Definition value (s : Sentiment) : text :=
  match s with
  | POSITIVE => str "positive"
  | NEUTRAL => str "neutral"
  | NEGATIVE => str "negative"
  | ANGRY => str "angry"
  end.

Definition POSITIVE_TR : list text :=
  map str ["teşekkür"; "memnun"; "harika"; "güzel"; "mükemmel"; "süper";
           "çok iyi"; "başarılı"; "mutlu"; "sevindim"; "beğendim"; "muhteşem"].
Definition NEGATIVE_TR : list text :=
  map str ["sorun"; "problem"; "hata"; "kötü"; "berbat"; "rezalet";
           "memnuniyetsiz"; "mutsuz"; "hayal kırıklığı"; "üzgün"; "kızgın"].
Definition ANGRY_TR : list text :=
  map str ["rezalet"; "skandal"; "kabul edilemez"; "saçmalık"; "utanç";
           "inanılmaz"; "dava"; "şikayet"; "berbat"; "felaket"; "çok kızgın"].
Definition POSITIVE_EN : list text :=
  map str ["thank"; "thanks"; "great"; "excellent"; "wonderful"; "happy";
           "satisfied"; "love"; "amazing"; "perfect"; "awesome"].
Definition NEGATIVE_EN : list text :=
  map str ["problem"; "issue"; "bad"; "terrible"; "awful"; "disappointed";
           "unhappy"; "frustrated"; "annoyed"; "upset"; "wrong"].
Definition ANGRY_EN : list text :=
  map str ["unacceptable"; "outrageous"; "ridiculous"; "furious"; "lawsuit";
           "complaint"; "worst"; "hate"; "disgusting"; "horrible"].

(** A number read from a JSON object: the key may be missing, and the
    value may be something [>=] cannot compare with a float. *)
Inductive json_number := JAbsent | JNumber (q : Q) | JOther.

(** The object the chat-completion provider returns, by the keys
    [analyze] reads. [r_sentiment] is [None] when the key is missing or
    its value is not a string. *)
Record OpenAIReply := {
  r_sentiment : option text;
  r_score : option Q;
  r_confidence : option Q;
  r_anger_level : json_number;
  r_satisfaction_prediction : option Z;
  r_reasoning : option text
}.

(** What the outside world answers during one call of [analyze]:
    [openai] is [None] when [_analyze_with_openai] raises after its
    retries (or the reply is not a JSON object); [huggingface] is the
    pipeline's [(label, score)], [None] when the model cannot be
    loaded or run. *)
Record Providers := {
  openai : option OpenAIReply;
  huggingface : option (text * Q)
}.

(** The dict [analyze] returns. A missing key is [None]. *)
Record Result := {
  sentiment : text;
  score : option Q;
  confidence : option Q;
  anger_level : option Q;
  satisfaction_prediction : option Z;
  reasoning : option text;
  method : text
}.

Section WithRuntime.
Context `{PyRuntime}.

(** [sum(1 for w in words if w in text_lower)] *)
Definition count_hits (words : list text) (text_lower : text) : nat :=
  length (List.filter (fun w => contains w text_lower) words).

Definition angry_words (language : text) : list text :=
  if text_eqb language (str "tr") then ANGRY_TR else ANGRY_EN.

Definition _analyze_with_rules (txt : text) (language : text) : Result :=
  let text_lower := py_lower txt in
  let is_tr := text_eqb language (str "tr") in
  let positive_words := if is_tr then POSITIVE_TR else POSITIVE_EN in
  let negative_words := if is_tr then NEGATIVE_TR else NEGATIVE_EN in
  let positive_count := Z.of_nat (count_hits positive_words text_lower) in
  let negative_count := Z.of_nat (count_hits negative_words text_lower) in
  let angry_count := Z.of_nat (count_hits (angry_words language) text_lower) in
  let total := positive_count + negative_count + 1 in
  let score := (inject_Z (positive_count - negative_count) / inject_Z total)%Q in
  let anger_level := py_min (inject_Z angry_count * (1 # 4)) 1 in
  let sentiment :=
    if Qleb (7 # 10) anger_level then ANGRY
    else if Qltb (2 # 10) score then POSITIVE
    else if Qltb score (- (2 # 10)) then NEGATIVE
    else NEUTRAL in
  let satisfaction : Q :=
    match sentiment with
    | POSITIVE => (4 + score)%Q
    | ANGRY => 1%Q
    | NEGATIVE => (2 - score)%Q
    | NEUTRAL => 3%Q
    end in
  {| sentiment := value sentiment;
     score := Some (py_round score 3);
     confidence := Some (6 # 10);
     anger_level := Some (py_round anger_level 3);
     satisfaction_prediction :=
       Some (round_half_even (py_min (py_max satisfaction 1) 5));
     reasoning := Some (str "Rule-based analysis");
     method := str "rule_based" |}.

Definition _detect_anger (txt : text) (language : text) : Q :=
  let text_lower := py_lower txt in
  let count := Z.of_nat (count_hits (angry_words language) text_lower) in
  let caps_ratio :=
    (inject_Z (Z.of_nat (length (List.filter py_isupper txt)))
     / inject_Z (Z.of_nat (Nat.max (length txt) 1)))%Q in
  let exclamation_count := Z.of_nat (count_char 33%N txt) in
  py_min (inject_Z count * (2 # 10) + caps_ratio * (5 # 10)
          + inject_Z exclamation_count * (1 # 10))%Q 1.

Definition _predict_satisfaction (s : Sentiment) (score : Q) : Z :=
  let base : Q :=
    match s with POSITIVE => 4%Q | NEUTRAL => 3%Q | NEGATIVE => 2%Q | ANGRY => 1%Q end in
  let adjustment := (score * (5 # 10))%Q in
  round_half_even (py_min (py_max (base + adjustment) 1) 5).

(** [_analyze_with_huggingface]; [hf] is what [model(text[:512])[0]]
    gives, [None] being the [RuntimeError] (or any failure of the
    model). *)
Definition _analyze_with_huggingface (hf : option (text * Q)) (txt : text)
    (language : text) : option Result :=
  '(label0, hf_score) ← hf;
  let label := py_lower label0 in
  let '(sentiment0, score) :=
    if contains (str "positive") label || contains (str "pos") label
    then (POSITIVE, hf_score)
    else if contains (str "negative") label || contains (str "neg") label
    then (NEGATIVE, (- hf_score)%Q)
    else (NEUTRAL, 0%Q) in
  let anger_level := _detect_anger txt language in
  let sentiment := if Qleb (7 # 10) anger_level then ANGRY else sentiment0 in
  Some {| sentiment := value sentiment;
          score := Some (py_round score 3);
          confidence := Some (py_round hf_score 3);
          anger_level := Some (py_round anger_level 3);
          satisfaction_prediction := Some (_predict_satisfaction sentiment score);
          reasoning := Some (str "HuggingFace model analysis");
          method := str "huggingface" |}.

(** The provider's object as the result dict, with [method] set. *)
Definition of_openai (r : OpenAIReply) : option Result :=
  match r_anger_level r with
  | JOther => None
  | a =>
      Some {| sentiment := default [] (r_sentiment r);
              score := r_score r;
              confidence := r_confidence r;
              anger_level := match a with JNumber q => Some q | _ => None end;
              satisfaction_prediction := r_satisfaction_prediction r;
              reasoning := r_reasoning r;
              method := str "openai" |}
  end.

(** The two statements after the dispatch: validate the label, then
    override it when the anger level is high. A reply without a string
    label carries [""] here, which is no member of the enumeration
    either. *)
Definition validate_and_override (r : Result) : Result :=
  let s1 :=
    if mem (sentiment r) (map value [POSITIVE; NEUTRAL; NEGATIVE; ANGRY])
    then sentiment r else value NEUTRAL in
  let s2 :=
    if Qleb (7 # 10) (default 0%Q (anger_level r)) then value ANGRY else s1 in
  {| sentiment := s2; score := score r; confidence := confidence r;
     anger_level := anger_level r;
     satisfaction_prediction := satisfaction_prediction r;
     reasoning := reasoning r; method := method r |}.

(** [SentimentAnalyzer.analyze]. [use_huggingface] is the attribute of
    [self]; [has_api_key] is the truth value of
    [settings.openai_api_key]. The body of [try] either yields a result
    or raises, and every exception leads to the rule-based result. The
    comparison [result.get("anger_level", 0) >= 0.7] raises on a value
    that is not a number. *)
Definition analyze (use_huggingface has_api_key : bool) (world : Providers)
    (txt0 : text) (language : text) (method0 : text) : Result :=
  if negb (truthy txt0) || negb (truthy (strip txt0)) then
    {| sentiment := value NEUTRAL; score := Some 0%Q; confidence := Some 0%Q;
       anger_level := Some 0%Q; satisfaction_prediction := Some 3;
       reasoning := Some (str "Empty text"); method := str "default" |}
  else
    let txt := firstn 2000 (strip txt0) in
    let method1 :=
      if text_eqb method0 (str "auto")
      then (if has_api_key then str "openai" else str "rules")
      else method0 in
    let attempt : option Result :=
      if text_eqb method1 (str "openai") then
        r ← openai world;
        res ← of_openai r;
        Some (validate_and_override res)
      else if text_eqb method1 (str "huggingface") && use_huggingface then
        res ← _analyze_with_huggingface (huggingface world) txt language;
        Some (validate_and_override res)
      else
        Some (validate_and_override (_analyze_with_rules txt language)) in
    match attempt with
    | Some result => result
    | None => _analyze_with_rules txt language
    end.

End WithRuntime.
End SentimentAnalyzer.

(** ** Section 4.3 of the specification: the anger level of the rule
    fallback, in the specification's words *)
Module SentimentSpec.
Import SentimentAnalyzer.

Section WithRuntime.
Context `{PyRuntime}.

Definition angry_word_count (txt language : text) : Z :=
  Z.of_nat (count_hits (angry_words language) (py_lower txt)).

Definition caps_ratio (txt : text) : Q :=
  (inject_Z (Z.of_nat (length (List.filter py_isupper txt)))
   / inject_Z (Z.of_nat (Nat.max (length txt) 1)))%Q.

Definition exclamation_count (txt : text) : Z := Z.of_nat (count_char 33%N txt).

(** [min(0.2*angry_word_count + 0.5*caps_ratio + 0.1*exclamation_count, 1.0)] *)
Definition anger_level_formula (txt language : text) : Q :=
  Qmin ((2 # 10) * inject_Z (angry_word_count txt language)
        + (5 # 10) * caps_ratio txt
        + (1 # 10) * inject_Z (exclamation_count txt))%Q 1.

(** What the rule fallback computes instead: a quarter per angry word,
    capped at one. *)
Definition quarter_per_word (count : Z) : Q :=
  if count <? 4 then count # 4 else 1%Q.

End WithRuntime.
End SentimentSpec.

(* ================================================================= *)
(** * services/classifier.py *)

Module TicketClassifier.

Definition DEFAULT_CATEGORIES : list text :=
  map str ["technical_issue"; "billing_question"; "feature_request"; "bug_report";
           "account_management"; "return_refund"; "general_inquiry"; "complaint"].

(** The dict [classify] returns; a missing key is [None]. *)
Record Result := {
  primary_category : text;
  confidence : option Q;
  all_categories : list (text * Q);
  reasoning : option text;
  method : text
}.

(** The object the provider returns. [r_primary_category] is [None]
    when the key is missing and [Some None] when its value is not a
    string. *)
Record AIReply := {
  r_primary_category : option (option text);
  r_confidence : option Q;
  r_all_categories : list (text * Q);
  r_reasoning : option text
}.

(** What [classify] does to the outside world, in order. *)
Inductive event :=
| CacheGet (key : text)
| CacheSet (key : text) (ttl : Z) (value : Result)
| ProviderCall (language txt : text).

(** The outside world during one call: the digest function, what the
    cache holds ([None] for a miss, a connection or read error, or a
    falsy entry), and what the provider answers at each attempt for the
    prompts built from a language and a text ([None] when the call or
    the parsing of its answer raises). *)
Record World := {
  md5_hex : text -> text;
  redis_get : text -> option Result;
  provider : nat -> text -> text -> option AIReply
}.

(** The attributes of [self]; [cache_enabled] already takes
    [settings.redis_url] into account. *)
Record Classifier := {
  categories : list text;
  cache_enabled : bool;
  cache_ttl : Z
}.

Definition keyword_map : list (text * list text) :=
  [ (str "technical_issue",
     map str ["error"; "failure"; "not working"; "broken"; "crash";
              "bug"; "issue"; "problem"; "glitch"; "defective"]);
    (str "billing_question",
     map str ["invoice"; "payment"; "charge"; "price"; "cost";
              "bill"; "receipt"; "subscription"; "fee"; "refund"]);
    (str "feature_request",
     map str ["feature"; "suggestion"; "add"; "request"; "improve";
              "enhancement"; "idea"; "would be nice"]);
    (str "bug_report",
     map str ["bug"; "defect"; "flaw"; "wrong"; "unexpected";
              "error"; "glitch"; "malfunction"]);
    (str "account_management",
     map str ["account"; "password"; "login"; "profile"; "access";
              "register"; "signup"; "signin"; "auth"]);
    (str "return_refund",
     map str ["return"; "refund"; "exchange"; "cancel"; "money back";
              "reimbursement"]);
    (str "complaint",
     map str ["complaint"; "unhappy"; "terrible"; "bad"; "worst";
              "disappointed"; "awful"; "horrible"; "upset"; "angry"]) ].

(** [max(scores, key=scores.get)]: the first key, in insertion order,
    whose value no later key exceeds. [best] is the running maximum. *)
Fixpoint first_max (best : text * Q) (rest : list (text * Q)) : text * Q :=
  match rest with
  | [] => best
  | kv :: rest' => first_max (if Qltb (snd best) (snd kv) then kv else best) rest'
  end.

(** The default answer for empty content. *)
Definition empty_content_result : Result :=
  {| primary_category := str "general_inquiry";
     confidence := Some 0%Q;
     all_categories := [(str "general_inquiry", 1%Q)];
     reasoning := Some (str "Empty ticket content");
     method := str "default" |}.

Section WithRuntime.
Context `{PyRuntime}.

Definition _rule_based_fallback (txt : text) : Result :=
  let text_lower := py_lower txt in
  let scores :=
    map (fun '(category, keywords) =>
           let score :=
             Z.of_nat (length (List.filter (fun kw => contains kw text_lower) keywords)) in
           (category, py_min (inject_Z score * (2 # 10)) (9 # 10)))
        keyword_map
    ++ [(str "general_inquiry", 3 # 10)] in
  let '(best_category, best_score) :=
    match scores with
    | [] => (str "general_inquiry", 3 # 10)
    | kv :: rest => first_max kv rest
    end in
  let total0 := fold_left Qplus (map snd scores) 0%Q in
  let total := if Qeq_bool total0 0 then 1%Q else total0 in
  {| primary_category := best_category;
     confidence := Some (py_round best_score 3);
     all_categories := map (fun '(k, v) => (k, py_round (v / total) 3)) scores;
     reasoning := Some (str "Rule-based classification (AI fallback)");
     method := str "rule_based" |}.

(** [_call_openai] under its retry decorator: up to [attempts] calls,
    stopping at the first that returns. *)
Fixpoint _call_openai (w : World) (attempts n : nat) (language txt : text)
    : option AIReply * list event :=
  match attempts with
  | O => (None, [])
  | S k =>
      match provider w n language txt with
      | Some r => (Some r, [ProviderCall language txt])
      | None =>
          let '(r, evs) := _call_openai w k (S n) language txt in
          (r, ProviderCall language txt :: evs)
      end
  end.

(** [TicketClassifier.classify]: the result and the trace of cache and
    provider accesses. *)
Definition classify (self : Classifier) (w : World) (txt0 language : text)
    (use_cache : bool) : Result * list event :=
  if negb (truthy txt0) || negb (truthy (strip txt0)) then
    (empty_content_result, [])
  else
    let txt := firstn 5000 (strip txt0) in
    let caching := use_cache && cache_enabled self in
    let cache_key := str "classify:" ++ md5_hex w txt in
    let cached := if caching then redis_get w cache_key else None in
    let ev_get := if caching then [CacheGet cache_key] else [] in
    match cached with
    | Some c =>
        ({| primary_category := primary_category c; confidence := confidence c;
            all_categories := all_categories c; reasoning := reasoning c;
            method := str "ai_cached" |}, ev_get)
    | None =>
        let '(reply, ev_ai) := _call_openai w 3 1 language txt in
        match reply ≫= (fun r => pc ← r_primary_category r; Some (r, pc)) with
        | Some (r, pc) =>
            let result :=
              {| primary_category :=
                   match pc with
                   | Some c => if mem c (categories self) then c else str "general_inquiry"
                   | None => str "general_inquiry"
                   end;
                 confidence := r_confidence r;
                 all_categories := r_all_categories r;
                 reasoning := r_reasoning r;
                 method := str "ai" |} in
            let ev_set :=
              if caching then [CacheSet cache_key (cache_ttl self) result] else [] in
            (result, ev_get ++ ev_ai ++ ev_set)
        | None => (_rule_based_fallback txt, ev_get ++ ev_ai)
        end
    end.

End WithRuntime.
End TicketClassifier.

(* ================================================================= *)
(** * models/rule.py *)

Set Warnings "-register-all".

(** JSON values as the [conditions] and [action_params] columns hold
    them: null, booleans, integers, strings and arrays. *)
Inductive json :=
| JNull
| JBool (b : bool)
| JInt (z : Z)
| JStr (s : text)
| JArr (l : list json).

Module Json.

(** Python's [==] on decoded JSON; [True == 1] and [False == 0]. *)
Fixpoint eqb (a b : json) : bool :=
  match a, b with
  | JNull, JNull => true
  | JBool x, JBool y => Bool.eqb x y
  | JBool x, JInt y => (if x then 1 else 0) =? y
  | JInt x, JBool y => x =? (if y then 1 else 0)
  | JInt x, JInt y => x =? y
  | JStr x, JStr y => text_eqb x y
  | JArr x, JArr y =>
      (fix go (l1 l2 : list json) : bool :=
         match l1, l2 with
         | [], [] => true
         | u :: l1', v :: l2' => eqb u v && go l1' l2'
         | _, _ => false
         end) x y
  | _, _ => false
  end.

Definition of_text (o : option text) : json :=
  match o with Some s => JStr s | None => JNull end.

(** [x in c]; [None] is the [TypeError] of a container that cannot be
    searched for [x]. *)
Definition py_in (x c : json) : option bool :=
  match c with
  | JArr l => Some (existsb (eqb x) l)
  | JStr s => match x with JStr sub => Some (contains sub s) | _ => None end
  | _ => None
  end.

(** An operand of [<=] among integers; [None] is the [TypeError]. *)
Definition to_int (j : json) : option Z :=
  match j with
  | JInt z => Some z
  | JBool b => Some (if b then 1 else 0)
  | _ => None
  end.

(** The items a [for] loop over the value visits; [None] when it is
    not iterable. A string yields its characters. *)
Definition items (j : json) : option (list json) :=
  match j with
  | JArr l => Some l
  | JStr s => Some (map (fun c => JStr [c]) s)
  | _ => None
  end.

End Json.

(** [now = datetime.utcnow()], by what is read from it. *)
Record Clock := {
  now : Z;            (* the instant, as a timestamp *)
  weekday : Z;        (* [now.weekday()], 0 is Monday *)
  hhmm : text         (* [now.strftime("%H:%M")] *)
}.

(** [a <= b] on strings: lexicographic on code points. *)
Fixpoint text_leb (a b : text) : bool :=
  match a, b with
  | [], _ => true
  | _ :: _, [] => false
  | x :: a', y :: b' => (x <? y)%N || ((x =? y)%N && text_leb a' b')
  end.

(** Truth value of an optional string column. *)
Definition truthy_opt (o : option text) : bool :=
  match o with Some s => truthy s | None => false end.

Module RoutingRule.

Inductive RuleType :=
  CATEGORY | KEYWORD | SENTIMENT | PRIORITY | CUSTOMER | TIME | LANGUAGE | CUSTOM.

Inductive RuleAction :=
  ASSIGN_AGENT | ASSIGN_TEAM | SET_PRIORITY | ADD_TAG | ESCALATE | AUTO_REPLY
| NOTIFY | SKIP_QUEUE.

Record RoutingRule := {
  name : text;
  rule_type : RuleType;
  conditions : gmap string json;
  action : RuleAction;
  action_params : gmap string json;
  priority : Z;
  is_active : bool;
  is_exclusive : bool;
  applies_to_sources : option (list text);
  applies_to_categories : option (list text);
  active_from : option Z;
  active_until : option Z;
  active_hours_start : option text;
  active_hours_end : option text;
  active_days : option (list Z)
}.

(** The [ticket_data] dict that [TicketRouter.route] builds: these keys
    are always present, so the defaults of [ticket_data.get] are never
    taken. *)
Record TicketData := {
  td_category : option text;
  td_priority : Z;
  td_language : text;
  td_customer_tier : option text;
  td_source : option text;
  td_content : text;
  td_sentiment : option text;
  td_subject : text
}.

(** [conditions.get(key, default)] *)
Definition get (conditions : gmap string json) (key : string) (dflt : json) : json :=
  default dflt (conditions !! key).

Definition _check_time_restrictions (self : RoutingRule) (clock : Clock) : bool :=
  if match active_from self with Some t => now clock <? t | None => false end
  then false
  else if match active_until self with Some t => t <? now clock | None => false end
  then false
  else if match active_days self with
          | Some days => negb (existsb (Z.eqb (weekday clock)) days)
          | None => false
          end
  then false
  else if truthy_opt (active_hours_start self) && truthy_opt (active_hours_end self)
          && negb (text_leb (default [] (active_hours_start self)) (hhmm clock)
                   && text_leb (hhmm clock) (default [] (active_hours_end self)))
  then false
  else true.

Section WithRuntime.
Context `{PyRuntime}.

(** [any(kw.lower() in content for kw in keywords)], left to right;
    [None] when an item met on the way is not a string. *)
Fixpoint any_keyword (content : text) (keywords : list json) : option bool :=
  match keywords with
  | [] => Some false
  | JStr kw :: rest =>
      if contains (py_lower kw) content then Some true else any_keyword content rest
  | _ :: _ => None
  end.

(** [all(kw.lower() in content for kw in keywords)] *)
Fixpoint all_keywords (content : text) (keywords : list json) : option bool :=
  match keywords with
  | [] => Some true
  | JStr kw :: rest =>
      if contains (py_lower kw) content then all_keywords content rest else Some false
  | _ :: _ => None
  end.

(** [_evaluate_conditions]; [None] is an exception. *)
Definition _evaluate_conditions (self : RoutingRule) (ticket_data : TicketData)
    : option bool :=
  let conditions := conditions self in
  match rule_type self with
  | CATEGORY =>
      Json.py_in (Json.of_text (td_category ticket_data))
        (get conditions "categories" (JArr []))
  | KEYWORD =>
      let keywords := get conditions "keywords" (JArr []) in
      let match_mode := get conditions "match_mode" (JStr (str "any")) in
      let content :=
        py_lower (td_content ticket_data ++ str " " ++ td_subject ticket_data) in
      kws ← Json.items keywords;
      if Json.eqb match_mode (JStr (str "any"))
      then any_keyword content kws
      else all_keywords content kws
  | SENTIMENT =>
      Json.py_in (Json.of_text (td_sentiment ticket_data))
        (get conditions "sentiments" (JArr []))
  | PRIORITY =>
      let min_priority := get conditions "min_priority" (JInt 1) in
      let max_priority := get conditions "max_priority" (JInt 5) in
      let ticket_priority := td_priority ticket_data in
      lo ← Json.to_int min_priority;
      if lo <=? ticket_priority
      then hi ← Json.to_int max_priority; Some (ticket_priority <=? hi)
      else Some false
  | CUSTOMER =>
      Json.py_in (Json.of_text (td_customer_tier ticket_data))
        (get conditions "tiers" (JArr []))
  | LANGUAGE =>
      Json.py_in (JStr (td_language ticket_data))
        (get conditions "languages" (JArr []))
  | CUSTOM => Some false
  | TIME => Some false
  end.

(** [RoutingRule.matches] *)
Definition matches (self : RoutingRule) (clock : Clock) (ticket_data : TicketData)
    : option bool :=
  if negb (is_active self) then Some false
  else if negb (_check_time_restrictions self clock) then Some false
  else if match applies_to_sources self, td_source ticket_data with
          | Some (_ :: _ as sources), Some source =>
              truthy source && negb (mem source sources)
          | _, _ => false
          end
  then Some false
  else if match applies_to_categories self, td_category ticket_data with
          | Some (_ :: _ as cats), Some category =>
              truthy category && negb (mem category cats)
          | _, _ => false
          end
  then Some false
  else _evaluate_conditions self ticket_data.

End WithRuntime.
End RoutingRule.

(* ================================================================= *)
(** * models/agent.py *)

Module Agent.

Inductive AgentStatus := ONLINE | OFFLINE | BUSY | AWAY | ON_BREAK.

(** The columns the router and the ticket API read. [id] is the UUID in
    its string form; the values of [specializations] are floats. *)
Record Agent := {
  id : text;
  name : text;
  team : option text;
  skills : list text;
  languages : list text;
  experience_level : Z;
  specializations : list (text * float);
  current_load : Z;
  max_load : Z;
  status : AgentStatus;
  is_active : bool;
  work_hours_start : option text;
  work_hours_end : option text;
  working_days : list Z;
  customer_satisfaction_score : option float;
  quality_score : option float;
  can_handle_critical : bool;
  can_handle_vip : bool
}.

Definition status_eqb (a b : AgentStatus) : bool :=
  match a, b with
  | ONLINE, ONLINE | OFFLINE, OFFLINE | BUSY, BUSY | AWAY, AWAY
  | ON_BREAK, ON_BREAK => true
  | _, _ => false
  end.

(** The property [is_available] *)
Definition is_available (self : Agent) : bool :=
  is_active self && status_eqb (status self) ONLINE
  && (current_load self <? max_load self).

(** The property [load_percentage] *)
Definition load_percentage (self : Agent) : float :=
  if max_load self =? 0 then 100%float
  else (PyFloat.int_truediv (current_load self) (max_load self) * 100)%float.

(** The property [available_capacity] *)
Definition available_capacity (self : Agent) : Z :=
  Z.max 0 (max_load self - current_load self).

Definition can_handle_category (self : Agent) (category : text) : bool :=
  mem category (skills self).

Definition can_handle_language (self : Agent) (language : text) : bool :=
  mem language (languages self).

Definition get_skill_score (self : Agent) (category : text) : float :=
  default 0.5%float (dict_get (specializations self) category).

(** [agent.current_load += d] *)
Definition add_load (d : Z) (self : Agent) : Agent :=
  {| id := id self; name := name self; team := team self; skills := skills self;
     languages := languages self; experience_level := experience_level self;
     specializations := specializations self;
     current_load := current_load self + d;
     max_load := max_load self; status := status self; is_active := is_active self;
     work_hours_start := work_hours_start self;
     work_hours_end := work_hours_end self; working_days := working_days self;
     customer_satisfaction_score := customer_satisfaction_score self;
     quality_score := quality_score self;
     can_handle_critical := can_handle_critical self;
     can_handle_vip := can_handle_vip self |}.

End Agent.

(* ================================================================= *)
(** * models/ticket.py and the database session *)

Module Ticket.

Inductive TicketStatus :=
  NEW | OPEN | PENDING | IN_PROGRESS | RESOLVED | CLOSED | ESCALATED.

(** The columns the pipeline and the ticket API read or write.
    [processing_error] records whether the column is set. *)
Record Ticket := {
  id : text;
  content : text;
  language : text;
  customer_tier : option text;
  category : option text;
  sentiment : option text;
  priority : Z;
  assigned_agent_id : option text;
  previous_agent_id : option text;
  assignment_reason : option text;
  escalated : bool;
  status : TicketStatus;
  is_processed : bool;
  processing_error : bool
}.

End Ticket.

(** The rows of the three tables, agents and rules in the order the
    database returns them, tickets by primary key. *)
Record Database := {
  agents : list Agent.Agent;
  rules : list RoutingRule.RoutingRule;
  tickets : gmap text Ticket.Ticket
}.

(* ================================================================= *)
(** * services/router.py *)

(** [list.sort(key=key, reverse=True)]: descending, and stable, so that
    items with equal keys keep their relative order. [insert_desc] puts
    [x] before the first item whose key does not exceed its own. *)
Fixpoint insert_desc {A} (key : A -> Q) (x : A) (l : list A) : list A :=
  match l with
  | [] => [x]
  | y :: l' => if Qltb (key x) (key y) then y :: insert_desc key x l' else x :: l
  end.

Definition sort_desc {A} (key : A -> Q) (l : list A) : list A :=
  fold_right (insert_desc key) [] l.

(** [l.sort(key=key, reverse=True)] for keys compared by [lt]:
    descending and stable. *)
Fixpoint insert_desc_by {A K} (lt : K -> K -> bool) (key : A -> K) (x : A)
    (l : list A) : list A :=
  match l with
  | [] => [x]
  | y :: l' =>
      if lt (key x) (key y) then y :: insert_desc_by lt key x l' else x :: l
  end.

Definition sort_desc_by {A K} (lt : K -> K -> bool) (key : A -> K) (l : list A)
    : list A :=
  fold_right (insert_desc_by lt key) [] l.

(** [min(l, key=key)] on a non-empty list: the first item with the
    least key. *)
Fixpoint first_min {A} (key : A -> Z) (best : A) (rest : list A) : A :=
  match rest with
  | [] => best
  | x :: rest' => first_min key (if key x <? key best then x else best) rest'
  end.

(** [l[:k]]: a negative [k] counts from the end. *)
Definition slice_to {A} (k : Z) (l : list A) : list A :=
  if k <? 0 then firstn (Z.to_nat (Z.of_nat (length l) + k)) l
  else firstn (Z.to_nat k) l.

Module TicketRouter.
Import Agent.

Definition SKILL_MATCH := str "skill_match".
Definition LANGUAGE_MATCH := str "language_match".
Definition VIP_HANDLER := str "vip_handler".
Definition CRITICAL_HANDLER := str "critical_handler".
Definition LOAD_BALANCE := str "load_balance".
Definition RULE_BASED := str "rule_based".
Definition ESCALATION := str "escalation".
Definition NO_AGENTS := str "no_available_agents".

Record RoutingCandidate := {
  agent : Agent;
  score : float;
  reasons : list text
}.

Record Alternative := {
  alt_agent_id : text;
  alt_agent_name : text;
  alt_score : float;
  alt_reasons : list text
}.

(** The routing decision dict; a key that a path does not set is
    [None] (or the empty list for [alternatives], which is what
    [result.get("alternatives", [])] reads then). *)
Record Decision := {
  agent_id : option text;
  agent_name : option text;
  d_team : option text;
  reason : text;
  confidence : float;
  d_score : option float;
  score_breakdown : list text;
  alternatives : list Alternative;
  rule_name : option text;
  escalation_reason : option json;
  previous_agent_id : option text;
  reassignment_reason : option text
}.

Definition _get_available_agents (db : Database)
    (require_vip_handler require_critical_handler : bool) : list Agent :=
  List.filter
    (fun a =>
       is_active a && status_eqb (status a) ONLINE
       && (current_load a <? max_load a)
       && (if require_vip_handler then can_handle_vip a else true)
       && (if require_critical_handler then can_handle_critical a else true))
    (agents db).

(** Active rules by descending priority; among equal priorities the
    stored order is kept. *)
Definition _get_routing_rules (db : Database) : list RoutingRule.RoutingRule :=
  sort_desc (fun r => inject_Z (RoutingRule.priority r))
    (List.filter RoutingRule.is_active (rules db)).

Definition _is_within_working_hours (a : Agent) (clock : Clock) : bool :=
  if match working_days a with
     | _ :: _ as days => negb (existsb (Z.eqb (weekday clock)) days)
     | [] => false
     end
  then false
  else if truthy_opt (work_hours_start a) && truthy_opt (work_hours_end a)
  then text_leb (default [] (work_hours_start a)) (hhmm clock)
       && text_leb (hhmm clock) (default [] (work_hours_end a))
  else true.

Definition no_agents_decision : Decision :=
  {| agent_id := None; agent_name := None; d_team := None; reason := NO_AGENTS;
     confidence := 0%float; d_score := None; score_breakdown := []; alternatives := [];
     rule_name := None; escalation_reason := None;
     previous_agent_id := None; reassignment_reason := None |}.

Definition rule_decision (a : Agent) (conf : float) (rule : RoutingRule.RoutingRule)
    : Decision :=
  {| agent_id := Some (id a); agent_name := Some (name a); d_team := team a;
     reason := RULE_BASED; confidence := conf; d_score := None;
     score_breakdown := []; alternatives := [];
     rule_name := Some (RoutingRule.name rule); escalation_reason := None;
     previous_agent_id := None; reassignment_reason := None |}.

Definition json_text (j : option json) : option text :=
  match j with Some (JStr s) => Some s | _ => None end.

Section WithRuntime.
Context `{PyRuntime}.

(** [_calculate_agent_score]: the score is a float, each step one
    rounded operation, in the order of the source. *)
Definition _calculate_agent_score (a : Agent) (category : option text)
    (language : text) (priority : Z) (customer_tier : option text)
    : RoutingCandidate :=
  (* skill match *)
  let '(s1, r1) :=
    match category, skills a with
    | Some c, _ :: _ =>
        if truthy c && mem c (skills a) then
          match specializations a with
          | _ :: _ =>
              let expertise := default 0.5%float (dict_get (specializations a) c) in
              ((50 + 30 + expertise * 10)%float,
               [str "skill_match:" ++ c;
                str "expertise:" ++ PyFloat.format_2f expertise])
          | [] => ((50 + 30)%float, [str "skill_match:" ++ c])
          end
        else (50%float, [])
    | _, _ => (50%float, [])
    end in
  (* language match *)
  let '(s2, r2) :=
    if truthy language && mem language (languages a)
    then ((s1 + 15)%float, r1 ++ [str "language_match:" ++ language])
    else (s1, r1) in
  (* experience for high priority *)
  let '(s3, r3) :=
    if 4 <=? priority
    then ((s2 + PyFloat.of_int (experience_level a * 5))%float,
          r2 ++ [str "experience:" ++ py_str_int (experience_level a)])
    else (s2, r2) in
  (* VIP handling *)
  let '(s4, r4) :=
    if match customer_tier with
       | Some t => mem t [str "vip"; str "enterprise"]
       | None => false
       end && can_handle_vip a
    then ((s3 + 20)%float, r3 ++ [str "vip_handler"])
    else (s3, r3) in
  (* critical handling *)
  let '(s5, r5) :=
    if (priority =? 5) && can_handle_critical a
    then ((s4 + 20)%float, r4 ++ [str "critical_handler"])
    else (s4, r4) in
  (* load balancing *)
  let '(s6, r6) :=
    if 0 <? max_load a then
      let load_ratio := PyFloat.int_truediv (current_load a) (max_load a) in
      ((s5 - load_ratio * 20)%float,
       r5 ++ [str "load_ratio:" ++ PyFloat.format_2f load_ratio])
    else (s5, r5) in
  (* performance and quality bonuses: [None] or a zero adds nothing *)
  let s7 :=
    match customer_satisfaction_score a with
    | Some csat => if PyFloat.truthy csat then (s6 + (csat - 3) * 5)%float else s6
    | None => s6
    end in
  let s8 :=
    match quality_score a with
    | Some qs => if PyFloat.truthy qs then (s7 + qs / 100 * 10)%float else s7
    | None => s7
    end in
  {| agent := a; score := s8; reasons := r6 |}.

(** The body of the loop of [_apply_routing_rules] for a rule that
    matched: [Some d] returns [d], [None] goes on to the next rule. *)
Definition apply_matched_rule (rule : RoutingRule.RoutingRule) (agents : list Agent)
    : option Decision :=
  let params := RoutingRule.action_params rule in
  match RoutingRule.action rule with
  | RoutingRule.ASSIGN_AGENT =>
      let wanted := default JNull (params !! "agent_id"%string) in
      match List.find (fun a => Json.eqb (JStr (id a)) wanted) agents with
      | Some a => Some (rule_decision a 1%float rule)
      | None => None
      end
  | RoutingRule.ASSIGN_TEAM =>
      let wanted := default JNull (params !! "team"%string) in
      match List.filter (fun a => Json.eqb (Json.of_text (team a)) wanted) agents with
      | a :: rest =>
          Some (rule_decision (first_min current_load a rest) 0.9%float rule)
      | [] => None
      end
  | RoutingRule.ESCALATE =>
      Some {| agent_id := None; agent_name := None;
              d_team := json_text (params !! "to_team"%string);
              reason := ESCALATION; confidence := 1%float; d_score := None;
              score_breakdown := []; alternatives := [];
              rule_name := Some (RoutingRule.name rule);
              escalation_reason := params !! "reason"%string;
              previous_agent_id := None; reassignment_reason := None |}
  | _ => None
  end.

(** [_apply_routing_rules] over the rules already fetched. The outer
    [None] is an exception raised by [rule.matches]. *)
Fixpoint apply_rules (rules : list RoutingRule.RoutingRule) (clock : Clock)
    (ticket_data : RoutingRule.TicketData) (agents : list Agent)
    : option (option Decision) :=
  match rules with
  | [] => Some None
  | rule :: rest =>
      match RoutingRule.matches rule clock ticket_data with
      | None => None
      | Some true =>
          match apply_matched_rule rule agents with
          | Some d => Some (Some d)
          | None => apply_rules rest clock ticket_data agents
          end
      | Some false => apply_rules rest clock ticket_data agents
      end
  end.

Definition _apply_routing_rules (db : Database) (clock : Clock)
    (ticket_data : RoutingRule.TicketData) (agents : list Agent)
    : option (option Decision) :=
  apply_rules (_get_routing_rules db) clock ticket_data agents.

Definition to_alternative (c : RoutingCandidate) : Alternative :=
  {| alt_agent_id := id (agent c); alt_agent_name := name (agent c);
     alt_score := score c; alt_reasons := reasons c |}.

(** The weighted scoring at the end of [route], for a non-empty list of
    agents. The sort is the stable descending one, which is what
    [candidates.sort] gives when the scores compare with one another,
    that is when none is a NaN. *)
Definition score_and_select (agents : list Agent) (category : option text)
    (language : text) (priority : Z) (customer_tier : option text) : Decision :=
  let candidates :=
    sort_desc_by PrimFloat.ltb score
      (map (fun a => _calculate_agent_score a category language priority customer_tier)
           agents) in
  match candidates with
  | [] => no_agents_decision
  | best :: others =>
      let reason :=
        if existsb (contains (str "skill_match")) (reasons best) then SKILL_MATCH
        else if mem (str "vip_handler") (reasons best) then VIP_HANDLER
        else if mem (str "critical_handler") (reasons best) then CRITICAL_HANDLER
        else if existsb (contains (str "language_match")) (reasons best)
        then LANGUAGE_MATCH
        else LOAD_BALANCE in
      let confidence :=
        match others with
        | second :: _ =>
            PyFloat.min (0.5 + (score best - score second) / 100)%float 0.99%float
        | [] => 0.95%float
        end in
      {| agent_id := Some (id (agent best));
         agent_name := Some (name (agent best));
         d_team := team (agent best);
         reason := reason;
         confidence := PyFloat.round confidence 3;
         d_score := Some (PyFloat.round (score best) 2);
         score_breakdown := reasons best;
         alternatives := map to_alternative (firstn 3 others);
         rule_name := None; escalation_reason := None;
         previous_agent_id := None; reassignment_reason := None |}
  end.

(** [TicketRouter.route]; called, as the pipeline does, without
    [metadata], so [subject] is empty. [None] is an exception. *)
Definition route (db : Database) (clock : Clock) (category : option text)
    (priority : Z) (language : text) (customer_tier : option text)
    (source : option text) (content : option text) (sentiment : option text)
    : option Decision :=
  let ticket_data :=
    {| RoutingRule.td_category := category;
       RoutingRule.td_priority := priority;
       RoutingRule.td_language := language;
       RoutingRule.td_customer_tier := customer_tier;
       RoutingRule.td_source := source;
       RoutingRule.td_content := default [] content;
       RoutingRule.td_sentiment := sentiment;
       RoutingRule.td_subject := [] |} in
  let require_vip :=
    match customer_tier with
    | Some t => mem t [str "vip"; str "enterprise"]
    | None => false
    end in
  let require_critical := priority =? 5 in
  let agents1 := _get_available_agents db require_vip require_critical in
  let agents2 :=
    match agents1 with
    | [] => _get_available_agents db false false
    | _ => agents1
    end in
  match agents2 with
  | [] => Some no_agents_decision
  | _ =>
      let agents3 := List.filter (fun a => _is_within_working_hours a clock) agents2 in
      let agents4 :=
        match agents3 with
        | [] => _get_available_agents db false false
        | _ => agents3
        end in
      match agents4 with
      | [] => Some no_agents_decision
      | _ =>
          rule_result ← _apply_routing_rules db clock ticket_data agents4;
          match rule_result with
          | Some d => Some d
          | None =>
              Some (score_and_select agents4 category language priority customer_tier)
          end
      end
  end.

(** An entry of the list [get_agent_recommendations] returns. *)
Record Recommendation := {
  rec_agent_id : text;
  rec_agent_name : text;
  rec_team : option text;
  rec_score : float;
  rec_current_load : Z;
  rec_max_load : Z;
  rec_skills : list text;
  rec_reasons : list text
}.

Definition to_recommendation (c : RoutingCandidate) : Recommendation :=
  {| rec_agent_id := id (agent c); rec_agent_name := name (agent c);
     rec_team := team (agent c); rec_score := PyFloat.round (score c) 2;
     rec_current_load := current_load (agent c);
     rec_max_load := max_load (agent c);
     rec_skills := skills (agent c); rec_reasons := reasons c |}.

(** [TicketRouter.get_agent_recommendations]; the customer tier is the
    default ["standard"] of [_calculate_agent_score]. *)
Definition get_agent_recommendations (db : Database) (category : text)
    (priority : Z) (language : text) (limit : Z) : list Recommendation :=
  let agents := _get_available_agents db false false in
  let candidates :=
    sort_desc_by PrimFloat.ltb score
      (map (fun a => _calculate_agent_score a (Some category) language priority
                       (Some (str "standard")))
           agents) in
  map to_recommendation (slice_to limit candidates).

(** [TicketRouter.reassign] applied to the decision [route] returned:
    the part after the call of [self.route]. *)
Definition reassign_from (result : Decision) (current_agent_id : option text)
    (exclude_agents : list text) (reason_given : option text) : Decision :=
  let exclude :=
    match current_agent_id with
    | Some c => c :: exclude_agents
    | None => exclude_agents
    end in
  let excluded (i : text) := mem i exclude in
  match agent_id result with
  | Some best =>
      if excluded best then
        match List.find (fun alt => negb (excluded (alt_agent_id alt)))
                (alternatives result) with
        | Some alt =>
            {| agent_id := Some (alt_agent_id alt);
               agent_name := Some (alt_agent_name alt);
               d_team := d_team result;
               reason := str "reassignment";
               confidence := confidence result;
               d_score := d_score result;
               score_breakdown := score_breakdown result;
               alternatives := alternatives result;
               rule_name := rule_name result;
               escalation_reason := escalation_reason result;
               previous_agent_id := current_agent_id;
               reassignment_reason := reason_given |}
        | None => result
        end
      else result
  | None => result
  end.

Definition reassign (db : Database) (clock : Clock) (current_agent_id : option text)
    (exclude_agents : list text) (reason_given : option text)
    (category : option text) (priority : Z) (language : text)
    (customer_tier : option text) (source content sentiment : option text)
    : option Decision :=
  result ← route db clock category priority language customer_tier source content
             sentiment;
  Some (reassign_from result current_agent_id exclude_agents reason_given).

End WithRuntime.
End TicketRouter.

(* ================================================================= *)
(** * api/tickets.py and workers/tasks.py *)

Module TicketsApi.
Import Ticket.

(** What the services answer while one ticket is processed. *)
Record Services := {
  classifier : TicketClassifier.Classifier;
  classifier_world : TicketClassifier.World;
  use_huggingface : bool;
  has_api_key : bool;
  sentiment_world : SentimentAnalyzer.Providers;
  custom_rules : list PriorityScorer.CustomRule;
  clock : Clock
}.

(** [db.get(Agent, id)]: the row with that primary key. *)
Definition get_agent (db : Database) (i : text) : option Agent.Agent :=
  List.find (fun a => text_eqb (Agent.id a) i) (agents db).

(** The row with primary key [i] replaced by [f] of it. *)
Fixpoint update_agent (i : text) (f : Agent.Agent -> Agent.Agent)
    (l : list Agent.Agent) : list Agent.Agent :=
  match l with
  | [] => []
  | a :: l' => if text_eqb (Agent.id a) i then f a :: l' else a :: update_agent i f l'
  end.

(** [session.commit()] with the agent [i] changed by [f] and the
    ticket [t] as it now is. *)
Definition commit (db : Database) (agents' : list Agent.Agent) (t : Ticket) : Database :=
  {| agents := agents'; rules := rules db; tickets := <[id t := t]> (tickets db) |}.

(** The results dict of the pipeline, by the parts kept here. *)
Record Results := {
  res_classification : TicketClassifier.Result;
  res_sentiment : SentimentAnalyzer.Result;
  res_priority : PriorityScorer.PriorityResult;
  res_routing : TicketRouter.Decision
}.

Section WithRuntime.
Context `{PyRuntime}.

(** The ticket after steps 1 to 3 of the pipeline, with the three
    results. *)
Definition enrich (svc : Services) (ticket : Ticket)
    : Ticket * TicketClassifier.Result * SentimentAnalyzer.Result
      * PriorityScorer.PriorityResult :=
  let classification :=
    fst (TicketClassifier.classify (classifier svc) (classifier_world svc)
           (content ticket) (language ticket) true) in
  let sentiment :=
    SentimentAnalyzer.analyze (use_huggingface svc) (has_api_key svc)
      (sentiment_world svc) (content ticket) (language ticket) (str "auto") in
  let category := Some (TicketClassifier.primary_category classification) in
  let label := Some (SentimentAnalyzer.sentiment sentiment) in
  let tier :=
    if truthy_opt (customer_tier ticket) then default [] (customer_tier ticket)
    else str "standard" in
  let priority :=
    PriorityScorer.calculate (custom_rules svc) (content ticket) label
      (SentimentAnalyzer.anger_level sentiment) tier category (language ticket) ∅ in
  ({| id := id ticket; content := content ticket; language := language ticket;
      customer_tier := customer_tier ticket;
      category := category; sentiment := label;
      priority := PriorityScorer.score priority;
      assigned_agent_id := assigned_agent_id ticket;
      previous_agent_id := previous_agent_id ticket;
      assignment_reason := assignment_reason ticket;
      escalated := escalated ticket; status := status ticket;
      is_processed := is_processed ticket;
      processing_error := processing_error ticket |},
   classification, sentiment, priority).

(** [process_ticket_pipeline(ticket, db)]: the database after the
    commit, and the results, [None] when the pipeline raised. Nothing
    in it reads [ticket.is_processed]. *)
Definition process_ticket_pipeline (svc : Services) (ticket : Ticket) (db : Database)
    : Database * option Results :=
  let '(t3, classification, sentiment, priority) := enrich svc ticket in
  (* 4. Routing *)
  match TicketRouter.route db (clock svc) (category t3) (Ticket.priority t3)
          (language t3) (customer_tier t3) None (Some (content t3)) (Ticket.sentiment t3)
  with
  | None =>
      (* except: record the error, commit what was set, re-raise *)
      (commit db (agents db)
         {| id := id t3; content := content t3; language := language t3;
            customer_tier := customer_tier t3; category := category t3;
            sentiment := Ticket.sentiment t3; priority := Ticket.priority t3;
            assigned_agent_id := assigned_agent_id t3;
            previous_agent_id := previous_agent_id t3;
            assignment_reason := assignment_reason t3;
            escalated := escalated t3; status := status t3;
            is_processed := is_processed t3; processing_error := true |},
       None)
  | Some routing =>
      let '(assigned, why, agents') :=
        match TicketRouter.agent_id routing with
        | Some i =>
            (Some i, Some (TicketRouter.reason routing),
             (* agent = await db.get(Agent, ...); if agent: agent.current_load += 1 *)
             update_agent i (Agent.add_load 1) (agents db))
        | None => (assigned_agent_id t3, assignment_reason t3, agents db)
        end in
      (commit db agents'
         {| id := id t3; content := content t3; language := language t3;
            customer_tier := customer_tier t3; category := category t3;
            sentiment := Ticket.sentiment t3; priority := Ticket.priority t3;
            assigned_agent_id := assigned;
            previous_agent_id := previous_agent_id t3;
            assignment_reason := why;
            escalated := escalated t3; status := OPEN;
            is_processed := true; processing_error := processing_error t3 |},
       Some {| res_classification := classification; res_sentiment := sentiment;
               res_priority := priority; res_routing := routing |})
  end.

(** [process_ticket_task(ticket_id)] of the worker: classification,
    sentiment and priority, no routing step. [None] is the answer
    ["Ticket not found"]. *)
Definition process_ticket_task (svc : Services) (ticket_id : text) (db : Database)
    : Database * option Ticket :=
  match tickets db !! ticket_id with
  | None => (db, None)
  | Some ticket =>
      let '(t3, _, _, _) := enrich svc ticket in
      let t4 :=
        {| id := id t3; content := content t3; language := language t3;
           customer_tier := customer_tier t3; category := category t3;
           sentiment := Ticket.sentiment t3; priority := Ticket.priority t3;
           assigned_agent_id := assigned_agent_id t3;
           previous_agent_id := previous_agent_id t3;
           assignment_reason := assignment_reason t3;
           escalated := escalated t3; status := OPEN;
           is_processed := true; processing_error := processing_error t3 |} in
      (commit db (agents db) t4, Some t4)
  end.

End WithRuntime.

(** The answers of an endpoint. *)
Inductive http (A : Type) :=
| Ok (a : A)
| NotFound.
Arguments Ok {A} a.
Arguments NotFound {A}.

(** [prev_agent.current_load -= 1], guarded by [current_load > 0]. *)
Definition release (a : Agent.Agent) : Agent.Agent :=
  if 0 <? Agent.current_load a then Agent.add_load (-1) a else a.

(** [POST /{ticket_id}/reassign]: [new_agent_id] is
    [reassign_data.agent_id]. A 404 leaves the session uncommitted. *)
Definition reassign_ticket (ticket_id : text) (new_agent_id : option text)
    (db : Database) : Database * http Ticket :=
  match tickets db !! ticket_id with
  | None => (db, NotFound)
  | Some ticket =>
      let previous := assigned_agent_id ticket in
      let agents1 :=
        match previous with
        | Some p => update_agent p release (agents db)
        | None => agents db
        end in
      match new_agent_id with
      | Some n =>
          match List.find (fun a => text_eqb (Agent.id a) n) agents1 with
          | None => (db, NotFound)
          | Some new_agent =>
              let t' :=
                {| id := id ticket; content := content ticket;
                   language := language ticket; customer_tier := customer_tier ticket;
                   category := category ticket; sentiment := sentiment ticket;
                   priority := priority ticket;
                   assigned_agent_id := Some (Agent.id new_agent);
                   previous_agent_id := previous;
                   assignment_reason := Some (str "manual_reassignment");
                   escalated := escalated ticket; status := status ticket;
                   is_processed := is_processed ticket;
                   processing_error := processing_error ticket |} in
              (commit db (update_agent n (Agent.add_load 1) agents1) t', Ok t')
          end
      | None =>
          let t' :=
            {| id := id ticket; content := content ticket;
               language := language ticket; customer_tier := customer_tier ticket;
               category := category ticket; sentiment := sentiment ticket;
               priority := priority ticket;
               assigned_agent_id := None;
               previous_agent_id := previous;
               assignment_reason := Some (str "unassigned");
               escalated := escalated ticket; status := status ticket;
               is_processed := is_processed ticket;
               processing_error := processing_error ticket |} in
          (commit db agents1 t', Ok t')
      end
  end.

(** [POST /{ticket_id}/resolve] *)
Definition resolve_ticket (ticket_id : text) (db : Database) : Database * http Ticket :=
  match tickets db !! ticket_id with
  | None => (db, NotFound)
  | Some ticket =>
      let t' :=
        {| id := id ticket; content := content ticket;
           language := language ticket; customer_tier := customer_tier ticket;
           category := category ticket; sentiment := sentiment ticket;
           priority := priority ticket;
           assigned_agent_id := assigned_agent_id ticket;
           previous_agent_id := previous_agent_id ticket;
           assignment_reason := assignment_reason ticket;
           escalated := escalated ticket; status := RESOLVED;
           is_processed := is_processed ticket;
           processing_error := processing_error ticket |} in
      let agents' :=
        match assigned_agent_id ticket with
        | Some a => update_agent a release (agents db)
        | None => agents db
        end in
      (commit db agents' t', Ok t')
  end.

(** [DELETE /{ticket_id}] *)
Definition delete_ticket (ticket_id : text) (db : Database) : Database * http unit :=
  match tickets db !! ticket_id with
  | None => (db, NotFound)
  | Some ticket =>
      let agents' :=
        match assigned_agent_id ticket with
        | Some a => update_agent a release (agents db)
        | None => agents db
        end in
      ({| agents := agents'; rules := rules db;
          tickets := delete ticket_id (tickets db) |}, Ok tt)
  end.

(** [POST /{ticket_id}/escalate] *)
Definition escalate_ticket (ticket_id : text) (db : Database) : Database * http Ticket :=
  match tickets db !! ticket_id with
  | None => (db, NotFound)
  | Some ticket =>
      let t' :=
        {| id := id ticket; content := content ticket;
           language := language ticket; customer_tier := customer_tier ticket;
           category := category ticket; sentiment := sentiment ticket;
           priority := Z.min (priority ticket + 1) 5;
           assigned_agent_id := assigned_agent_id ticket;
           previous_agent_id := previous_agent_id ticket;
           assignment_reason := assignment_reason ticket;
           escalated := true; status := ESCALATED;
           is_processed := is_processed ticket;
           processing_error := processing_error ticket |} in
      (commit db (agents db) t', Ok t')
  end.

(** The same ticket with another value of [is_processed]. *)
Definition with_is_processed (flag : bool) (t : Ticket) : Ticket :=
  {| id := id t; content := content t; language := language t;
     customer_tier := customer_tier t; category := category t;
     sentiment := sentiment t; priority := priority t;
     assigned_agent_id := assigned_agent_id t;
     previous_agent_id := previous_agent_id t;
     assignment_reason := assignment_reason t;
     escalated := escalated t; status := status t;
     is_processed := flag; processing_error := processing_error t |}.

(** The capacity invariant of one agent. *)
Definition within_capacity (a : Agent.Agent) : Prop :=
  0 <= Agent.current_load a <= Agent.max_load a.

End TicketsApi.

(** ** Section 4.6 of the specification: the selection among scored
    candidates, in the specification's words *)
Module RouterSpec.
Import Agent TicketRouter.

(** [c] is to be preferred to the best candidate so far: a higher
    score, or the same score and (i) a lower current load, or the same
    load and (ii) a higher experience level. With (iii) nothing else
    displaces an earlier candidate. *)
Definition preferred (c best : RoutingCandidate) : bool :=
  (score best <? score c)%float
  || ((score c =? score best)%float
      && ((current_load (agent c) <? current_load (agent best))
          || ((current_load (agent c) =? current_load (agent best))
              && (experience_level (agent best) <? experience_level (agent c))))).

Fixpoint select_from (best : RoutingCandidate) (rest : list RoutingCandidate)
    : RoutingCandidate :=
  match rest with
  | [] => best
  | c :: rest' => select_from (if preferred c best then c else best) rest'
  end.

Definition select (candidates : list RoutingCandidate) : option RoutingCandidate :=
  match candidates with
  | [] => None
  | c :: rest => Some (select_from c rest)
  end.

End RouterSpec.

(* ================================================================= *)
(** * utils/text_processing.py *)

Module TextProcessor.

(** The character of a one-character literal. *)
Definition chr (s : string) : char := hd 0%N (str s).

Definition TAB : char := 9%N.
Definition CR : char := 13%N.
Definition LT : char := 60%N.
Definition GT : char := 62%N.
Definition AMP : char := 38%N.

Definition TURKISH_CHARS : list (char * char) :=
  [ (chr "ı", chr "i"); (chr "İ", chr "I"); (chr "ğ", chr "g"); (chr "Ğ", chr "G");
    (chr "ü", chr "u"); (chr "Ü", chr "U"); (chr "ş", chr "s"); (chr "Ş", chr "S");
    (chr "ö", chr "o"); (chr "Ö", chr "O"); (chr "ç", chr "c"); (chr "Ç", chr "C") ].

(** [s.replace(a, b)] for one-character strings. *)
Definition replace_char (a b : char) (s : text) : text :=
  map (fun c => if (c =? a)%N then b else c) s.

(** [s.replace(old, new)], leftmost occurrences first, none
    overlapping. [skip] counts the characters of an occurrence still to
    be passed over. *)
Fixpoint replace_from (old new : text) (skip : nat) (s : text) : text :=
  match s with
  | [] =>
      match skip, old with
      | O, [] => new
      | _, _ => []
      end
  | c :: s' =>
      match skip with
      | S k => replace_from old new k s'
      | O =>
          if starts_with old s then
            match old with
            | [] => new ++ c :: replace_from old new 0 s'
            | _ :: old' => new ++ replace_from old new (length old') s'
            end
          else c :: replace_from old new 0 s'
      end
  end.

Definition replace (old new s : text) : text := replace_from old new 0 s.

(** [re.sub(pattern, repl, s)] for a pattern that cannot match the
    empty string: [m] gives, at a position, the length of the match that
    starts there. *)
Fixpoint sub_from (m : text -> option nat) (repl : text) (skip : nat) (s : text)
    : text :=
  match s with
  | [] => []
  | c :: s' =>
      match skip with
      | S k => sub_from m repl k s'
      | O =>
          match m s with
          | Some (S n) => repl ++ sub_from m repl n s'
          | _ => c :: sub_from m repl 0 s'
          end
      end
  end.

Definition re_sub (m : text -> option nat) (repl s : text) : text :=
  sub_from m repl 0 s.

(** [re.sub(p + ".*", repl, s, flags=re.DOTALL)] with an empty
    [repl]: with [.] matching line breaks too, the first match runs to
    the end of the text, so what is left is the text before the first
    position where [p] matches. *)
Fixpoint cut (m : text -> bool) (s : text) : text :=
  if m s then []
  else
    match s with
    | [] => []
    | c :: s' => c :: cut m s'
    end.

(** [re.sub(r"\n{3,}", "\n\n", s)]: of three line breaks in a row
    the first is dropped, which leaves two of every longer run. *)
Fixpoint collapse_newlines (s : text) : text :=
  match s with
  | a :: s1 =>
      match s1 with
      | b :: c :: _ =>
          if (a =? NL)%N && (b =? NL)%N && (c =? NL)%N
          then collapse_newlines s1
          else a :: collapse_newlines s1
      | _ => a :: collapse_newlines s1
      end
  | [] => []
  end.

(** [re.sub(r" {2,}", " ", s)] *)
Fixpoint collapse_spaces (s : text) : text :=
  match s with
  | a :: s1 =>
      match s1 with
      | b :: _ =>
          if (a =? SP)%N && (b =? SP)%N
          then collapse_spaces s1
          else a :: collapse_spaces s1
      | [] => [a]
      end
  | [] => []
  end.

(** [s.split("\n")] *)
Fixpoint split_lines (s : text) : list text :=
  match s with
  | [] => [[]]
  | c :: s' =>
      if (c =? NL)%N then [] :: split_lines s'
      else
        match split_lines s' with
        | l :: ls => (c :: l) :: ls
        | [] => [[c]]
        end
  end.

(** ["\n".join(lines)] *)
Fixpoint join_lines (lines : list text) : text :=
  match lines with
  | [] => []
  | [l] => l
  | l :: ls => l ++ NL :: join_lines ls
  end.

(** A pattern character: one that matches itself only, or a letter
    that [re.IGNORECASE] matches up to case. *)
Inductive pat_char :=
| Exact (c : char)
| Fold (c : char).

(** A literal as a pattern under [re.IGNORECASE]: the letters (ASCII
    letters and everything beyond ASCII) fold, the rest is exact. *)
Definition lit (s : string) : list pat_char :=
  map (fun c =>
         if ascii_is_upper c || ascii_is_lower c || (128 <=? c)%N then Fold c
         else Exact c)
      (str s).

(** The length of the run of whitespace at the head of [s]. *)
Fixpoint space_run (s : text) : nat :=
  match s with
  | c :: s' => if isspace c then S (space_run s') else O
  | [] => O
  end.

(** The index of the first [>] in [s]. *)
Fixpoint index_gt (s : text) : option nat :=
  match s with
  | [] => None
  | c :: s' => if (c =? GT)%N then Some O else option_map S (index_gt s')
  end.

(** [HTML_TAG_PATTERN], [<[^>]+>], at the head of [s]: the length of
    the match. The class cannot pass a [>], so the match ends at the
    first one. *)
Definition match_tag (s : text) : option nat :=
  match s with
  | lt :: (c :: _) as body =>
      if (lt =? LT)%N && negb (c =? GT)%N
      then option_map (fun n => S (S n)) (index_gt body)
      else None
  | _ => None
  end.

(** [\s*\n]: a run of whitespace that ends on a line break. *)
Fixpoint spaces_then_newline (s : text) : bool :=
  match s with
  | [] => false
  | c :: s' => (c =? NL)%N || (isspace c && spaces_then_newline s')
  end.

(** [--\s*\n] at the head of [s]. *)
Definition match_dashes (s : text) : bool :=
  match s with
  | a :: b :: rest => (a =? 45)%N && (b =? 45)%N && spaces_then_newline rest
  | _ => false
  end.

Record CleanOptions := {
  remove_html : bool;
  remove_signatures : bool;
  mask_pii : bool;
  preserve_turkish : bool
}.

(** The defaults of [clean_for_processing]. *)
Definition default_options : CleanOptions :=
  {| remove_html := true; remove_signatures := true; mask_pii := false;
     preserve_turkish := true |}.

Section WithRuntime.
Context `{PyRuntime}.

Fixpoint starts_with_pat (p : list pat_char) (s : text) : bool :=
  match p, s with
  | [], _ => true
  | _ :: _, [] => false
  | Exact a :: p', b :: s' => (a =? b)%N && starts_with_pat p' s'
  | Fold a :: p', b :: s' => re_ieq a b && starts_with_pat p' s'
  end.

(** [<br\s*/?>] at the head of [s]: the length of the match. The run
    of whitespace is taken whole: what follows a shorter run is
    whitespace, neither [/] nor [>]. *)
Definition match_br (s : text) : option nat :=
  if starts_with_pat [Exact LT; Fold 98%N; Fold 114%N] s then
    let rest := skipn 3 s in
    let n := space_run rest in
    match skipn n rest with
    | c1 :: tl =>
        if (c1 =? GT)%N then Some (3 + n + 1)%nat
        else if (c1 =? 47)%N then
          match tl with
          | c2 :: _ => if (c2 =? GT)%N then Some (3 + n + 2)%nat else None
          | [] => None
          end
        else None
    | [] => None
    end
  else None.

(** [<br\s*/?>|</p>|</div>|</li>] at the head of [s], the
    alternatives in their order. *)
Definition match_block (s : text) : option nat :=
  match match_br s with
  | Some n => Some n
  | None =>
      if starts_with_pat (lit "</p>") s then Some 4%nat
      else if starts_with_pat (lit "</div>") s then Some 6%nat
      else if starts_with_pat (lit "</li>") s then Some 5%nat
      else None
  end.

Definition normalize_unicode (txt : text) : text := py_nfc txt.

Definition normalize_turkish (txt : text) (preserve : bool) : text :=
  if preserve then txt
  else fold_left (fun result '(turkish, ascii_char) =>
                    replace_char turkish ascii_char result)
         TURKISH_CHARS txt.

Definition remove_html_tags (txt : text) : text :=
  let t1 := re_sub match_block [NL] txt in
  let t2 := re_sub match_tag [] t1 in
  html_unescape t2.

Definition normalize_whitespace (txt : text) : text :=
  let t1 := replace_char TAB SP txt in
  let t2 := replace_char CR NL (replace [CR; NL] [NL] t1) in
  let t3 := collapse_newlines t2 in
  let t4 := collapse_spaces t3 in
  let lines := map strip (split_lines t4) in
  strip (join_lines lines).

(** [SIGNATURE_PATTERNS], each by the part before its final [.*]; an
    optional [s] or comma before [.*] changes nothing to where a match
    starts. *)
Definition SIGNATURE_PATTERNS : list (text -> bool) :=
  [ match_dashes;
    starts_with_pat (lit "Best regard");
    starts_with_pat (lit "Kind regard");
    starts_with_pat (lit "Regard");
    starts_with_pat (lit "Thank");
    starts_with_pat (lit "Saygılarımla");
    starts_with_pat (lit "İyi günler");
    (fun s => starts_with_pat (lit "Sent from my iPhone") s
              || starts_with_pat (lit "Sent from my iPad") s
              || starts_with_pat (lit "Sent from my Android") s) ].

Definition remove_signature_lines (txt : text) : text :=
  strip (fold_left (fun t pattern => cut pattern t) SIGNATURE_PATTERNS txt).

(** The loop [for i, found in enumerate(...)] of [mask_pii]: every
    occurrence of an item that [wanted] accepts becomes its token. *)
Fixpoint mask_each (label : text) (wanted : text -> bool) (i : Z)
    (found : list text) (txt : text) : text :=
  match found with
  | [] => txt
  | f :: rest =>
      mask_each label wanted (i + 1) rest
        (if wanted f
         then replace f (str "[" ++ label ++ str "_" ++ py_str_int i ++ str "]") txt
         else txt)
  end.

(** [mask_pii], the masked text (the mappings are dropped by the
    caller). *)
Definition mask_pii_text (txt : text) : text :=
  let t1 := mask_each (str "EMAIL") (fun _ => true) 0 (findall_email txt) txt in
  let t2 :=
    mask_each (str "PHONE") (fun phone => (7 <=? length phone)%nat) 0
      (findall_phone t1) t1 in
  mask_each (str "URL") (fun _ => true) 0 (findall_url t2) t2.

(** [TextProcessor.clean_for_processing] *)
Definition clean_for_processing (opts : CleanOptions) (txt : text) : text :=
  if negb (truthy txt) then []
  else
    let t1 := normalize_unicode txt in
    let t2 := if remove_html opts then remove_html_tags t1 else t1 in
    let t3 := normalize_turkish t2 (preserve_turkish opts) in
    let t4 := normalize_whitespace t3 in
    let t5 := if remove_signatures opts then remove_signature_lines t4 else t4 in
    let t6 := if mask_pii opts then mask_pii_text t5 else t5 in
    strip t6.

(** [TextProcessor.truncate]; the slice [text[:max_length - len(suffix)]]
    counts from the end when the suffix is longer than [max_length]. *)
Definition truncate (txt : text) (max_length : Z) (suffix : text) : text :=
  if Z.of_nat (length txt) <=? max_length then txt
  else slice_to (max_length - Z.of_nat (length suffix)) txt ++ suffix.

End WithRuntime.
End TextProcessor.

(** ** Shapes of text the normalizer produces *)
Module Shape.
Import TextProcessor.

(** Whitespace other than the line break. *)
Definition blank (c : char) : bool := isspace c && negb (c =? NL)%N.

(** What two neighbours may not be in normalized text: two spaces, or
    a line break next to other whitespace. *)
Definition okpair (c1 c2 : char) : bool :=
  negb ((c1 =? SP)%N && (c2 =? SP)%N)
  && negb ((c1 =? NL)%N && blank c2)
  && negb (blank c1 && (c2 =? NL)%N).

(** Every two neighbours of [s] satisfy [R]. *)
Fixpoint all_pairs (R : char -> char -> bool) (s : text) : bool :=
  match s with
  | c1 :: s' =>
      match s' with
      | c2 :: _ => R c1 c2 && all_pairs R s'
      | [] => true
      end
  | [] => true
  end.

(** The text does not begin, or end, with whitespace. *)
Definition starts_clean (s : text) : Prop :=
  match s with
  | c :: _ => isspace c = false
  | [] => True
  end.

Definition ends_clean (s : text) : Prop :=
  match last s with
  | Some c => isspace c = false
  | None => True
  end.

(** No key of [TURKISH_CHARS]. *)
Definition not_turkish (c : char) : bool :=
  negb (existsb (fun '(t, _) => (c =? t)%N) TURKISH_CHARS).

(** The characters normalized text is made of: no tab, no carriage
    return and, when Turkish letters are not preserved, none of them. *)
Definition plain_char (preserve : bool) (c : char) : bool :=
  negb (c =? TAB)%N && negb (c =? CR)%N && (preserve || not_turkish c).

(** Two neighbours are not both spaces. *)
Definition no_double_space (c1 c2 : char) : bool :=
  negb ((c1 =? SP)%N && (c2 =? SP)%N).

(** A pattern that needs at least one character, and that still
    matches when the text is continued. *)
Definition proper_pattern (m : text -> bool) : Prop :=
  m [] = false /\ forall s t, m s = true -> m (s ++ t) = true.

(** A line as [normalize_whitespace] joins them: no line break inside,
    no two spaces in a row, no whitespace at either end. *)
Definition good_line (l : text) : Prop :=
  forallb (fun c => negb (c =? NL)%N) l = true
  /\ all_pairs no_double_space l = true
  /\ starts_clean l /\ ends_clean l.

(** The normal form of the text normalizer. *)
Record normal (preserve signatures : bool) `{PyRuntime} (s : text) : Prop := {
  normal_chars : forallb (plain_char preserve) s = true;
  normal_pairs : all_pairs okpair s = true;
  normal_start : starts_clean s;
  normal_end : ends_clean s;
  normal_signatures :
    signatures = true ->
    Forall (fun pattern => search pattern s = false) SIGNATURE_PATTERNS
}.

End Shape.

(* ================================================================= *)
(** * Example data *)

Module Examples.
Import SentimentAnalyzer.

(** A provider reply that reports high anger under a milder label. *)
Definition upset_reply : OpenAIReply :=
  {| r_sentiment := Some (str "negative");
     r_score := Some (- (6 # 10))%Q;
     r_confidence := Some (9 # 10);
     r_anger_level := JNumber (9 # 10);
     r_satisfaction_prediction := Some 2;
     r_reasoning := None |}.

Definition upset_world : Providers :=
  {| openai := Some upset_reply; huggingface := None |}.

(** Markup, entities, a run of spaces and a signature. *)
Definition html_message : text :=
  str "<p>Hello,</p><P>The invoice &quot;A-17&quot; and the receipt   differ.</p><br/>Best regards, John".

(** The input of the repository's test of entity decoding. *)
Definition escaped_markup : text := str "Hello &amp; World &lt;test&gt;".

(** A line in, a blank line made of one space, a line out. *)
Definition spaced_blank_lines : text :=
  str "a" ++ [NL; SP; NL; SP; NL] ++ str "b".

(** One angry word, no capital letter, no exclamation mark. *)
Definition outrageous : text := str "this is outrageous".

(** A classifier with its cache on, in a world where the cache holds an
    entry for every key and the provider always answers. *)
Definition billing_answer : TicketClassifier.Result :=
  {| TicketClassifier.primary_category := str "billing_question";
     TicketClassifier.confidence := Some (9 # 10);
     TicketClassifier.all_categories := [];
     TicketClassifier.reasoning := None;
     TicketClassifier.method := str "ai" |}.

Definition caching_classifier : TicketClassifier.Classifier :=
  {| TicketClassifier.categories := TicketClassifier.DEFAULT_CATEGORIES;
     TicketClassifier.cache_enabled := true;
     TicketClassifier.cache_ttl := 3600 |}.

Definition answering_world : TicketClassifier.World :=
  {| TicketClassifier.md5_hex := fun t => t;
     TicketClassifier.redis_get := fun _ => Some billing_answer;
     TicketClassifier.provider := fun _ _ _ =>
       Some {| TicketClassifier.r_primary_category := Some (Some (str "complaint"));
               TicketClassifier.r_confidence := Some (8 # 10);
               TicketClassifier.r_all_categories := [];
               TicketClassifier.r_reasoning := None |} |}.

(** A space, a tab and a line feed. *)
Definition blank : text := [32; 9; 10]%N.

(** An active rule with no restriction and an empty [conditions]. *)
Definition bare_rule (t : RoutingRule.RuleType) : RoutingRule.RoutingRule :=
  {| RoutingRule.name := str "bare";
     RoutingRule.rule_type := t;
     RoutingRule.conditions := ∅;
     RoutingRule.action := RoutingRule.NOTIFY;
     RoutingRule.action_params := ∅;
     RoutingRule.priority := 0;
     RoutingRule.is_active := true;
     RoutingRule.is_exclusive := true;
     RoutingRule.applies_to_sources := None;
     RoutingRule.applies_to_categories := None;
     RoutingRule.active_from := None;
     RoutingRule.active_until := None;
     RoutingRule.active_hours_start := None;
     RoutingRule.active_hours_end := None;
     RoutingRule.active_days := None |}.

(** A keyword rule whose only condition is the match mode [all]. *)
Definition all_mode_rule : RoutingRule.RoutingRule :=
  {| RoutingRule.name := str "all-mode";
     RoutingRule.rule_type := RoutingRule.KEYWORD;
     RoutingRule.conditions := {[ "match_mode"%string := JStr (str "all") ]};
     RoutingRule.action := RoutingRule.NOTIFY;
     RoutingRule.action_params := ∅;
     RoutingRule.priority := 0;
     RoutingRule.is_active := true;
     RoutingRule.is_exclusive := true;
     RoutingRule.applies_to_sources := None;
     RoutingRule.applies_to_categories := None;
     RoutingRule.active_from := None;
     RoutingRule.active_until := None;
     RoutingRule.active_hours_start := None;
     RoutingRule.active_hours_end := None;
     RoutingRule.active_days := None |}.

(** An online, active agent without skills or languages on record. *)
Definition plain_agent (i : string) (load cap : Z) : Agent.Agent :=
  {| Agent.id := str i; Agent.name := str i; Agent.team := None;
     Agent.skills := []; Agent.languages := []; Agent.experience_level := 1;
     Agent.specializations := [];
     Agent.current_load := load; Agent.max_load := cap;
     Agent.status := Agent.ONLINE; Agent.is_active := true;
     Agent.work_hours_start := None; Agent.work_hours_end := None;
     Agent.working_days := [];
     Agent.customer_satisfaction_score := None; Agent.quality_score := None;
     Agent.can_handle_critical := false; Agent.can_handle_vip := false |}.

(** Two agents at half of their capacity: the first holds two tickets
    of four, the second one of two. *)
Definition half_loaded : list Agent.Agent :=
  [plain_agent "A" 2 4; plain_agent "B" 1 2].

(** An online agent who speaks one language. *)
Definition speaker (i lang : string) (load cap : Z) : Agent.Agent :=
  {| Agent.id := str i; Agent.name := str i; Agent.team := None;
     Agent.skills := []; Agent.languages := [str lang];
     Agent.experience_level := 1; Agent.specializations := [];
     Agent.current_load := load; Agent.max_load := cap;
     Agent.status := Agent.ONLINE; Agent.is_active := true;
     Agent.work_hours_start := None; Agent.work_hours_end := None;
     Agent.working_days := [];
     Agent.customer_satisfaction_score := None; Agent.quality_score := None;
     Agent.can_handle_critical := false; Agent.can_handle_vip := false |}.

(** Two agents whose scores for an English ticket are the same
    fraction, 140/3: 50 - 20/6 for the first, 65 - 220/12 for the
    second. *)
Definition same_fraction : list Agent.Agent :=
  [speaker "A" "tr" 1 6; speaker "B" "en" 11 12].

Definition same_fraction_db : Database :=
  {| agents := same_fraction; rules := []; tickets := ∅ |}.

Definition half_loaded_db : Database :=
  {| agents := half_loaded; rules := []; tickets := ∅ |}.

Definition monday_noon : Clock :=
  {| now := 0; weekday := 0; hhmm := str "12:00" |}.

(** No provider reachable and no cache: classification and sentiment
    come from the rule fallbacks. *)
Definition offline_services : TicketsApi.Services :=
  {| TicketsApi.classifier :=
       {| TicketClassifier.categories := TicketClassifier.DEFAULT_CATEGORIES;
          TicketClassifier.cache_enabled := false;
          TicketClassifier.cache_ttl := 3600 |};
     TicketsApi.classifier_world :=
       {| TicketClassifier.md5_hex := fun t => t;
          TicketClassifier.redis_get := fun _ => None;
          TicketClassifier.provider := fun _ _ _ => None |};
     TicketsApi.use_huggingface := false;
     TicketsApi.has_api_key := false;
     TicketsApi.sentiment_world :=
       {| SentimentAnalyzer.openai := None; SentimentAnalyzer.huggingface := None |};
     TicketsApi.custom_rules := [];
     TicketsApi.clock := monday_noon |}.

(** A ticket about a double charge, already processed and assigned to
    nobody. *)
Definition processed_ticket : Ticket.Ticket :=
  {| Ticket.id := str "T1"; Ticket.content := str "I was charged twice";
     Ticket.language := str "en"; Ticket.customer_tier := Some (str "standard");
     Ticket.category := Some (str "billing_question");
     Ticket.sentiment := Some (str "neutral"); Ticket.priority := 3;
     Ticket.assigned_agent_id := None; Ticket.previous_agent_id := None;
     Ticket.assignment_reason := None; Ticket.escalated := false;
     Ticket.status := Ticket.OPEN; Ticket.is_processed := true;
     Ticket.processing_error := false |}.

(** One agent with room for ten tickets, and the processed ticket. *)
Definition one_free_agent_db : Database :=
  {| agents := [plain_agent "A" 0 10]; rules := [];
     tickets := {[ str "T1" := processed_ticket ]} |}.

(** One agent who already holds as many tickets as allowed, and the
    ticket, assigned to nobody. *)
Definition one_full_agent_db : Database :=
  {| agents := [plain_agent "A" 1 1]; rules := [];
     tickets := {[ str "T1" := processed_ticket ]} |}.

Definition plain_ticket : RoutingRule.TicketData :=
  {| RoutingRule.td_category := Some (str "billing_question");
     RoutingRule.td_priority := 3;
     RoutingRule.td_language := str "en";
     RoutingRule.td_customer_tier := Some (str "standard");
     RoutingRule.td_source := Some (str "api");
     RoutingRule.td_content := str "I was charged twice";
     RoutingRule.td_sentiment := Some (str "neutral");
     RoutingRule.td_subject := [] |}.

End Examples.

(* ================================================================= *)
(* PART II MARKER *)
(** * Properties *)

Lemma text_eqb_eq (a b : text) : text_eqb a b = true <-> a = b.
Proof. unfold text_eqb. apply bool_decide_eq_true. Qed.

Lemma text_eqb_refl (a : text) : text_eqb a a = true.
Proof. now apply text_eqb_eq. Qed.

Lemma text_eqb_neq (a b : text) : text_eqb a b = false <-> a <> b.
Proof. unfold text_eqb. apply bool_decide_eq_false. Qed.

Lemma Qleb_le a b : Qleb a b = true <-> (a <= b)%Q.
Proof. apply Qle_bool_iff. Qed.

Lemma Qltb_lt a b : Qltb a b = true <-> (a < b)%Q.
Proof.
  unfold Qltb. rewrite negb_true_iff, <- not_true_iff_false, Qle_bool_iff.
  split; [apply Qnot_le_lt | apply Qlt_not_le].
Qed.

(** ** Priority scorer *)

Section PriorityProofs.
Context `{PyRuntime}.
Import PriorityScorer PrioritySpec.

Lemma fold_left_weight_acc (fs : list PriorityFactor) (a : Z) :
  fold_left (fun acc f => acc + weight f) fs a
  = a + fold_left (fun acc f => acc + weight f) fs 0.
Proof.
  revert a. induction fs as [|f fs IH]; intros a; simpl.
  - lia.
  - rewrite IH, (IH (0 + weight f)). lia.
Qed.

Lemma sum_weights_nil : sum_weights [] = 0.
Proof. reflexivity. Qed.

Lemma sum_weights_cons f fs : sum_weights (f :: fs) = weight f + sum_weights fs.
Proof. unfold sum_weights. simpl. now rewrite fold_left_weight_acc. Qed.

Lemma sum_weights_app fs gs :
  sum_weights (fs ++ gs) = sum_weights fs + sum_weights gs.
Proof.
  induction fs as [|f fs IH]; simpl.
  - rewrite sum_weights_nil. lia.
  - rewrite !sum_weights_cons, IH. lia.
Qed.

Lemma filter_nil_existsb {A} (p : A -> bool) (l : list A) :
  List.filter p l = [] <-> existsb p l = false.
Proof.
  induction l as [|x l IH]; simpl; [tauto|].
  destruct (p x); simpl; [split; discriminate | exact IH].
Qed.

Lemma check_keywords_nil txt d lang :
  _check_keywords txt d lang = [] <-> any_lexeme txt d = false.
Proof.
  unfold _check_keywords, any_lexeme, lexemes. simpl.
  rewrite app_nil_r, existsb_app, orb_false_iff, <- !filter_nil_existsb.
  split.
  - intros E. now apply app_eq_nil in E.
  - intros [-> ->]. reflexivity.
Qed.

Lemma filter_filter_andb {A} (p q : A -> bool) (l : list A) :
  List.filter q (List.filter p l) = List.filter (fun x => p x && q x) l.
Proof.
  induction l as [|x l IH]; simpl; [reflexivity|].
  destruct (p x); simpl; [destruct (q x)|]; now rewrite IH.
Qed.

Lemma caps_ratio_test txt :
  Qltb (1 # 2) (caps_ratio (_analyze_text_patterns txt))
  = (alpha_count txt <? 2 * caps_count txt).
Proof.
  unfold alpha_count, caps_count, _analyze_text_patterns.
  destruct txt as [|c txt]; [reflexivity|].
  cbn [caps_ratio]. rewrite filter_filter_andb.
  set (l := c :: txt).
  set (u := length (List.filter (fun x => py_isalpha x && py_isupper x) l)).
  destruct (List.filter py_isalpha l) as [|a al] eqn:Ea.
  - assert (u = 0%nat) as ->.
    { subst u. clear -Ea. induction l as [|x l IH]; simpl in *; [reflexivity|].
      destruct (py_isalpha x); simpl in *; [discriminate | auto]. }
    reflexivity.
  - set (n := length (a :: al)).
    assert (Hn : (0 < n)%nat) by (subst n; simpl; lia).
    apply eq_true_iff_eq. rewrite Qltb_lt, Z.ltb_lt.
    unfold Qlt. simpl Qnum. simpl Qden.
    rewrite <- (positive_nat_Z (Pos.of_nat n)), Nat2Pos.id by lia.
    lia.
Qed.

Lemma custom_rules_sum custom txt meta :
  sum_weights (_apply_custom_rules custom txt meta) = custom_weight custom txt meta.
Proof.
  unfold _apply_custom_rules, custom_weight.
  induction custom as [|r rs IH]; simpl; [reflexivity|].
  rewrite sum_weights_app, IH. f_equal.
  destruct r as [kws n w | f v n w |]; simpl; try reflexivity.
  - destruct (existsb _ kws); simpl; [rewrite sum_weights_cons, sum_weights_nil; simpl; lia | reflexivity].
  - destruct (opt_pyval_eqb _ v); simpl; [rewrite sum_weights_cons, sum_weights_nil; simpl; lia | reflexivity].
Qed.

Ltac by_cases_on_text t :=
  repeat match goal with
  | |- context [text_eqb t ?k] =>
      let E := fresh "E" in
      destruct (text_eqb t k) eqn:E;
      [ apply text_eqb_eq in E; subst t; vm_compute; reflexivity | ]
  end.

Lemma sum_weights_single n w : sum_weights [ {| name := n; weight := w |} ] = w.
Proof. rewrite sum_weights_cons, sum_weights_nil. cbn [weight]. lia. Qed.

Lemma urgent_factors_sum txt language :
  sum_weights (urgent_factors (_check_keywords txt URGENT_KEYWORDS language))
  = row (any_lexeme txt URGENT_KEYWORDS) 2.
Proof.
  destruct (_check_keywords txt URGENT_KEYWORDS language) as [|u us] eqn:Eu.
  - apply check_keywords_nil in Eu. now rewrite Eu.
  - destruct (any_lexeme txt URGENT_KEYWORDS) eqn:E.
    + apply sum_weights_single.
    + apply check_keywords_nil with (lang := language) in E. congruence.
Qed.

Lemma high_factors_sum txt language :
  sum_weights (high_factors (_check_keywords txt HIGH_KEYWORDS language)
                 (_check_keywords txt URGENT_KEYWORDS language))
  = row (any_lexeme txt HIGH_KEYWORDS && negb (any_lexeme txt URGENT_KEYWORDS)) 1.
Proof.
  destruct (any_lexeme txt URGENT_KEYWORDS) eqn:Eu;
    destruct (any_lexeme txt HIGH_KEYWORDS) eqn:Eh;
    destruct (_check_keywords txt URGENT_KEYWORDS language) as [|u us] eqn:Cu;
    destruct (_check_keywords txt HIGH_KEYWORDS language) as [|h hs] eqn:Ch;
    try (apply check_keywords_nil in Cu; congruence);
    try (apply check_keywords_nil in Ch; congruence);
    try (apply check_keywords_nil with (lang := language) in Eu; congruence);
    try (apply check_keywords_nil with (lang := language) in Eh; congruence);
    reflexivity.
Qed.

Lemma sentiment_factors_sum (sentiment : option text) :
  sum_weights (sentiment_factors sentiment)
  = row (is_label sentiment "negative") 1 + row (is_label sentiment "angry") 2.
Proof.
  destruct sentiment as [s|]; [|reflexivity].
  unfold sentiment_factors, mem, is_label, row. cbn [existsb].
  destruct (text_eqb s (str "negative")) eqn:En.
  - apply text_eqb_eq in En. subst s. vm_compute. reflexivity.
  - destruct (text_eqb s (str "angry")); cbn [orb];
      [apply sum_weights_single | reflexivity].
Qed.

Lemma anger_factors_sum (anger_level : option Q) :
  sum_weights (anger_factors anger_level)
  = row (match anger_level with Some a => Qleb (7 # 10) a | None => false end) 1.
Proof.
  destruct anger_level as [a|]; [|reflexivity].
  unfold anger_factors. destruct (Qleb (7 # 10) a); [apply sum_weights_single | reflexivity].
Qed.

Lemma tier_factors_sum tier : sum_weights (tier_factors tier) = tier_weight tier.
Proof.
  unfold tier_factors. cbv zeta.
  assert (E : default 0 (dict_get TIER_BOOSTS (py_lower tier)) = tier_weight tier).
  { unfold tier_weight. cbv zeta.
    remember (py_lower tier) as t eqn:Et. clear Et.
    unfold TIER_BOOSTS, dict_get. by_cases_on_text t. reflexivity. }
  rewrite E. destruct (tier_weight tier =? 0) eqn:Z0.
  - apply Z.eqb_eq in Z0. now rewrite Z0.
  - apply sum_weights_single.
Qed.

Lemma category_factors_sum (category : option text) :
  sum_weights (category_factors category) = category_weight category.
Proof.
  destruct category as [c|]; [|reflexivity].
  unfold category_factors, category_weight.
  destruct c as [|x c]; [reflexivity|].
  cbn [truthy]. remember (x :: c) as t eqn:Et. clear Et x c.
  unfold CRITICAL_CATEGORIES, LOW_PRIORITY_CATEGORIES, dict_get.
  by_cases_on_text t. reflexivity.
Qed.

Lemma pattern_factors_sum txt :
  sum_weights (pattern_factors (_analyze_text_patterns txt))
  = row (alpha_count txt <? 2 * caps_count txt) 1
    + row (3 <=? Z.of_nat (count_char 33%N txt)) 1
    + row (existsb (fun p => search p txt) deadline_patterns) 1.
Proof.
  unfold pattern_factors. rewrite caps_ratio_test.
  assert (Eexcl : exclamation_count (_analyze_text_patterns txt)
                  = Z.of_nat (count_char 33%N txt)) by now destruct txt.
  assert (Edead : has_deadline_mention (_analyze_text_patterns txt)
                  = existsb (fun p => search p txt) deadline_patterns).
  { destruct txt; [|reflexivity]. cbn [_analyze_text_patterns has_deadline_mention].
    unfold deadline_patterns. cbn [existsb search istarts_with match_by_word_digits].
    reflexivity. }
  rewrite Eexcl, Edead, !sum_weights_app.
  destruct (alpha_count txt <? 2 * caps_count txt);
    destruct (3 <=? Z.of_nat (count_char 33%N txt));
    destruct (existsb (fun p => search p txt) deadline_patterns);
    rewrite ?sum_weights_single, ?sum_weights_nil; reflexivity.
Qed.

(** C3. [PriorityScorer.calculate] returns a score between 1 and 5, and
    that score is [max(1, min(5, 3 + sum))] where [sum] adds the signed
    weights of the triggered rows of the table of section 4.4: urgent
    keyword +2, high-priority keyword +1 only without an urgent one,
    negative sentiment +1, angry sentiment +2, anger level of at least
    0.7 +1, the tier and category table values, excessive capitals,
    three or more exclamation marks and a deadline mention +1 each, and
    the weights of the custom rules that hit. *)
Theorem C3_calculate_score_is_clamped_table_sum
    (custom_rules : list CustomRule) (txt : text) (sentiment : option text)
    (anger_level : option Q) (customer_tier : text) (category : option text)
    (language : text) (metadata : gmap text pyval) :
  score (calculate custom_rules txt sentiment anger_level customer_tier
           category language metadata)
  = clamp_1_5 (3 + weight_sum custom_rules txt sentiment anger_level
                     customer_tier category metadata)
  /\ 1 <= score (calculate custom_rules txt sentiment anger_level customer_tier
                   category language metadata) <= 5.
Proof.
  unfold calculate. cbv zeta. cbn [score].
  split; [|lia].
  unfold clamp_1_5. do 3 f_equal.
  rewrite !sum_weights_app, urgent_factors_sum, high_factors_sum,
    sentiment_factors_sum, anger_factors_sum, tier_factors_sum,
    category_factors_sum, pattern_factors_sum, custom_rules_sum.
  unfold weight_sum. cbv zeta. lia.
Qed.

End PriorityProofs.

(** ** Sentiment analyzer *)

Section SentimentProofs.
Context `{PyRuntime}.
Import SentimentAnalyzer SentimentSpec.

Lemma Qle_7_10_quarters (n : nat) :
  (3 <= n)%nat -> Qleb (7 # 10) (py_min (inject_Z (Z.of_nat n) * (1 # 4)) 1) = true.
Proof.
  intros Hn. unfold py_min.
  destruct (Qltb 1 (inject_Z (Z.of_nat n) * (1 # 4))); apply Qleb_le.
  - unfold Qle. simpl. lia.
  - unfold Qle, Qmult, inject_Z. simpl. lia.
Qed.

Lemma rule_anger_rounded (n : nat) :
  (py_round (py_min (inject_Z (Z.of_nat n) * (1 # 4)) 1) 3
   == quarter_per_word (Z.of_nat n))%Q.
Proof.
  do 5 (destruct n as [|n]; [vm_compute; reflexivity|]).
  assert (E : Qltb 1 (inject_Z (Z.of_nat (S (S (S (S (S n)))))) * (1 # 4)) = true).
  { apply Qltb_lt. unfold Qlt, Qmult, inject_Z. simpl Qnum. simpl Qden. lia. }
  unfold py_min. rewrite E.
  unfold quarter_per_word.
  destruct (Z.of_nat (S (S (S (S (S n))))) <? 4) eqn:E4; [apply Z.ltb_lt in E4; lia|].
  vm_compute. reflexivity.
Qed.

(** The rule-based result already satisfies the implication on its own:
    its anger level is a multiple of a quarter, which rounding to three
    digits leaves alone. *)
Lemma rules_high_anger_is_angry txt language q :
  anger_level (_analyze_with_rules txt language) = Some q ->
  (7 # 10 <= q)%Q ->
  sentiment (_analyze_with_rules txt language) = value ANGRY.
Proof.
  unfold _analyze_with_rules. cbv zeta. cbn [anger_level sentiment].
  set (n := count_hits (angry_words language) (py_lower txt)).
  intros Hq Hle. injection Hq as <-.
  destruct (le_lt_dec 3 n) as [Hn|Hn].
  - now rewrite (Qle_7_10_quarters n Hn).
  - exfalso. revert Hle.
    destruct n as [|[|[|n]]]; [| | | lia]; vm_compute; intros Hle; now apply Hle.
Qed.

Lemma validated_high_anger_is_angry (r : Result) q :
  anger_level (validate_and_override r) = Some q ->
  (7 # 10 <= q)%Q ->
  sentiment (validate_and_override r) = value ANGRY.
Proof.
  unfold validate_and_override. cbn [anger_level sentiment].
  intros -> Hle. apply Qleb_le in Hle. unfold default. cbn [from_option id].
  now rewrite Hle.
Qed.

(** C4. Whatever path [analyze] takes (provider, HuggingFace, rules, or
    the rule-based result returned when the attempt raises), a returned
    anger level of at least 0.7 comes with the label [angry]. *)
Theorem C4_high_anger_level_forces_angry
    (use_huggingface has_api_key : bool) (world : Providers)
    (txt language method0 : text) (q : Q) :
  anger_level (analyze use_huggingface has_api_key world txt language method0) = Some q ->
  (7 # 10 <= q)%Q ->
  sentiment (analyze use_huggingface has_api_key world txt language method0) = value ANGRY.
Proof.
  unfold analyze.
  destruct (negb (truthy txt) || negb (truthy (strip txt))).
  - cbn [anger_level]. intros [= <-] Hle. exfalso. revert Hle. vm_compute. auto.
  - cbv zeta.
    match goal with
    | |- context [match ?a with Some result => result | None => _ end] =>
        destruct a as [result|] eqn:Ea
    end.
    + assert (Hv : exists r, result = validate_and_override r).
      { repeat match type of Ea with
          | (if ?c then _ else _) = _ => destruct c
          | (?m ≫= _) = Some _ =>
              let x := fresh "x" in
              destruct m as [x|] eqn:?; cbn [mbind option_bind] in Ea; [|discriminate]
          end;
          injection Ea as <-; eauto. }
      destruct Hv as [r ->]. apply validated_high_anger_is_angry.
    + apply rules_high_anger_is_angry.
Qed.

Lemma py_min_Qmin (a b : Q) : (py_min a b == Qmin a b)%Q.
Proof.
  unfold py_min. destruct (Qltb b a) eqn:E.
  - apply Qltb_lt in E. symmetry. apply Q.min_r. now apply Qlt_le_weak.
  - symmetry. apply Q.min_l. apply Qnot_lt_le. intros Hlt.
    apply Qltb_lt in Hlt. congruence.
Qed.

(** The formula of section 4.3 is the one [_detect_anger] evaluates, on
    the HuggingFace path. *)
Lemma detect_anger_is_formula txt language :
  (_detect_anger txt language == anger_level_formula txt language)%Q.
Proof.
  unfold _detect_anger, anger_level_formula. cbv zeta.
  rewrite py_min_Qmin.
  apply Q.min_compat; [|reflexivity].
  unfold angry_word_count, caps_ratio, exclamation_count. ring.
Qed.

(** C5, as the code has it. The anger level the rule-based fallback
    returns is a quarter per angry word of the lexicon of the language
    found in the lowercased text, capped at one; capital letters and
    exclamation marks play no part in it. *)
Theorem C5_rule_fallback_anger_is_quarter_per_word (txt language : text) :
  exists a : Q,
    anger_level (_analyze_with_rules txt language) = Some a
    /\ (a == quarter_per_word (angry_word_count txt language))%Q.
Proof.
  unfold _analyze_with_rules. cbv zeta. cbn [anger_level].
  eexists. split; [reflexivity|].
  unfold angry_word_count. apply rule_anger_rounded.
Qed.

End SentimentProofs.

(** C4 at a provider reply with anger 0.9 and the label [negative]. *)
Lemma C4_witness_upset_reply :
  SentimentAnalyzer.anger_level (SentimentAnalyzer.analyze false true Examples.upset_world (str "I am very upset")
                 (str "en") (str "auto")) = Some (9 # 10)
  /\ (7 # 10 <= 9 # 10)%Q
  /\ SentimentAnalyzer.sentiment (SentimentAnalyzer.analyze false true Examples.upset_world (str "I am very upset")
                  (str "en") (str "auto")) = SentimentAnalyzer.value SentimentAnalyzer.ANGRY.
Proof.
  assert (Ha : SentimentAnalyzer.anger_level (SentimentAnalyzer.analyze false true Examples.upset_world
                              (str "I am very upset") (str "en") (str "auto"))
               = Some (9 # 10)) by reflexivity.
  assert (Hq : (7 # 10 <= 9 # 10)%Q) by (unfold Qle; simpl; lia).
  split; [exact Ha|]. split; [exact Hq|].
  exact (C4_high_anger_level_forces_angry false true Examples.upset_world
           (str "I am very upset") (str "en") (str "auto") (9 # 10) Ha Hq).
Defined.

(** C5 as stated fails: with one angry word, no capital and no
    exclamation mark the formula gives 0.2 and the fallback returns
    0.25. *)
Lemma C5_counterexample_one_angry_word :
  exists a : Q,
    SentimentAnalyzer.anger_level
      (SentimentAnalyzer._analyze_with_rules Examples.outrageous (str "en")) = Some a
    /\ (a == 1 # 4)%Q
    /\ (SentimentSpec.anger_level_formula Examples.outrageous (str "en") == 2 # 10)%Q
    /\ ~ (a == SentimentSpec.anger_level_formula Examples.outrageous (str "en"))%Q.
Proof.
  eexists. split; [reflexivity|].
  split; [vm_compute; reflexivity|].
  split; [vm_compute; reflexivity|].
  vm_compute. discriminate.
Qed.

(** ** Classifier *)

Lemma lstrip_all_space (s : text) :
  forallb isspace s = true -> lstrip s = [].
Proof.
  induction s as [|c s IH]; simpl; [reflexivity|].
  intros Hs. apply andb_true_iff in Hs as [Hc Hs]. rewrite Hc. auto.
Qed.

Lemma strip_all_space (s : text) :
  forallb isspace s = true -> strip s = [].
Proof.
  intros Hs. unfold strip, rstrip.
  rewrite (lstrip_all_space s Hs). reflexivity.
Qed.

(** C6. On content that is empty or made of whitespace only, [classify]
    answers [general_inquiry] with confidence 0.0 and method [default],
    and its trace is empty: no provider call, no cache access. *)
Theorem C6_blank_content_default_without_effects
    `{PyRuntime} (self : TicketClassifier.Classifier) (w : TicketClassifier.World)
    (txt language : text) (use_cache : bool) :
  forallb isspace txt = true ->
  let '(r, trace) := TicketClassifier.classify self w txt language use_cache in
  TicketClassifier.primary_category r = str "general_inquiry"
  /\ TicketClassifier.confidence r = Some 0%Q
  /\ TicketClassifier.method r = str "default"
  /\ trace = [].
Proof.
  intros Hs. unfold TicketClassifier.classify.
  rewrite (strip_all_space txt Hs). cbn [truthy negb].
  rewrite orb_true_r. repeat split.
Qed.

(** C6 at a blank text, with the cache on and holding an entry: the
    answer is the default one and nothing was accessed. *)
Lemma C6_witness_blank_text :
  forallb isspace Examples.blank = true
  /\ let '(r, trace) :=
       TicketClassifier.classify Examples.caching_classifier Examples.answering_world
         Examples.blank (str "en") true in
     TicketClassifier.primary_category r = str "general_inquiry"
     /\ TicketClassifier.confidence r = Some 0%Q
     /\ TicketClassifier.method r = str "default"
     /\ trace = [].
Proof.
  split; [reflexivity|].
  exact (C6_blank_content_default_without_effects Examples.caching_classifier
           Examples.answering_world Examples.blank (str "en") true eq_refl).
Defined.

(** ** Routing rules *)

Section RuleProofs.
Context `{PyRuntime}.
Import RoutingRule.

Lemma get_empty key dflt : get ∅ key dflt = dflt.
Proof. unfold get. now rewrite lookup_empty. Qed.

Lemma matches_false_of_evaluate (r : RoutingRule) clock td :
  _evaluate_conditions r td = Some false -> matches r clock td = Some false.
Proof.
  intros E. unfold matches.
  repeat match goal with |- context [if ?c then _ else _] => destruct c end;
    auto.
Qed.

(** C8, as the code has it. A rule whose [conditions] object is empty
    does not match when its type is category, keyword, sentiment,
    customer, language, time or custom; a priority rule with empty
    conditions takes the bounds 1 and 5 and so accepts every ticket
    whose priority lies between them; and a keyword rule whose only
    condition is the match mode [all] accepts every ticket. *)
Theorem C8_empty_conditions_by_rule_type (r : RoutingRule) (clock : Clock)
    (td : TicketData) :
  conditions r = ∅ ->
  _evaluate_conditions r td
  = Some (match rule_type r with
          | PRIORITY => (1 <=? td_priority td) && (td_priority td <=? 5)
          | _ => false
          end)
  /\ (rule_type r <> PRIORITY -> matches r clock td = Some false)
  /\ (forall r' : RoutingRule,
        rule_type r' = KEYWORD ->
        conditions r' = {[ "match_mode"%string := JStr (str "all") ]} ->
        _evaluate_conditions r' td = Some true).
Proof.
  intros Hc.
  assert (E : _evaluate_conditions r td
              = Some (match rule_type r with
                      | PRIORITY => (1 <=? td_priority td) && (td_priority td <=? 5)
                      | _ => false
                      end)).
  { unfold _evaluate_conditions. rewrite Hc, !get_empty.
    destruct (rule_type r); try reflexivity.
    cbn. destruct (1 <=? td_priority td); reflexivity. }
  split; [exact E|]. split.
  - intros Hp. apply matches_false_of_evaluate. rewrite E.
    destruct (rule_type r); congruence.
  - intros r' Hk Hc'. unfold _evaluate_conditions. rewrite Hk, Hc'.
    unfold get. rewrite !lookup_singleton. reflexivity.
Qed.

End RuleProofs.

(** C8 at an active priority rule with empty conditions and a ticket of
    priority 3. *)
Lemma C8_witness_bare_priority_rule :
  RoutingRule.conditions (Examples.bare_rule RoutingRule.PRIORITY) = ∅
  /\ RoutingRule._evaluate_conditions (Examples.bare_rule RoutingRule.PRIORITY)
       Examples.plain_ticket = Some true.
Proof.
  split; [reflexivity|].
  exact (proj1 (C8_empty_conditions_by_rule_type
                  (Examples.bare_rule RoutingRule.PRIORITY) Examples.monday_noon
                  Examples.plain_ticket eq_refl)).
Defined.

(** C8 as stated fails: an active priority rule whose conditions are
    empty matches a ticket of priority 3. *)
Lemma C8_counterexample_bare_priority_rule_matches :
  RoutingRule.conditions (Examples.bare_rule RoutingRule.PRIORITY) = ∅
  /\ RoutingRule.rule_type (Examples.bare_rule RoutingRule.PRIORITY) <> RoutingRule.CUSTOM
  /\ RoutingRule.matches (Examples.bare_rule RoutingRule.PRIORITY) Examples.monday_noon
       Examples.plain_ticket = Some true.
Proof. repeat split. discriminate. Qed.

(** ** Router *)

Lemma insert_desc_not_nil {A} (key : A -> Q) x l : insert_desc key x l <> [].
Proof. destruct l; simpl; [|destruct (Qltb _ _)]; discriminate. Qed.

Lemma sort_desc_not_nil {A} (key : A -> Q) l : l <> [] -> sort_desc key l <> [].
Proof.
  destruct l as [|x l]; [congruence|]. intros _. simpl. apply insert_desc_not_nil.
Qed.

Lemma Qltb_false_le a b : Qltb a b = false -> (b <= a)%Q.
Proof.
  intros E. apply Qnot_lt_le. intros Hlt. apply Qltb_lt in Hlt. congruence.
Qed.

(** The head of the sorted list is the first item of the original
    list whose key is maximal: what stands before it is strictly
    smaller, what stands after it is not larger. *)
Lemma sort_desc_head {A} (key : A -> Q) (l : list A) x t :
  sort_desc key l = x :: t ->
  exists pre post,
    l = pre ++ x :: post
    /\ Forall (fun y => (key y < key x)%Q) pre
    /\ Forall (fun y => (key y <= key x)%Q) post.
Proof.
  revert x t. induction l as [|y l IH]; intros x t; simpl; [discriminate|].
  destruct (sort_desc key l) as [|h t'] eqn:Es.
  - simpl. intros [= <- <-].
    destruct l as [|z l]; [|exfalso; eapply sort_desc_not_nil; [|exact Es]; discriminate].
    exists [], []. repeat split; constructor.
  - destruct (IH h t' eq_refl) as (pre & post & -> & Hpre & Hpost).
    simpl. destruct (Qltb (key y) (key h)) eqn:E.
    + intros [= <- <-]. apply Qltb_lt in E.
      exists (y :: pre), post. repeat split; [constructor|]; assumption.
    + intros [= <- <-]. apply Qltb_false_le in E.
      exists [], (pre ++ h :: post). repeat split; [constructor|].
      apply Forall_app. split.
      * eapply Forall_impl; [exact Hpre|]. intros z Hz. simpl in Hz.
        apply Qlt_le_weak. eapply Qlt_le_trans; eassumption.
      * constructor; [assumption|].
        eapply Forall_impl; [exact Hpost|]. intros z Hz. simpl in Hz.
        eapply Qle_trans; eassumption.
Qed.

Lemma insert_desc_map {A B} (f : A -> B) (key : B -> Q) x l :
  insert_desc key (f x) (map f l) = map f (insert_desc (fun a => key (f a)) x l).
Proof.
  induction l as [|y l IH]; simpl; [reflexivity|].
  destruct (Qltb (key (f x)) (key (f y))); simpl; [now rewrite IH | reflexivity].
Qed.

Lemma sort_desc_map {A B} (f : A -> B) (key : B -> Q) l :
  sort_desc key (map f l) = map f (sort_desc (fun a => key (f a)) l).
Proof.
  induction l as [|x l IH]; simpl; [reflexivity|].
  now rewrite IH, insert_desc_map.
Qed.

(** ** The order of the floats *)

Section FloatOrder.
Import PyFloat.

Lemma SFltb_code (f g : spec_float) :
  f <> S754_nan -> g <> S754_nan ->
  (SFltb f g = true <-> lex_lt (code f) (code g)).
Proof.
  intros Hf Hg. unfold SFltb, SFcompare, lex_lt.
  destruct f as [sf|sf| |sf mf ef], g as [sg|sg| |sg mg eg]; try congruence;
    try destruct sf; try destruct sg; cbn [code];
    try (split; [discriminate | lia]);
    try (split; [lia | reflexivity]).
  all: change (Pos.compare_cont Eq mf mg) with (Pos.compare mf mg);
    destruct (Z.compare_spec ef eg), (Pos.compare_spec mf mg); cbn [CompOpp];
    split; intros Hx; try reflexivity; try discriminate; lia.
Qed.

Lemma not_nan_spec (x : float) : is_nan x = false -> Prim2SF x <> S754_nan.
Proof.
  unfold is_nan. rewrite FloatAxioms.eqb_spec. intros Hx E. rewrite E in Hx. discriminate.
Qed.

Lemma ltb_not_nan (x y : float) :
  (x <? y)%float = true -> Prim2SF x <> S754_nan /\ Prim2SF y <> S754_nan.
Proof.
  rewrite FloatAxioms.ltb_spec. unfold SFltb, SFcompare.
  destruct (Prim2SF x), (Prim2SF y); try discriminate; split; discriminate.
Qed.

Lemma ltb_lex (x y : float) :
  Prim2SF x <> S754_nan -> Prim2SF y <> S754_nan ->
  ((x <? y)%float = true <-> lex_lt (code (Prim2SF x)) (code (Prim2SF y))).
Proof. intros Hx Hy. rewrite FloatAxioms.ltb_spec. now apply SFltb_code. Qed.

Lemma ltb_trans (x y z : float) :
  (x <? y)%float = true -> (y <? z)%float = true -> (x <? z)%float = true.
Proof.
  intros Hxy Hyz.
  destruct (ltb_not_nan _ _ Hxy) as [Hx Hy]. destruct (ltb_not_nan _ _ Hyz) as [_ Hz].
  rewrite ltb_lex in * by assumption. revert Hxy Hyz. unfold lex_lt.
  destruct (code (Prim2SF x)) as [[? ?] ?], (code (Prim2SF y)) as [[? ?] ?],
    (code (Prim2SF z)) as [[? ?] ?]. lia.
Qed.

(** A float that is not a NaN is comparable with every other one. *)
Lemma ltb_between (x y z : float) :
  is_nan y = false ->
  (x <? z)%float = true -> (x <? y)%float = true \/ (y <? z)%float = true.
Proof.
  intros Hy Hxz. apply not_nan_spec in Hy.
  destruct (ltb_not_nan _ _ Hxz) as [Hx Hz].
  rewrite !ltb_lex in * by assumption. revert Hxz. unfold lex_lt.
  destruct (code (Prim2SF x)) as [[? ?] ?], (code (Prim2SF y)) as [[? ?] ?],
    (code (Prim2SF z)) as [[? ?] ?]. lia.
Qed.

Lemma SFleb_code (f g : spec_float) :
  f <> S754_nan -> g <> S754_nan ->
  (SFleb f g = true <-> ~ lex_lt (code g) (code f)).
Proof.
  intros Hf Hg. unfold SFleb, SFcompare, lex_lt.
  destruct f as [sf|sf| |sf mf ef], g as [sg|sg| |sg mg eg]; try congruence;
    try destruct sf; try destruct sg; cbn [code];
    try (split; [discriminate | lia]);
    try (split; [lia | reflexivity]).
  all: change (Pos.compare_cont Eq mf mg) with (Pos.compare mf mg);
    destruct (Z.compare_spec ef eg), (Pos.compare_spec mf mg); cbn [CompOpp];
    split; intros Hx; try reflexivity; try discriminate; lia.
Qed.

Lemma not_ltb_leb (x y : float) :
  is_nan x = false -> is_nan y = false ->
  (x <? y)%float = false -> (y <=? x)%float = true.
Proof.
  intros Hx Hy Hlt. apply not_nan_spec in Hx, Hy.
  rewrite FloatAxioms.leb_spec. apply SFleb_code; [assumption..|].
  intros Hlex. apply (ltb_lex x y Hx Hy) in Hlex. congruence.
Qed.

End FloatOrder.

Lemma insert_desc_by_not_nil {A K} (lt : K -> K -> bool) (key : A -> K) x l :
  insert_desc_by lt key x l <> [].
Proof. destruct l; simpl; [|destruct (lt _ _)]; discriminate. Qed.

Lemma sort_desc_by_not_nil {A K} (lt : K -> K -> bool) (key : A -> K) l :
  l <> [] -> sort_desc_by lt key l <> [].
Proof.
  destruct l as [|x l]; [congruence|]. intros _. simpl. apply insert_desc_by_not_nil.
Qed.

(** The head of the sorted list is the first item of the greatest key:
    what comes before it in the list is smaller, what comes after it
    is not greater. [ok] holds of the keys that compare with every
    other key. *)
Lemma sort_desc_by_head {A K} (lt : K -> K -> bool) (ok : K -> Prop)
    (key : A -> K) (l : list A) x t :
  (forall a b c, lt a b = true -> lt b c = true -> lt a c = true) ->
  (forall a b c, ok b -> lt a c = true -> lt a b = true \/ lt b c = true) ->
  Forall (fun y => ok (key y)) l ->
  sort_desc_by lt key l = x :: t ->
  exists pre post,
    l = pre ++ x :: post
    /\ Forall (fun y => lt (key y) (key x) = true) pre
    /\ Forall (fun y => lt (key x) (key y) = false) post.
Proof.
  intros Htrans Hbetween. revert x t.
  induction l as [|h l IH]; intros x t Hok Es; [discriminate|].
  apply Forall_cons_iff in Hok as [Hh Hok].
  simpl in Es. destruct (sort_desc_by lt key l) as [|y s] eqn:El.
  - destruct l as [|z l];
      [|exfalso; eapply sort_desc_by_not_nil; [|exact El]; discriminate].
    simpl in Es. injection Es as <- <-. exists [], []. repeat split; constructor.
  - destruct (IH y s Hok eq_refl) as (pre & post & -> & Hpre & Hpost).
    simpl in Es. destruct (lt (key h) (key y)) eqn:E.
    + injection Es as <- <-. exists (h :: pre), post.
      split; [reflexivity|]. split; [constructor; assumption | assumption].
    + injection Es as <- <-. exists [], (pre ++ y :: post).
      split; [reflexivity|]. split; [constructor|].
      assert (Hy : ok (key y)).
      { rewrite Forall_forall in Hok. apply Hok. apply list_elem_of_In.
        apply in_or_app. right. now left. }
      rewrite Forall_forall in Hpre, Hpost.
      apply Forall_forall. intros b Hb. apply list_elem_of_In in Hb.
      destruct (lt (key h) (key b)) eqn:Eb; [|reflexivity]. exfalso.
      apply in_app_or in Hb as [Hb|[<-|Hb]].
      * assert (Hby : lt (key b) (key y) = true)
          by (apply Hpre; now apply list_elem_of_In).
        rewrite (Htrans _ _ _ Eb Hby) in E. discriminate.
      * congruence.
      * destruct (Hbetween _ _ _ Hy Eb) as [H1|H2]; [congruence|].
        rewrite (Hpost b) in H2; [discriminate | now apply list_elem_of_In].
Qed.

Lemma insert_desc_by_map {A B K} (lt : K -> K -> bool) (f : A -> B) (key : B -> K) x l :
  insert_desc_by lt key (f x) (map f l)
  = map f (insert_desc_by lt (fun a => key (f a)) x l).
Proof.
  induction l as [|y l IH]; simpl; [reflexivity|].
  destruct (lt (key (f x)) (key (f y))); simpl; [now rewrite IH | reflexivity].
Qed.

Lemma sort_desc_by_map {A B K} (lt : K -> K -> bool) (f : A -> B) (key : B -> K) l :
  sort_desc_by lt key (map f l) = map f (sort_desc_by lt (fun a => key (f a)) l).
Proof.
  induction l as [|x l IH]; simpl; [reflexivity|].
  now rewrite IH, insert_desc_by_map.
Qed.

Lemma insert_desc_by_In {A K} (lt : K -> K -> bool) (key : A -> K) x y l :
  In y (insert_desc_by lt key x l) <-> y = x \/ In y l.
Proof.
  induction l as [|z l IH]; simpl; [intuition congruence|].
  destruct (lt (key x) (key z)); simpl; [rewrite IH|]; intuition congruence.
Qed.

Lemma sort_desc_by_In {A K} (lt : K -> K -> bool) (key : A -> K) y l :
  In y (sort_desc_by lt key l) <-> In y l.
Proof.
  induction l as [|x l IH]; simpl; [reflexivity|].
  rewrite insert_desc_by_In, IH. intuition congruence.
Qed.

Section RouterProofs.
Context `{PyRuntime}.
Import Agent TicketRouter.

Lemma agent_of_candidate (a : Agent) category language priority customer_tier :
  agent (_calculate_agent_score a category language priority customer_tier) = a.
Proof.
  unfold _calculate_agent_score.
  repeat match goal with
  | |- context [match ?e with pair _ _ => _ end] => destruct e
  end.
  reflexivity.
Qed.

(** C7, as the code has it. The scores are floats. When none of them
    is a NaN, the weighted scoring selects a candidate of maximal score,
    and among candidates of equal maximal score the one that comes
    first in the iteration order of the agents: every agent before the
    selected one scores strictly less, every agent after it scores no
    more. Current load and experience level enter the choice through
    the score only. *)
Theorem C7_first_agent_of_maximal_score_is_selected
    (agents : list Agent) (category : option text) (language : text)
    (priority : Z) (customer_tier : option text) :
  agents <> [] ->
  Forall (fun a =>
            is_nan (score (_calculate_agent_score a category language priority
                             customer_tier)) = false)
    agents ->
  exists pre a post,
    agents = pre ++ a :: post
    /\ agent_id (score_and_select agents category language priority customer_tier)
       = Some (id a)
    /\ (forall b, In b pre ->
         (score (_calculate_agent_score b category language priority customer_tier)
          <? score (_calculate_agent_score a category language priority customer_tier)
         )%float = true)
    /\ (forall b, In b post ->
         (score (_calculate_agent_score b category language priority customer_tier)
          <=? score (_calculate_agent_score a category language priority customer_tier)
         )%float = true).
Proof.
  intros Hne Hnan. unfold score_and_select. cbv zeta.
  rewrite sort_desc_by_map.
  set (key := fun a => score (_calculate_agent_score a category language priority
                                customer_tier)) in *.
  destruct (sort_desc_by PrimFloat.ltb key agents) as [|a t] eqn:Es.
  - exfalso. eapply sort_desc_by_not_nil; eassumption.
  - destruct (sort_desc_by_head PrimFloat.ltb (fun x => is_nan x = false) key agents a t
                ltb_trans ltb_between Hnan Es)
      as (pre & post & -> & Hpre & Hpost).
    exists pre, a, post. split; [reflexivity|]. split.
    + cbn [map agent_id]. now rewrite agent_of_candidate.
    + rewrite Forall_forall in Hpre, Hpost, Hnan. split; intros b Hb.
      * apply Hpre. now apply list_elem_of_In.
      * apply not_ltb_leb.
        -- apply (Hnan a). apply list_elem_of_In, in_or_app. right. now left.
        -- apply (Hnan b). apply list_elem_of_In, in_or_app. right. now right.
        -- apply Hpost. now apply list_elem_of_In.
Qed.

Lemma find_all_rejected {A} (p : A -> bool) (l : list A) :
  (forall x, In x l -> p x = false) -> List.find p l = None.
Proof.
  induction l as [|y l IH]; simpl; [reflexivity|]. intros Hall.
  rewrite (Hall y (or_introl eq_refl)). apply IH. intros x Hx. apply Hall. now right.
Qed.

Lemma find_first_accepted {A} (p : A -> bool) (pre : list A) x post :
  (forall y, In y pre -> p y = false) -> p x = true ->
  List.find p (pre ++ x :: post) = Some x.
Proof.
  induction pre as [|y pre IH]; simpl; intros Hpre Hx.
  - now rewrite Hx.
  - rewrite (Hpre y (or_introl eq_refl)). apply IH; [|assumption].
    intros z Hz. apply Hpre. now right.
Qed.

(** C10. [reassign] recomputes the route and, when the best agent is in
    the exclusion set, walks the alternatives in order: the first one
    outside the set replaces the agent of the decision; when every
    alternative is excluded too, or there is none, the decision is
    returned as it is and still names the excluded best agent. *)
Theorem C10_reassign_falls_back_to_excluded_best
    (db : Database) (clock : Clock) (current_agent_id : option text)
    (exclude_agents : list text) (reason_given : option text)
    (category : option text) (priority : Z) (language : text)
    (customer_tier source content sentiment : option text)
    (result : Decision) (best : text) :
  let exclude :=
    match current_agent_id with
    | Some c => c :: exclude_agents
    | None => exclude_agents
    end in
  route db clock category priority language customer_tier source content sentiment
    = Some result ->
  agent_id result = Some best ->
  mem best exclude = true ->
  exists d,
    reassign db clock current_agent_id exclude_agents reason_given category priority
      language customer_tier source content sentiment = Some d
    /\ ((forall alt, In alt (alternatives result) ->
                     mem (alt_agent_id alt) exclude = true) ->
        agent_id d = Some best)
    /\ (forall pre alt post,
          alternatives result = pre ++ alt :: post ->
          (forall x, In x pre -> mem (alt_agent_id x) exclude = true) ->
          mem (alt_agent_id alt) exclude = false ->
          agent_id d = Some (alt_agent_id alt)
          /\ agent_name d = Some (alt_agent_name alt)).
Proof.
  intros exclude Hroute Hbest Hex.
  unfold reassign. rewrite Hroute. cbn [mbind option_bind].
  eexists. split; [reflexivity|].
  unfold reassign_from. fold exclude. rewrite Hbest, Hex. split.
  - intros Hall. rewrite find_all_rejected; [assumption|].
    intros x Hx. now rewrite (Hall x Hx).
  - intros pre alt post Halts Hpre Halt.
    rewrite Halts, (find_first_accepted _ pre alt post).
    + split; reflexivity.
    + intros y Hy. now rewrite (Hpre y Hy).
    + now rewrite Halt.
Qed.

End RouterProofs.

(** C7 at two agents at half of their capacity. *)
Lemma C7_witness_half_loaded :
  Examples.half_loaded <> []
  /\ Forall (fun a =>
               is_nan (TicketRouter.score
                         (TicketRouter._calculate_agent_score a None (str "en") 3
                            (Some (str "standard")))) = false)
       Examples.half_loaded
  /\ exists pre a post,
       Examples.half_loaded = pre ++ a :: post
       /\ TicketRouter.agent_id
            (TicketRouter.score_and_select Examples.half_loaded None (str "en") 3
               (Some (str "standard")))
          = Some (Agent.id a)
       /\ (forall b, In b pre ->
            (TicketRouter.score
               (TicketRouter._calculate_agent_score b None (str "en") 3
                  (Some (str "standard")))
             <? TicketRouter.score
                  (TicketRouter._calculate_agent_score a None (str "en") 3
                     (Some (str "standard"))))%float = true)
       /\ (forall b, In b post ->
            (TicketRouter.score
               (TicketRouter._calculate_agent_score b None (str "en") 3
                  (Some (str "standard")))
             <=? TicketRouter.score
                   (TicketRouter._calculate_agent_score a None (str "en") 3
                      (Some (str "standard"))))%float = true).
Proof.
  assert (Hne : Examples.half_loaded <> []) by discriminate.
  assert (Hnan : Forall (fun a =>
                   is_nan (TicketRouter.score
                             (TicketRouter._calculate_agent_score a None (str "en") 3
                                (Some (str "standard")))) = false)
                   Examples.half_loaded)
    by (repeat constructor).
  split; [exact Hne|]. split; [exact Hnan|].
  exact (C7_first_agent_of_maximal_score_is_selected Examples.half_loaded None
           (str "en") 3 (Some (str "standard")) Hne Hnan).
Defined.

(** C7 as stated fails: the two agents score 40.0 each, the second one
    holds fewer tickets, and the router selects the first one, where
    the tie-breaks of the specification select the second. *)
Lemma C7_counterexample_tie_goes_to_first_agent :
  let candidates :=
    map (fun a => TicketRouter._calculate_agent_score a None (str "en") 3
                    (Some (str "standard")))
        Examples.half_loaded in
  Forall (fun c => TicketRouter.score c = 40%float) candidates
  /\ option_map TicketRouter.agent_id
       (TicketRouter.route Examples.half_loaded_db Examples.monday_noon None 3 (str "en")
          (Some (str "standard")) None None None)
     = Some (Some (str "A"))
  /\ option_map (fun c => Agent.id (TicketRouter.agent c)) (RouterSpec.select candidates)
     = Some (str "B").
Proof.
  split; [|split].
  - repeat constructor.
  - vm_compute. reflexivity.
  - vm_compute. reflexivity.
Qed.

(** Scores are rounded at every step: two agents whose scores are the
    same fraction get different floats, and the router selects the
    second one, whose float is the greater. *)
Lemma scores_are_rounded_floats :
  map (fun a => TicketRouter.score
                  (TicketRouter._calculate_agent_score a None (str "en") 3
                     (Some (str "standard"))))
      Examples.same_fraction
  = [46.666666666666664%float; 46.66666666666667%float]
  /\ option_map TicketRouter.agent_id
       (TicketRouter.route Examples.same_fraction_db Examples.monday_noon None 3
          (str "en") (Some (str "standard")) None None None)
     = Some (Some (str "B")).
Proof. split; vm_compute; reflexivity. Qed.

(** C10 at the two agents, both excluded: the decision still names the
    first of them. *)
Lemma C10_witness_all_excluded :
  exists result,
    TicketRouter.route Examples.half_loaded_db Examples.monday_noon None 3 (str "en")
      (Some (str "standard")) None None None = Some result
    /\ TicketRouter.agent_id result = Some (str "A")
    /\ mem (str "A") [str "A"; str "B"] = true
    /\ exists d,
         TicketRouter.reassign Examples.half_loaded_db Examples.monday_noon None
           [str "A"; str "B"] None None 3 (str "en") (Some (str "standard"))
           None None None = Some d
         /\ TicketRouter.agent_id d = Some (str "A").
Proof.
  eexists. split; [vm_compute; reflexivity|].
  split; [reflexivity|]. split; [reflexivity|].
  destruct (C10_reassign_falls_back_to_excluded_best Examples.half_loaded_db
              Examples.monday_noon None [str "A"; str "B"] None None 3 (str "en")
              (Some (str "standard")) None None None _ (str "A")
              eq_refl eq_refl eq_refl) as (d & Hd & Hall & _).
  exists d. split; [exact Hd|]. apply Hall.
  intros alt [<-|[]]. reflexivity.
Defined.

(** ** Pipeline and ticket API *)

Section PipelineProofs.
Context `{PyRuntime}.
Import Ticket TicketsApi.

Lemma enrich_ignores_is_processed svc ticket flag :
  let '(t, c, s, p) := enrich svc ticket in
  enrich svc (with_is_processed flag ticket) = (with_is_processed flag t, c, s, p).
Proof. reflexivity. Qed.

Lemma pipeline_agents svc ticket db :
  agents (fst (process_ticket_pipeline svc ticket db))
  = let '(t3, _, _, _) := enrich svc ticket in
    match TicketRouter.route db (clock svc) (category t3) (priority t3) (language t3)
            (customer_tier t3) None (Some (content t3)) (sentiment t3) with
    | Some routing =>
        match TicketRouter.agent_id routing with
        | Some i => update_agent i (Agent.add_load 1) (agents db)
        | None => agents db
        end
    | None => agents db
    end.
Proof.
  unfold process_ticket_pipeline.
  destruct (enrich svc ticket) as [[[t3 c] s] p].
  destruct (TicketRouter.route _ _ _ _ _ _ _ _ _) as [routing|]; [|reflexivity].
  destruct (TicketRouter.agent_id routing); reflexivity.
Qed.

End PipelineProofs.

(** C2 as stated fails: the pipeline run on a ticket whose
    [is_processed] is already set counts one more ticket for the agent
    it routes to. *)
Lemma C2_counterexample_processed_ticket_increments_load :
  Ticket.is_processed Examples.processed_ticket = true
  /\ map Agent.current_load (agents Examples.one_free_agent_db) = [0]
  /\ map Agent.current_load
       (agents (fst (TicketsApi.process_ticket_pipeline Examples.offline_services
                       Examples.processed_ticket Examples.one_free_agent_db)))
     = [1].
Proof.
  split; [reflexivity|]. split; [reflexivity|]. vm_compute. reflexivity.
Qed.

(** C1 fails on the manual reassignment: an agent who holds as many
    tickets as [max_load] allows is given one more, and ends above the
    maximum. *)
Lemma C1_reassign_ticket_exceeds_max_load :
  Forall TicketsApi.within_capacity (agents Examples.one_full_agent_db)
  /\ map (fun a => (Agent.current_load a, Agent.max_load a))
       (agents (fst (TicketsApi.reassign_ticket (str "T1") (Some (str "A"))
                       Examples.one_full_agent_db)))
     = [(2, 1)]
  /\ ~ Forall TicketsApi.within_capacity
        (agents (fst (TicketsApi.reassign_ticket (str "T1") (Some (str "A"))
                        Examples.one_full_agent_db))).
Proof.
  split; [|split].
  - repeat constructor; vm_compute; discriminate.
  - vm_compute. reflexivity.
  - intros Hall. apply Forall_inv in Hall. revert Hall.
    vm_compute. intros [_ Hle]. now apply Hle.
Qed.

(** ** The capacity bound on the other paths

    The routing path, the resolution and the deletion keep every agent
    within [0 <= current_load <= max_load] when agent ids are unique:
    the router only names agents with room for one more ticket, and
    every decrement is guarded. The manual reassignment above is the one
    path that does not. *)

Section CapacityProofs.
Context `{PyRuntime}.
Import Agent TicketRouter TicketsApi.

Lemma available_agents_have_room db vip critical a :
  In a (_get_available_agents db vip critical) ->
  In a (agents db) /\ current_load a < max_load a.
Proof.
  unfold _get_available_agents. intros Ha. apply filter_In in Ha.
  destruct Ha as [Hin Hp]. split; [exact Hin|].
  rewrite !andb_true_iff in Hp. destruct Hp as [[[_ Hl] _] _]. now apply Z.ltb_lt.
Qed.

Lemma first_min_in {A} (key : A -> Z) (a : A) rest :
  In (first_min key a rest) (a :: rest).
Proof.
  revert a. induction rest as [|x rest IH]; intros a; cbn [first_min]; [now left|].
  destruct (IH (if key x <? key a then x else a)) as [E|Hin].
  - rewrite <- E. destruct (key x <? key a); [right; now left | now left].
  - right. now right.
Qed.

Lemma apply_matched_rule_agent rule candidates d i :
  apply_matched_rule rule candidates = Some d -> agent_id d = Some i ->
  exists a, In a candidates /\ id a = i.
Proof.
  unfold apply_matched_rule. destruct (RoutingRule.action rule); try discriminate.
  - destruct (List.find _ candidates) as [a|] eqn:E; [|discriminate].
    intros [= <-] [= <-]. apply find_some in E. exists a. now split.
  - destruct (List.filter _ candidates) as [|a rest] eqn:E; [discriminate|].
    intros [= <-] [= <-]. exists (first_min current_load a rest). split; [|reflexivity].
    pose proof (first_min_in current_load a rest) as Hin. rewrite <- E in Hin.
    apply filter_In in Hin. tauto.
  - intros [= <-]. discriminate.
Qed.

Lemma apply_rules_agent rules clock ticket_data candidates d i :
  apply_rules rules clock ticket_data candidates = Some (Some d) ->
  agent_id d = Some i ->
  exists a, In a candidates /\ id a = i.
Proof.
  induction rules as [|rule rules IH]; cbn [apply_rules]; [discriminate|].
  destruct (RoutingRule.matches rule clock ticket_data) as [[|]|]; [| exact IH | discriminate].
  destruct (apply_matched_rule rule candidates) as [d'|] eqn:E; [|exact IH].
  intros [= <-]. now apply (apply_matched_rule_agent rule).
Qed.

Lemma score_and_select_agent candidates category language priority customer_tier i :
  agent_id (score_and_select candidates category language priority customer_tier) = Some i ->
  exists a, In a candidates /\ id a = i.
Proof.
  unfold score_and_select. cbv zeta. rewrite sort_desc_by_map.
  set (key := fun a => score (_calculate_agent_score a category language priority
                                customer_tier)).
  destruct (sort_desc_by PrimFloat.ltb key candidates) as [|a t] eqn:Es; [discriminate|].
  cbn [map agent_id]. rewrite agent_of_candidate. intros [= <-].
  exists a. split; [|reflexivity].
  apply (sort_desc_by_In PrimFloat.ltb key). rewrite Es. now left.
Qed.

(** The agent a routing decision names is a row of the database that
    has room for one more ticket. *)
Lemma route_names_agent_with_room db clock category priority language customer_tier
    source content sentiment d i :
  route db clock category priority language customer_tier source content sentiment
    = Some d ->
  agent_id d = Some i ->
  exists a, In a (agents db) /\ id a = i /\ current_load a < max_load a.
Proof.
  unfold route. cbv zeta.
  set (vip := match customer_tier with Some t => mem t _ | None => false end).
  set (agents2 := match _get_available_agents db vip (priority =? 5) with
                  | [] => _get_available_agents db false false
                  | _ => _get_available_agents db vip (priority =? 5)
                  end).
  assert (H2 : forall a, In a agents2 -> In a (agents db) /\ current_load a < max_load a).
  { intros a. unfold agents2.
    destruct (_get_available_agents db vip (priority =? 5)) eqn:E.
    - apply available_agents_have_room.
    - rewrite <- E. apply available_agents_have_room. }
  clearbody agents2.
  destruct agents2 as [|a2 l2]; [intros [= <-]; discriminate|].
  set (agents3 := List.filter _ (a2 :: l2)).
  set (agents4 := match agents3 with
                  | [] => _get_available_agents db false false
                  | _ => agents3
                  end).
  assert (H4 : forall a, In a agents4 -> In a (agents db) /\ current_load a < max_load a).
  { intros a. unfold agents4. destruct agents3 eqn:E.
    - apply available_agents_have_room.
    - rewrite <- E. unfold agents3. intros Ha. apply filter_In in Ha. now apply H2. }
  clearbody agents4.
  destruct agents4 as [|a4 l4]; [intros [= <-]; discriminate|].
  set (ticket_data := RoutingRule.Build_TicketData _ _ _ _ _ _ _ _).
  unfold _apply_routing_rules.
  destruct (apply_rules _ clock ticket_data (a4 :: l4)) as [[d'|]|] eqn:E;
    cbn [mbind option_bind]; [| |discriminate].
  - intros [= <-] Hi. destruct (apply_rules_agent _ _ _ _ _ _ E Hi) as (a & Ha & Hid).
    exists a. destruct (H4 a Ha). tauto.
  - intros [= <-] Hi. destruct (score_and_select_agent _ _ _ _ _ _ Hi) as (a & Ha & Hid).
    exists a. destruct (H4 a Ha). tauto.
Qed.

Lemma update_agent_ids i f l :
  (forall a, id (f a) = id a) -> map id (update_agent i f l) = map id l.
Proof.
  intros Hf. induction l as [|b l IH]; cbn [update_agent map]; [reflexivity|].
  destruct (text_eqb (id b) i); cbn [map]; [now rewrite Hf | now rewrite IH].
Qed.

(** Changing the row of an agent keeps the bound when the change keeps
    it on that row. *)
Lemma update_agent_within_capacity i f l :
  Forall within_capacity l ->
  (forall a, In a l -> id a = i -> within_capacity a -> within_capacity (f a)) ->
  Forall within_capacity (update_agent i f l).
Proof.
  induction l as [|b l IH]; intros Hall Hf; cbn [update_agent]; [constructor|].
  apply Forall_cons_iff in Hall. destruct Hall as [Hb Hl].
  destruct (text_eqb (id b) i) eqn:E.
  - apply Forall_cons_iff. split; [|exact Hl].
    apply Hf; [now left | now apply text_eqb_eq | exact Hb].
  - apply Forall_cons_iff. split; [exact Hb|].
    apply IH; [exact Hl|]. intros a Ha. apply Hf. now right.
Qed.

Lemma release_within_capacity a : within_capacity a -> within_capacity (release a).
Proof.
  unfold within_capacity, release. intros Ha.
  destruct (0 <? current_load a) eqn:E; [|exact Ha].
  apply Z.ltb_lt in E. cbn [add_load current_load max_load]. lia.
Qed.

Lemma unique_id (l : list Agent) a b :
  NoDup (map id l) -> In a l -> In b l -> id a = id b -> a = b.
Proof.
  induction l as [|c l IH]; [intros _ []|].
  cbn [map]. intros Hnd Ha Hb E. apply NoDup_cons in Hnd. destruct Hnd as [Hc Hnd].
  assert (Hin : forall x, In x l -> id x ∈ map id l).
  { intros x Hx. apply list_elem_of_In. now apply in_map. }
  destruct Ha as [<-|Ha], Hb as [<-|Hb].
  - reflexivity.
  - exfalso. apply Hc. rewrite E. now apply Hin.
  - exfalso. apply Hc. rewrite <- E. now apply Hin.
  - now apply IH.
Qed.

(** The routing path keeps the bound: with unique agent ids, a database
    whose agents are within capacity is so after the pipeline. *)
Lemma pipeline_keeps_capacity svc ticket db :
  NoDup (map id (agents db)) ->
  Forall within_capacity (agents db) ->
  Forall within_capacity (agents (fst (process_ticket_pipeline svc ticket db))).
Proof.
  intros Hnd Hall. rewrite pipeline_agents.
  destruct (enrich svc ticket) as [[[t3 c] s] p].
  destruct (route _ _ _ _ _ _ _ _ _) as [routing|] eqn:Er; [|exact Hall].
  destruct (agent_id routing) as [i|] eqn:Ei; [|exact Hall].
  destruct (route_names_agent_with_room _ _ _ _ _ _ _ _ _ _ _ Er Ei)
    as (a & Ha & Hid & Hroom).
  apply update_agent_within_capacity; [exact Hall|].
  intros b Hb Hbi [Hlo Hhi].
  assert (b = a) as -> by (apply (unique_id (agents db)); congruence).
  unfold within_capacity. cbn [add_load current_load max_load]. lia.
Qed.

Lemma pipeline_keeps_ids svc ticket db :
  map id (agents (fst (process_ticket_pipeline svc ticket db))) = map id (agents db).
Proof.
  rewrite pipeline_agents.
  destruct (enrich svc ticket) as [[[t3 c] s] p].
  destruct (route _ _ _ _ _ _ _ _ _) as [routing|]; [|reflexivity].
  destruct (agent_id routing) as [i|]; [|reflexivity].
  now apply update_agent_ids.
Qed.

(** So do the resolution and the deletion of a ticket, whose decrement
    is guarded. *)
Lemma resolve_keeps_capacity ticket_id db :
  Forall within_capacity (agents db) ->
  Forall within_capacity (agents (fst (resolve_ticket ticket_id db))).
Proof.
  intros Hall. unfold resolve_ticket.
  destruct (tickets db !! ticket_id) as [t|]; [|exact Hall].
  cbn [fst agents commit]. destruct (Ticket.assigned_agent_id t); [|exact Hall].
  apply update_agent_within_capacity; [exact Hall|].
  intros a _ _. apply release_within_capacity.
Qed.

Lemma delete_keeps_capacity ticket_id db :
  Forall within_capacity (agents db) ->
  Forall within_capacity (agents (fst (delete_ticket ticket_id db))).
Proof.
  intros Hall. unfold delete_ticket.
  destruct (tickets db !! ticket_id) as [t|]; [|exact Hall].
  cbn [fst agents]. destruct (Ticket.assigned_agent_id t); [|exact Hall].
  apply update_agent_within_capacity; [exact Hall|].
  intros a _ _. apply release_within_capacity.
Qed.

End CapacityProofs.

(** ** The load the pipeline adds *)

Section PipelineLoad.
Context `{PyRuntime}.
Import Ticket TicketsApi.

(** Changing the row of an agent who is in the table changes the first
    row with that id, and no other. *)
Lemma update_agent_split i f (l : list Agent.Agent) a :
  In a l -> Agent.id a = i ->
  exists pre a' post,
    l = pre ++ a' :: post
    /\ Agent.id a' = i
    /\ (forall b, In b pre -> Agent.id b <> i)
    /\ update_agent i f l = pre ++ f a' :: post.
Proof.
  induction l as [|h l IH]; intros Ha Hid; [destruct Ha|].
  cbn [update_agent]. destruct (text_eqb (Agent.id h) i) eqn:E.
  - apply text_eqb_eq in E. exists [], h, l.
    split; [reflexivity|]. split; [exact E|]. split; [intros b []|reflexivity].
  - apply text_eqb_neq in E.
    destruct Ha as [<-|Ha]; [contradiction|].
    destruct (IH Ha Hid) as (pre & a' & post & -> & Hid' & Hpre & Hup).
    exists (h :: pre), a', post.
    split; [reflexivity|]. split; [exact Hid'|]. split.
    + intros b [<-|Hb]; [exact E | now apply Hpre].
    + now rewrite Hup.
Qed.

(** C2, as the code has it. The worker task has no routing step and
    leaves every agent as it was. The pipeline of the API never reads
    [is_processed]: whether the flag is set or not it ends with the same
    agents. When the router names an agent, these are the agents of the
    database with one more ticket counted on the row of that agent, the
    first row of that id, and every other row as it was; when the
    router names nobody, or raises, they are the agents of the
    database. *)
Theorem C2_pipeline_load_does_not_depend_on_is_processed
    (svc : Services) (ticket : Ticket) (db : Database) :
  (forall ticket_id, agents (fst (process_ticket_task svc ticket_id db)) = agents db)
  /\ (forall flag,
        agents (fst (process_ticket_pipeline svc (with_is_processed flag ticket) db))
        = agents (fst (process_ticket_pipeline svc ticket db)))
  /\ (let '(t3, _, _, _) := enrich svc ticket in
      match TicketRouter.route db (clock svc) (category t3) (priority t3) (language t3)
              (customer_tier t3) None (Some (content t3)) (sentiment t3) with
      | Some routing =>
          match TicketRouter.agent_id routing with
          | Some i =>
              exists pre a post,
                agents db = pre ++ a :: post
                /\ Agent.id a = i
                /\ (forall b, In b pre -> Agent.id b <> i)
                /\ agents (fst (process_ticket_pipeline svc ticket db))
                   = pre ++ Agent.add_load 1 a :: post
          | None => agents (fst (process_ticket_pipeline svc ticket db)) = agents db
          end
      | None => agents (fst (process_ticket_pipeline svc ticket db)) = agents db
      end).
Proof.
  split; [|split].
  - intros ticket_id. unfold process_ticket_task.
    destruct (tickets db !! ticket_id) as [t|]; [|reflexivity].
    destruct (enrich svc t) as [[[t3 c] s] p]. reflexivity.
  - intros flag. rewrite !pipeline_agents.
    pose proof (enrich_ignores_is_processed svc ticket flag) as E.
    destruct (enrich svc ticket) as [[[t3 c] s] p]. rewrite E. reflexivity.
  - rewrite pipeline_agents.
    destruct (enrich svc ticket) as [[[t3 c] s] p].
    destruct (TicketRouter.route _ _ _ _ _ _ _ _ _) as [routing|] eqn:Er; [|reflexivity].
    destruct (TicketRouter.agent_id routing) as [i|] eqn:Ei; [|reflexivity].
    destruct (route_names_agent_with_room _ _ _ _ _ _ _ _ _ _ _ Er Ei)
      as (a & Ha & Hid & _).
    destruct (update_agent_split i (Agent.add_load 1) (agents db) a Ha Hid)
      as (pre & a' & post & Hl & Hid' & Hpre & Hup).
    exists pre, a', post. rewrite Hup. auto.
Qed.

End PipelineLoad.

(** ** Text normalizer *)

Section ListFacts.
Import TextProcessor Shape.

Lemma contains_single_false (c : char) (s : text) :
  contains [c] s = false <-> Forall (fun x => x <> c) s.
Proof.
  induction s as [|x s IH]; simpl.
  - split; [constructor | reflexivity].
  - rewrite andb_true_r, orb_false_iff, IH, N.eqb_neq. split.
    + intros [Hx Hs]. constructor; [congruence | assumption].
    + intros Hs. apply Forall_cons in Hs as [Hx Hs]. split; [congruence | assumption].
Qed.

Lemma replace_char_id (a b : char) (s : text) :
  Forall (fun x => x <> a) s -> replace_char a b s = s.
Proof.
  unfold replace_char. induction 1 as [|x s Hx Hs IH]; simpl; [reflexivity|].
  apply N.eqb_neq in Hx. now rewrite Hx, IH.
Qed.

Lemma replace_crlf_id (s : text) :
  Forall (fun x => x <> CR) s -> replace [CR; NL] [NL] s = s.
Proof.
  unfold replace. induction 1 as [|x s Hx Hs IH]; [reflexivity|].
  cbn [replace_from starts_with].
  assert (E : (CR =? x)%N = false) by (apply N.eqb_neq; congruence).
  rewrite E. cbn [andb]. now rewrite IH.
Qed.

Lemma collapse_newlines_id (s : text) :
  contains [NL; NL; NL] s = false -> collapse_newlines s = s.
Proof.
  induction s as [|a s IH]; [reflexivity|].
  intros Hc. cbn [contains] in Hc. apply orb_false_iff in Hc as [Hh Ht].
  cbn [collapse_newlines]. rewrite (IH Ht).
  destruct s as [|b [|c s]]; try reflexivity.
  cbn [starts_with] in Hh. rewrite andb_true_r in Hh.
  rewrite (N.eqb_sym a), (N.eqb_sym b), (N.eqb_sym c).
  rewrite andb_assoc in Hh. now rewrite Hh.
Qed.

Lemma collapse_spaces_id (s : text) :
  contains [SP; SP] s = false -> collapse_spaces s = s.
Proof.
  induction s as [|a s IH]; [reflexivity|].
  intros Hc. cbn [contains] in Hc. apply orb_false_iff in Hc as [Hh Ht].
  cbn [collapse_spaces]. rewrite (IH Ht).
  destruct s as [|b s]; try reflexivity.
  cbn [starts_with] in Hh. rewrite andb_true_r in Hh.
  rewrite (N.eqb_sym a), (N.eqb_sym b). now rewrite Hh.
Qed.

Lemma split_lines_not_nil (s : text) : split_lines s <> [].
Proof.
  induction s as [|c s IH]; simpl; [discriminate|].
  destruct (c =? NL)%N; [discriminate|]. destruct (split_lines s); discriminate.
Qed.

Lemma join_split_lines (s : text) : join_lines (split_lines s) = s.
Proof.
  induction s as [|c s IH]; [reflexivity|].
  cbn [split_lines]. destruct (c =? NL)%N eqn:E.
  - apply N.eqb_eq in E. subst c. cbn [join_lines].
    destruct (split_lines s) as [|l ls] eqn:Es.
    + now apply split_lines_not_nil in Es.
    + now rewrite IH.
  - destruct (split_lines s) as [|l ls] eqn:Es.
    + now apply split_lines_not_nil in Es.
    + destruct ls as [|l2 ls]; cbn [join_lines] in *; now rewrite <- IH.
Qed.

Lemma lstrip_id (s : text) : starts_clean s -> lstrip s = s.
Proof. destruct s as [|c s]; simpl; [reflexivity|]. now intros ->. Qed.

Lemma last_snoc (s : text) (c : char) : last (s ++ [c]) = Some c.
Proof.
  induction s as [|x s IH]; [reflexivity|].
  cbn [app]. destruct (s ++ [c]) eqn:E; [now destruct s | exact IH].
Qed.

Lemma last_rev_head (s : text) : last (rev s) = head s.
Proof.
  destruct s as [|c s]; [reflexivity|]. simpl. apply last_snoc.
Qed.

Lemma head_rev_last (s : text) : head (rev s) = last s.
Proof. rewrite <- (rev_involutive s) at 2. now rewrite last_rev_head. Qed.

Lemma starts_clean_rev (s : text) : starts_clean (rev s) <-> ends_clean s.
Proof.
  unfold ends_clean. rewrite <- head_rev_last.
  destruct (rev s); simpl; tauto.
Qed.

Lemma rstrip_id (s : text) : ends_clean s -> rstrip s = s.
Proof.
  intros He. unfold rstrip. rewrite lstrip_id by now apply starts_clean_rev.
  apply rev_involutive.
Qed.

Lemma strip_id (s : text) : starts_clean s -> ends_clean s -> strip s = s.
Proof. intros Hs He. unfold strip. rewrite (lstrip_id s Hs). now apply rstrip_id. Qed.

Lemma all_pairs_tail R (c : char) (s : text) :
  all_pairs R (c :: s) = true -> all_pairs R s = true.
Proof.
  cbn [all_pairs]. destruct s as [|c2 s]; [reflexivity|].
  intros Hp. now apply andb_true_iff in Hp as [_ Hp].
Qed.

Lemma all_pairs_head R (c c2 : char) (s : text) :
  all_pairs R (c :: c2 :: s) = true -> R c c2 = true.
Proof. cbn [all_pairs]. intros Hp. now apply andb_true_iff in Hp as [Hp _]. Qed.

(** Neighbours of a concatenation: those of each part, and the pair
    at the seam. *)
Lemma all_pairs_app R (a b : text) :
  all_pairs R (a ++ b) = true <->
  all_pairs R a = true /\ all_pairs R b = true
  /\ (forall x y, last a = Some x -> head b = Some y -> R x y = true).
Proof.
  induction a as [|c a IH].
  - simpl. split; [intros Hb; repeat split; [assumption | discriminate] | tauto].
  - destruct a as [|c2 a].
    + cbn [app all_pairs last]. destruct b as [|y b].
      * split; [intros _; repeat split; discriminate | reflexivity].
      * rewrite andb_true_iff. split.
        -- intros [Hr Hb]. repeat split; [assumption|]. now intros x y' [= <-] [= <-].
        -- intros (_ & Hb & Hs). split; [now apply Hs | assumption].
    + change ((c :: c2 :: a) ++ b) with (c :: (c2 :: a) ++ b).
      change (all_pairs R (c :: (c2 :: a) ++ b))
        with (R c c2 && all_pairs R ((c2 :: a) ++ b)).
      change (all_pairs R (c :: c2 :: a)) with (R c c2 && all_pairs R (c2 :: a)).
      change (last (c :: c2 :: a)) with (last (c2 :: a)).
      rewrite !andb_true_iff, IH. tauto.
Qed.

Lemma isspace_not_blank (c : char) :
  blank c = false -> c <> NL -> isspace c = false.
Proof.
  unfold blank. intros Hb Hc. apply N.eqb_neq in Hc. rewrite Hc in Hb.
  now rewrite andb_true_r in Hb.
Qed.

Lemma okpair_after_newline (c : char) : okpair NL c = true -> blank c = false.
Proof.
  unfold okpair. rewrite !andb_true_iff, !negb_true_iff. intros [[_ Hb] _].
  now rewrite N.eqb_refl in Hb.
Qed.

Lemma okpair_before_newline (c : char) : okpair c NL = true -> blank c = false.
Proof.
  unfold okpair. rewrite !andb_true_iff, !negb_true_iff. intros [_ Hb].
  now rewrite N.eqb_refl, andb_true_r in Hb.
Qed.

(** The first line of a text that starts with a line break is empty,
    and otherwise starts as the text does. *)
Lemma first_line_starts (c : char) (s : text) :
  match split_lines (c :: s) with
  | l :: _ => if (c =? NL)%N then l = [] else exists l', l = c :: l'
  | [] => False
  end.
Proof.
  cbn [split_lines]. destruct (c =? NL)%N; [reflexivity|].
  destruct (split_lines s); eauto.
Qed.

Lemma tail_lines_start_clean (s : text) :
  all_pairs okpair s = true -> Forall starts_clean (tail (split_lines s)).
Proof.
  induction s as [|c s IH]; intros Hp; [constructor|].
  pose proof (IH (all_pairs_tail _ _ _ Hp)) as IHs.
  cbn [split_lines]. destruct (c =? NL)%N eqn:Ec.
  - apply N.eqb_eq in Ec. subst c. cbn [tail].
    destruct s as [|c2 s]; [repeat constructor|].
    pose proof (first_line_starts c2 s) as Hf.
    destruct (split_lines (c2 :: s)) as [|l ls]; [contradiction|].
    constructor; [|exact IHs].
    destruct (c2 =? NL)%N eqn:E2; [now subst l|].
    destruct Hf as [l' ->]. cbn [starts_clean].
    apply isspace_not_blank; [|now apply N.eqb_neq].
    apply okpair_after_newline. now apply all_pairs_head in Hp.
  - destruct (split_lines s) as [|l ls]; [constructor | exact IHs].
Qed.

Lemma lines_start_clean (s : text) :
  all_pairs okpair s = true -> starts_clean s -> Forall starts_clean (split_lines s).
Proof.
  intros Hp Hs. pose proof (tail_lines_start_clean s Hp) as Ht.
  destruct s as [|c s]; [repeat constructor|].
  pose proof (first_line_starts c s) as Hf.
  destruct (split_lines (c :: s)) as [|l ls]; [contradiction|].
  constructor; [|exact Ht].
  cbn [starts_clean] in Hs.
  destruct (c =? NL)%N eqn:Ec.
  - apply N.eqb_eq in Ec. subst c. discriminate.
  - destruct Hf as [l' ->]. exact Hs.
Qed.

Lemma ends_clean_cons (c : char) (s : text) :
  s <> [] -> ends_clean (c :: s) <-> ends_clean s.
Proof. unfold ends_clean. destruct s; [congruence | reflexivity]. Qed.

Lemma lines_end_clean (s : text) :
  all_pairs okpair s = true -> ends_clean s -> Forall ends_clean (split_lines s).
Proof.
  induction s as [|c s IH]; intros Hp He; [repeat constructor|].
  assert (IHs : s <> [] -> Forall ends_clean (split_lines s)).
  { intros Hne. apply IH; [now apply all_pairs_tail in Hp|].
    now apply (ends_clean_cons c). }
  cbn [split_lines]. destruct (c =? NL)%N eqn:Ec.
  - constructor; [exact I|].
    destruct s as [|c2 s]; [repeat constructor | now apply IHs].
  - destruct s as [|c2 s].
    + cbn [split_lines]. repeat constructor. exact He.
    + pose proof (first_line_starts c2 s) as Hf.
      specialize (IHs ltac:(discriminate)).
      destruct (split_lines (c2 :: s)) as [|l ls]; [contradiction|].
      apply Forall_cons in IHs as [Hl Hls]. constructor; [|exact Hls].
      destruct (c2 =? NL)%N eqn:E2.
      * subst l. apply N.eqb_eq in E2. subst c2.
        unfold ends_clean. cbn [last].
        apply isspace_not_blank; [|now apply N.eqb_neq].
        apply okpair_before_newline. now apply all_pairs_head in Hp.
      * destruct Hf as [l' ->]. now apply ends_clean_cons.
Qed.

(** On text whose neighbours and ends are as the normalizer leaves
    them, stripping every line changes nothing. *)
Lemma strip_lines_id (s : text) :
  all_pairs okpair s = true -> starts_clean s -> ends_clean s ->
  join_lines (map strip (split_lines s)) = s.
Proof.
  intros Hp Hs He.
  pose proof (lines_start_clean s Hp Hs) as Hl.
  pose proof (lines_end_clean s Hp He) as Hr.
  rewrite <- (join_split_lines s) at 2. f_equal.
  induction (split_lines s) as [|l ls IH]; [reflexivity|].
  apply Forall_cons in Hl as [Hl Hls]. apply Forall_cons in Hr as [Hr Hrs].
  cbn [map]. now rewrite strip_id, IH.
Qed.

End ListFacts.

Section FixedPoint.
Context `{PyRuntime}.
Import TextProcessor Shape.

Lemma okpair_no_double_space (s : text) :
  all_pairs okpair s = true -> contains [SP; SP] s = false.
Proof.
  induction s as [|a s IH]; intros Hp; [reflexivity|].
  cbn [contains]. rewrite (IH (all_pairs_tail _ _ _ Hp)), orb_false_r.
  destruct s as [|b s]; [cbn [starts_with]; apply andb_false_r|].
  apply all_pairs_head in Hp. unfold okpair in Hp.
  rewrite !andb_true_iff, negb_true_iff in Hp. destruct Hp as [[Hp _] _].
  cbn [starts_with]. rewrite andb_true_r, (N.eqb_sym SP a), (N.eqb_sym SP b).
  exact Hp.
Qed.

Lemma plain_chars_no_tab preserve (s : text) :
  forallb (plain_char preserve) s = true ->
  Forall (fun x => x <> TAB) s /\ Forall (fun x => x <> CR) s.
Proof.
  rewrite forallb_forall. intros Hs. split; apply Forall_forall; intros x Hx;
    apply list_elem_of_In in Hx; specialize (Hs x Hx); unfold plain_char in Hs;
    rewrite !andb_true_iff, !negb_true_iff in Hs; destruct Hs as [[Ht Hc] _];
    now apply N.eqb_neq.
Qed.

Lemma replace_table_id (table : list (char * char)) (s : text) :
  forallb (fun c => negb (existsb (fun '(t, _) => (c =? t)%N) table)) s = true ->
  fold_left (fun result '(turkish, ascii_char) => replace_char turkish ascii_char result)
    table s = s.
Proof.
  induction table as [|[t a] table IH]; intros Hs; [reflexivity|].
  cbn [fold_left]. rewrite replace_char_id.
  - apply IH. rewrite forallb_forall in *. intros x Hx. specialize (Hs x Hx).
    cbn [existsb] in Hs. rewrite negb_true_iff, orb_false_iff in Hs.
    now rewrite negb_true_iff.
  - apply Forall_forall. intros x Hx. apply list_elem_of_In in Hx.
    rewrite forallb_forall in Hs. specialize (Hs x Hx).
    cbn [existsb] in Hs. rewrite negb_true_iff, orb_false_iff in Hs.
    now apply N.eqb_neq.
Qed.

Lemma normalize_turkish_id preserve (s : text) :
  forallb (plain_char preserve) s = true -> normalize_turkish s preserve = s.
Proof.
  intros Hs. unfold normalize_turkish. destruct preserve; [reflexivity|].
  apply replace_table_id. rewrite forallb_forall in *. intros x Hx.
  specialize (Hs x Hx). unfold plain_char in Hs.
  rewrite !andb_true_iff in Hs. destruct Hs as [_ Hs]. exact Hs.
Qed.

Lemma sub_from_id (m : text -> option nat) (repl s : text) :
  (forall c t, c <> LT -> m (c :: t) = None) ->
  Forall (fun x => x <> LT) s -> sub_from m repl 0 s = s.
Proof.
  intros Hm. induction 1 as [|c s Hc Hs IH]; [reflexivity|].
  cbn [sub_from]. now rewrite (Hm c s Hc), IH.
Qed.

Lemma match_tag_needs_lt (c : char) (t : text) : c <> LT -> match_tag (c :: t) = None.
Proof.
  intros Hc. unfold match_tag. destruct t as [|c2 t]; [reflexivity|].
  apply N.eqb_neq in Hc. now rewrite Hc.
Qed.

Lemma starts_with_pat_needs_head (a c : char) p (t : text) :
  c <> a -> starts_with_pat (Exact a :: p) (c :: t) = false.
Proof.
  intros Hc. cbn [starts_with_pat].
  assert (E : (a =? c)%N = false) by (apply N.eqb_neq; congruence).
  now rewrite E.
Qed.

Lemma match_block_needs_lt (c : char) (t : text) :
  c <> LT -> match_block (c :: t) = None.
Proof.
  intros Hc. unfold match_block, match_br.
  rewrite (starts_with_pat_needs_head LT c _ t Hc).
  change (lit "</p>") with (Exact LT :: [Exact 47; Fold 112; Exact 62]%N).
  change (lit "</div>")
    with (Exact LT :: [Exact 47; Fold 100; Fold 105; Fold 118; Exact 62]%N).
  change (lit "</li>") with (Exact LT :: [Exact 47; Fold 108; Fold 105; Exact 62]%N).
  now rewrite !(starts_with_pat_needs_head LT c _ t Hc).
Qed.

Lemma cut_id (m : text -> bool) (s : text) : search m s = false -> cut m s = s.
Proof.
  induction s as [|c s IH]; cbn [search cut]; intros Hs;
    apply orb_false_iff in Hs as [Hm Hs]; rewrite Hm; [reflexivity|].
  now rewrite IH.
Qed.

Lemma cuts_id (patterns : list (text -> bool)) (s : text) :
  Forall (fun pattern => search pattern s = false) patterns ->
  fold_left (fun t pattern => cut pattern t) patterns s = s.
Proof.
  induction 1 as [|m ms Hm Hms IH]; [reflexivity|].
  cbn [fold_left]. now rewrite (cut_id m s Hm).
Qed.

(** Text in normal form that NFC normalization and entity decoding
    leave alone, without [<] and without a run of three line breaks, is
    a fixed point of the normalizer. *)
Lemma clean_fixed_point (opts : CleanOptions) (y : text) :
  mask_pii opts = false ->
  normal (preserve_turkish opts) (remove_signatures opts) y ->
  py_nfc y = y ->
  (remove_html opts = true -> contains [LT] y = false /\ html_unescape y = y) ->
  contains [NL; NL; NL] y = false ->
  clean_for_processing opts y = y.
Proof.
  intros Hmask [Hchars Hpairs Hstart Hend Hsig] Hnfc Hhtml Hnl.
  unfold clean_for_processing. destruct y as [|c0 y0]; [reflexivity|].
  cbn [truthy negb]. set (y := c0 :: y0) in *.
  unfold normalize_unicode. rewrite Hnfc.
  assert (E2 : (if remove_html opts then remove_html_tags y else y) = y).
  { destruct (remove_html opts); [|reflexivity].
    destruct (Hhtml eq_refl) as [Hlt Hamp]. unfold remove_html_tags, re_sub.
    apply contains_single_false in Hlt.
    rewrite (sub_from_id match_block [NL] y match_block_needs_lt Hlt).
    rewrite (sub_from_id match_tag [] y match_tag_needs_lt Hlt).
    exact Hamp. }
  rewrite E2, (normalize_turkish_id _ y Hchars).
  assert (E4 : normalize_whitespace y = y).
  { unfold normalize_whitespace.
    destruct (plain_chars_no_tab _ y Hchars) as [Htab Hcr].
    rewrite (replace_char_id TAB SP y Htab), (replace_crlf_id y Hcr),
      (replace_char_id CR NL y Hcr), (collapse_newlines_id y Hnl),
      (collapse_spaces_id y (okpair_no_double_space y Hpairs)),
      (strip_lines_id y Hpairs Hstart Hend).
    apply strip_id; assumption. }
  rewrite E4.
  assert (E5 : (if remove_signatures opts then remove_signature_lines y else y) = y).
  { destruct (remove_signatures opts); [|reflexivity].
    unfold remove_signature_lines. rewrite (cuts_id _ y (Hsig eq_refl)).
    apply strip_id; assumption. }
  rewrite E5, Hmask. apply strip_id; assumption.
Qed.

End FixedPoint.

Section Substrings.
Import TextProcessor Shape.

Lemma lstrip_suffix (s : text) : exists p, s = p ++ lstrip s.
Proof.
  induction s as [|c s [p IH]]; [now exists []|].
  cbn [lstrip]. destruct (isspace c).
  - exists (c :: p). cbn [app]. now rewrite <- IH.
  - now exists [].
Qed.

Lemma rstrip_prefix (s : text) : exists q, s = rstrip s ++ q.
Proof.
  unfold rstrip. destruct (lstrip_suffix (rev s)) as [p Hp].
  exists (rev p). rewrite <- rev_app_distr, <- Hp. symmetry. apply rev_involutive.
Qed.

(** [strip] keeps a block of the text. *)
Lemma strip_block (s : text) : exists p q, s = p ++ strip s ++ q.
Proof.
  unfold strip. destruct (lstrip_suffix s) as [p Hp].
  destruct (rstrip_prefix (lstrip s)) as [q Hq].
  exists p, q. now rewrite <- Hq.
Qed.

Lemma starts_clean_lstrip (s : text) : starts_clean (lstrip s).
Proof.
  induction s as [|c s IH]; [exact I|].
  cbn [lstrip]. destruct (isspace c) eqn:E; [exact IH | exact E].
Qed.

Lemma ends_clean_rstrip (s : text) : ends_clean (rstrip s).
Proof.
  unfold rstrip. apply starts_clean_rev. rewrite rev_involutive.
  apply starts_clean_lstrip.
Qed.

Lemma starts_clean_prefix (a b : text) : starts_clean (a ++ b) -> starts_clean a.
Proof. destruct a; [intros _; exact I | auto]. Qed.

Lemma strip_clean (s : text) : starts_clean (strip s) /\ ends_clean (strip s).
Proof.
  unfold strip. split; [|apply ends_clean_rstrip].
  destruct (rstrip_prefix (lstrip s)) as [q Hq].
  apply (starts_clean_prefix _ q). rewrite <- Hq. apply starts_clean_lstrip.
Qed.

Lemma all_pairs_block R (p m q : text) :
  all_pairs R (p ++ m ++ q) = true -> all_pairs R m = true.
Proof.
  intros Hp. apply all_pairs_app in Hp as (_ & Hp & _).
  now apply all_pairs_app in Hp as (Hp & _).
Qed.

Lemma forallb_block (P : char -> bool) (p m q : text) :
  forallb P (p ++ m ++ q) = true -> forallb P m = true.
Proof.
  rewrite !forallb_app, !andb_true_iff. tauto.
Qed.

Lemma all_pairs_strip R (s : text) :
  all_pairs R s = true -> all_pairs R (strip s) = true.
Proof.
  destruct (strip_block s) as (p & q & E). rewrite E at 1. apply all_pairs_block.
Qed.

Lemma forallb_strip (P : char -> bool) (s : text) :
  forallb P s = true -> forallb P (strip s) = true.
Proof.
  destruct (strip_block s) as (p & q & E). rewrite E at 1. apply forallb_block.
Qed.

(** Lines: what holds of the text holds of each of its lines. *)
Lemma lines_forallb (P : char -> bool) (s : text) :
  forallb P s = true -> Forall (fun l => forallb P l = true) (split_lines s).
Proof.
  induction s as [|c s IH]; intros Hs; [repeat constructor|].
  cbn [forallb] in Hs. apply andb_true_iff in Hs as [Hc Hs].
  specialize (IH Hs). cbn [split_lines]. destruct (c =? NL)%N.
  - constructor; [reflexivity | exact IH].
  - destruct (split_lines s) as [|l ls]; [repeat constructor; cbn; now rewrite Hc|].
    apply Forall_cons in IH as [Hl Hls]. constructor; [|exact Hls].
    cbn [forallb]. now rewrite Hc.
Qed.

Lemma lines_no_newline (s : text) :
  Forall (fun l => forallb (fun c => negb (c =? NL)%N) l = true) (split_lines s).
Proof.
  induction s as [|c s IH]; [repeat constructor|].
  cbn [split_lines]. destruct (c =? NL)%N eqn:E.
  - constructor; [reflexivity | exact IH].
  - destruct (split_lines s) as [|l ls]; [repeat constructor; cbn; now rewrite E|].
    apply Forall_cons in IH as [Hl Hls]. constructor; [|exact Hls].
    cbn [forallb]. now rewrite E.
Qed.

Lemma lines_all_pairs R (s : text) :
  all_pairs R s = true -> Forall (fun l => all_pairs R l = true) (split_lines s).
Proof.
  induction s as [|c s IH]; intros Hp; [repeat constructor|].
  specialize (IH (all_pairs_tail _ _ _ Hp)).
  cbn [split_lines]. destruct (c =? NL)%N.
  - constructor; [reflexivity | exact IH].
  - destruct s as [|c2 s]; [repeat constructor|].
    pose proof (first_line_starts c2 s) as Hf.
    destruct (split_lines (c2 :: s)) as [|l ls]; [contradiction|].
    apply Forall_cons in IH as [Hl Hls]. constructor; [|exact Hls].
    destruct (c2 =? NL)%N; [now subst l|].
    destruct Hf as [l' ->].
    change (all_pairs R (c :: c2 :: l')) with (R c c2 && all_pairs R (c2 :: l')).
    rewrite Hl, andb_true_r. now apply all_pairs_head in Hp.
Qed.

Lemma line_pairs_ok (l : text) :
  forallb (fun c => negb (c =? NL)%N) l = true ->
  all_pairs no_double_space l = true -> all_pairs okpair l = true.
Proof.
  induction l as [|c l IH]; intros Hn Hp; [reflexivity|].
  cbn [forallb] in Hn. apply andb_true_iff in Hn as [Hc Hn].
  specialize (IH Hn (all_pairs_tail _ _ _ Hp)).
  destruct l as [|c2 l]; [reflexivity|].
  change (all_pairs okpair (c :: c2 :: l))
    with (okpair c c2 && all_pairs okpair (c2 :: l)).
  rewrite IH, andb_true_r. apply all_pairs_head in Hp.
  cbn [forallb] in Hn. apply andb_true_iff in Hn as [Hc2 _].
  apply negb_true_iff in Hc, Hc2.
  unfold okpair. unfold no_double_space in Hp.
  now rewrite Hp, Hc, Hc2, andb_false_r.
Qed.

Lemma blank_newline : blank NL = false.
Proof. reflexivity. Qed.

Lemma blank_of_clean (c : char) : isspace c = false -> blank c = false.
Proof. unfold blank. now intros ->. Qed.

Lemma okpair_newline_then (c : char) : blank c = false -> okpair NL c = true.
Proof.
  intros Hb. unfold okpair. rewrite Hb, blank_newline.
  change (NL =? SP)%N with false. cbn [andb negb]. now rewrite andb_false_r.
Qed.

Lemma okpair_then_newline (c : char) : blank c = false -> okpair c NL = true.
Proof.
  intros Hb. unfold okpair. rewrite Hb, blank_newline.
  change (NL =? SP)%N with false. now rewrite !andb_false_r.
Qed.

(** Joining good lines gives text whose neighbours are in order, and
    that does not start with a blank. *)
Lemma join_good_lines (ls : list text) :
  Forall good_line ls ->
  all_pairs okpair (join_lines ls) = true
  /\ match join_lines ls with c :: _ => blank c = false | [] => True end.
Proof.
  induction 1 as [|l ls (Hn & Hd & Hs & He) Hls [IHp IHh]]; [now split|].
  destruct ls as [|l2 ls].
  - cbn [join_lines]. split; [now apply line_pairs_ok|].
    destruct l; [exact I | now apply blank_of_clean].
  - change (join_lines (l :: l2 :: ls)) with (l ++ NL :: join_lines (l2 :: ls)).
    set (J := join_lines (l2 :: ls)) in *. split.
    + apply all_pairs_app. split; [now apply line_pairs_ok|]. split.
      * destruct J as [|c J]; [reflexivity|].
        change (all_pairs okpair (NL :: c :: J))
          with (okpair NL c && all_pairs okpair (c :: J)).
        rewrite IHp, andb_true_r. now apply okpair_newline_then.
      * intros x y Hx [= <-]. unfold ends_clean in He. rewrite Hx in He.
        apply okpair_then_newline. now apply blank_of_clean.
    + destruct l as [|c l]; [apply blank_newline | now apply blank_of_clean].
Qed.

End Substrings.

Section FirstPass.
Context `{PyRuntime}.
Import TextProcessor Shape.

Lemma head_collapse_spaces (s : text) : head (collapse_spaces s) = head s.
Proof.
  induction s as [|a s IH]; [reflexivity|].
  cbn [collapse_spaces]. destruct s as [|b s]; [reflexivity|].
  destruct ((a =? SP)%N && (b =? SP)%N) eqn:E; [|reflexivity].
  rewrite IH. apply andb_true_iff in E as [Ea Eb].
  apply N.eqb_eq in Ea, Eb. now subst.
Qed.

Lemma collapse_spaces_pairs (s : text) :
  all_pairs no_double_space (collapse_spaces s) = true.
Proof.
  induction s as [|a s IH]; [reflexivity|].
  cbn [collapse_spaces]. destruct s as [|b s]; [reflexivity|].
  destruct ((a =? SP)%N && (b =? SP)%N) eqn:E; [exact IH|].
  pose proof (head_collapse_spaces (b :: s)) as Hh.
  destruct (collapse_spaces (b :: s)) as [|b' r]; [reflexivity|].
  injection Hh as ->.
  change (all_pairs no_double_space (a :: b :: r))
    with (no_double_space a b && all_pairs no_double_space (b :: r)).
  rewrite IH, andb_true_r. unfold no_double_space. now rewrite E.
Qed.

Lemma forallb_collapse_spaces (P : char -> bool) (s : text) :
  forallb P s = true -> forallb P (collapse_spaces s) = true.
Proof.
  induction s as [|a s IH]; [reflexivity|]. intros Hs.
  cbn [forallb] in Hs. apply andb_true_iff in Hs as [Ha Hs]. specialize (IH Hs).
  cbn [collapse_spaces]. destruct s as [|b s]; [cbn; now rewrite Ha|].
  destruct ((a =? SP)%N && (b =? SP)%N); [exact IH|].
  cbn [forallb]. now rewrite Ha.
Qed.

Lemma forallb_collapse_newlines (P : char -> bool) (s : text) :
  forallb P s = true -> forallb P (collapse_newlines s) = true.
Proof.
  induction s as [|a s IH]; [reflexivity|]. intros Hs.
  cbn [forallb] in Hs. apply andb_true_iff in Hs as [Ha Hs]. specialize (IH Hs).
  cbn [collapse_newlines]. destruct s as [|b [|c s]];
    try (cbn [forallb] in *; now rewrite Ha).
  destruct ((a =? NL)%N && (b =? NL)%N && (c =? NL)%N); [exact IH|].
  cbn [forallb]. now rewrite Ha.
Qed.

Lemma forallb_replace_from (P : char -> bool) (old new : text) (k : nat) (s : text) :
  forallb P new = true -> forallb P s = true ->
  forallb P (replace_from old new k s) = true.
Proof.
  intros Hnew. revert k. induction s as [|c s IH]; intros k Hs.
  - cbn [replace_from]. destruct k, old; auto.
  - cbn [forallb] in Hs. apply andb_true_iff in Hs as [Hc Hs].
    cbn [replace_from]. destruct k as [|k]; [|now apply IH].
    destruct (starts_with old (c :: s)).
    + destruct old as [|o old'].
      * rewrite forallb_app, Hnew. cbn [forallb]. rewrite Hc. now apply IH.
      * rewrite forallb_app, Hnew. now apply IH.
    + cbn [forallb]. rewrite Hc. now apply IH.
Qed.

Lemma forallb_replace_char (P : char -> bool) (a b : char) (s : text) :
  P b = true -> forallb P s = true -> forallb P (replace_char a b s) = true.
Proof.
  intros Hb. unfold replace_char. induction s as [|c s IH]; [reflexivity|].
  cbn [forallb map]. intros Hs. apply andb_true_iff in Hs as [Hc Hs].
  rewrite (IH Hs), andb_true_r. now destruct (c =? a)%N.
Qed.

Lemma replace_char_removes (a b : char) (s : text) :
  a <> b -> forallb (fun c => negb (c =? a)%N) (replace_char a b s) = true.
Proof.
  intros Hab. unfold replace_char. induction s as [|c s IH]; [reflexivity|].
  cbn [forallb map]. rewrite IH, andb_true_r.
  destruct (c =? a)%N eqn:E; [|now rewrite E].
  apply negb_true_iff, N.eqb_neq. congruence.
Qed.

Lemma forallb_and (P Q : char -> bool) (s : text) :
  forallb (fun c => P c && Q c) s = forallb P s && forallb Q s.
Proof.
  induction s as [|c s IH]; [reflexivity|].
  cbn [forallb]. rewrite IH. destruct (P c), (Q c); cbn; try reflexivity.
  now rewrite andb_false_r.
Qed.

Lemma forallb_join_stripped (P : char -> bool) (s : text) :
  P NL = true -> forallb P s = true ->
  forallb P (join_lines (map strip (split_lines s))) = true.
Proof.
  intros Hnl Hs. apply lines_forallb in Hs.
  induction Hs as [|l ls Hl Hls IH]; [reflexivity|].
  cbn [map]. destruct ls as [|l2 ls].
  - cbn [map join_lines]. now apply forallb_strip.
  - change (join_lines (strip l :: map strip (l2 :: ls)))
      with (strip l ++ NL :: join_lines (map strip (l2 :: ls))).
    rewrite forallb_app. cbn [forallb]. rewrite forallb_strip, Hnl by assumption.
    exact IH.
Qed.

Lemma stripped_lines_good (s : text) :
  all_pairs no_double_space s = true ->
  Forall good_line (map strip (split_lines s)).
Proof.
  intros Hp. apply lines_all_pairs in Hp. pose proof (lines_no_newline s) as Hn.
  induction (split_lines s) as [|l ls IH]; [constructor|].
  apply Forall_cons in Hp as [Hl Hls]. apply Forall_cons in Hn as [Hnl Hnls].
  cbn [map]. constructor; [|now apply IH].
  destruct (strip_clean l) as [Hs He].
  repeat split; [now apply forallb_strip | now apply all_pairs_strip | exact Hs | exact He].
Qed.

(** What [normalize_whitespace] returns is in the normal form, as far
    as whitespace goes. *)
Lemma normalize_whitespace_shape (preserve : bool) (s : text) :
  forallb (fun c => preserve || not_turkish c) s = true ->
  let w := normalize_whitespace s in
  forallb (plain_char preserve) w = true
  /\ all_pairs okpair w = true /\ starts_clean w /\ ends_clean w.
Proof.
  intros Hs w. subst w. unfold normalize_whitespace.
  set (t2 := replace_char CR NL (replace [CR; NL] [NL] (replace_char TAB SP s))).
  set (t4 := collapse_spaces (collapse_newlines t2)).
  assert (Ht2 : forallb (plain_char preserve) t2 = true).
  { unfold plain_char. rewrite !forallb_and. subst t2.
    assert (Ekeep : forall c, (c = SP \/ c = NL) -> (preserve || not_turkish c) = true).
    { intros c [-> | ->]; apply orb_true_iff; right; reflexivity. }
    repeat (apply andb_true_iff; split).
    - apply forallb_replace_char; [reflexivity|].
      apply forallb_replace_from; [reflexivity|].
      now apply replace_char_removes.
    - now apply replace_char_removes.
    - apply forallb_replace_char; [now apply Ekeep; right|].
      apply forallb_replace_from; [cbn; rewrite Ekeep; [reflexivity | now right]|].
      apply forallb_replace_char; [now apply Ekeep; left | exact Hs]. }
  assert (Ht4 : forallb (plain_char preserve) t4 = true)
    by now apply forallb_collapse_spaces, forallb_collapse_newlines.
  assert (Hnl : plain_char preserve NL = true).
  { unfold plain_char. apply andb_true_iff. split; [reflexivity|].
    apply orb_true_iff. now right. }
  destruct (join_good_lines _ (stripped_lines_good t4 (collapse_spaces_pairs _)))
    as [Hj _].
  destruct (strip_clean (join_lines (map strip (split_lines t4)))) as [Hst Hen].
  repeat split; [| | exact Hst | exact Hen].
  - now apply forallb_strip, forallb_join_stripped.
  - now apply all_pairs_strip.
Qed.

Lemma fold_replace_is_map (table : list (char * char)) (s : text) :
  fold_left (fun result '(turkish, ascii_char) => replace_char turkish ascii_char result)
    table s
  = map (fun c => fold_left (fun c' '(t, a) => if (c' =? t)%N then a else c') table c) s.
Proof.
  revert s. induction table as [|[t a] table IH]; intros s.
  - cbn [fold_left]. symmetry. apply map_id.
  - cbn [fold_left]. rewrite IH. unfold replace_char. now rewrite map_map.
Qed.

Lemma turkish_letter_mapped (c : char) :
  not_turkish
    (fold_left (fun c' '(t, a) => if (c' =? t)%N then a else c') TURKISH_CHARS c)
  = true.
Proof.
  unfold not_turkish.
  change TURKISH_CHARS
    with [ (305, 105); (304, 73); (287, 103); (286, 71); (252, 117); (220, 85);
           (351, 115); (350, 83); (246, 111); (214, 79); (231, 99); (199, 67) ]%N.
  cbn [fold_left existsb].
  repeat (match goal with
          | |- context [(c =? ?k)%N] =>
              let E := fresh "E" in
              destruct (c =? k)%N eqn:E;
              [ apply N.eqb_eq in E; subst c; vm_compute; reflexivity | ]
          end; cbv iota).
  repeat match goal with
  | E : (c =? _)%N = false |- _ => rewrite ?E; clear E
  end.
  reflexivity.
Qed.

Lemma normalize_turkish_shape (preserve : bool) (s : text) :
  forallb (fun c => preserve || not_turkish c) (normalize_turkish s preserve) = true.
Proof.
  unfold normalize_turkish. destruct preserve.
  - apply forallb_forall. reflexivity.
  - rewrite fold_replace_is_map. apply forallb_forall. intros x Hx.
    apply in_map_iff in Hx as (c & <- & _). apply turkish_letter_mapped.
Qed.

(** Cutting at the first match leaves a prefix without any match. *)
Lemma cut_prefix (m : text -> bool) (s : text) : exists q, s = cut m s ++ q.
Proof.
  induction s as [|c s [q IH]]; cbn [cut].
  - destruct (m []); now exists [].
  - destruct (m (c :: s)); [now exists (c :: s)|].
    exists q. cbn [app]. now rewrite <- IH.
Qed.

Lemma no_match_prefix (m : text -> bool) (a b : text) :
  proper_pattern m -> m (a ++ b) = false -> m a = false.
Proof.
  intros [_ Hext] Hab. destruct (m a) eqn:E; [|reflexivity].
  now rewrite (Hext a b E) in Hab.
Qed.

Lemma search_prefix (m : text -> bool) (a b : text) :
  proper_pattern m -> search m (a ++ b) = false -> search m a = false.
Proof.
  intros Hm. induction a as [|c a IH]; cbn [app search].
  - intros _. destruct Hm as [-> _]. reflexivity.
  - intros Hs. apply orb_false_iff in Hs as [Hh Ht].
    rewrite (no_match_prefix m (c :: a) b Hm Hh). now apply IH.
Qed.

Lemma search_suffix (m : text -> bool) (a b : text) :
  search m (a ++ b) = false -> search m b = false.
Proof.
  induction a as [|c a IH]; cbn [app]; [auto|].
  cbn [search]. intros Hs. apply orb_false_iff in Hs as [_ Hs]. now apply IH.
Qed.

Lemma search_block (m : text -> bool) (p s q : text) :
  proper_pattern m -> search m (p ++ s ++ q) = false -> search m s = false.
Proof.
  intros Hm Hs. apply search_suffix in Hs. now apply search_prefix in Hs.
Qed.

Lemma search_cut (m : text -> bool) (s : text) :
  proper_pattern m -> search m (cut m s) = false.
Proof.
  intros Hm. induction s as [|c s IH]; cbn [cut].
  - destruct Hm as [E _]. rewrite E. cbn [search]. now rewrite E.
  - destruct (m (c :: s)) eqn:E.
    + cbn [search]. destruct Hm as [-> _]. reflexivity.
    + cbn [search]. rewrite IH, orb_false_r.
      destruct (cut_prefix m s) as [q Hq].
      apply (no_match_prefix m (c :: cut m s) q Hm).
      cbn [app]. now rewrite <- Hq.
Qed.

Lemma cuts_prefix (patterns : list (text -> bool)) (s : text) :
  exists q, s = fold_left (fun t pattern => cut pattern t) patterns s ++ q.
Proof.
  revert s. induction patterns as [|m ms IH]; intros s; cbn [fold_left].
  - exists []. now rewrite app_nil_r.
  - destruct (IH (cut m s)) as [q1 H1]. destruct (cut_prefix m s) as [q2 H2].
    exists (q1 ++ q2). rewrite app_assoc, <- H1. exact H2.
Qed.

Lemma cuts_no_match (patterns : list (text -> bool)) (s : text) :
  Forall proper_pattern patterns ->
  Forall (fun m => search m (fold_left (fun t pattern => cut pattern t) patterns s)
                   = false) patterns.
Proof.
  intros Hps. revert s. induction Hps as [|m ms Hm Hms IH]; intros s; [constructor|].
  cbn [fold_left]. constructor; [|apply IH].
  destruct (cuts_prefix ms (cut m s)) as [q Hq].
  apply (search_prefix m _ q Hm). rewrite <- Hq. now apply search_cut.
Qed.

Lemma starts_with_pat_proper (p : list pat_char) :
  p <> [] -> proper_pattern (starts_with_pat p).
Proof.
  intros Hp. split; [destruct p as [|[a|a] p]; [congruence | reflexivity | reflexivity]|].
  clear Hp. induction p as [|a p IH]; intros s t; [reflexivity|].
  destruct s as [|c s]; [destruct a; discriminate|].
  destruct a; cbn [starts_with_pat app]; rewrite !andb_true_iff;
    intros [Hc Hs]; (split; [exact Hc | now apply IH]).
Qed.

Lemma spaces_then_newline_extends (s t : text) :
  spaces_then_newline s = true -> spaces_then_newline (s ++ t) = true.
Proof.
  induction s as [|c s IH]; [discriminate|].
  cbn [spaces_then_newline app]. rewrite !orb_true_iff, !andb_true_iff.
  intros [Hnl | [Hc Hs]]; [now left | right; auto].
Qed.

Lemma match_dashes_proper : proper_pattern match_dashes.
Proof.
  split; [reflexivity|]. intros s t.
  destruct s as [|a [|b s]]; try discriminate.
  cbn [match_dashes app]. rewrite !andb_true_iff.
  intros [Hab Hs]. split; [exact Hab | now apply spaces_then_newline_extends].
Qed.

Lemma proper_pattern_or (m1 m2 : text -> bool) :
  proper_pattern m1 -> proper_pattern m2 -> proper_pattern (fun s => m1 s || m2 s).
Proof.
  intros [E1 X1] [E2 X2]. split; [now rewrite E1, E2|].
  intros s t Hs. apply orb_true_iff in Hs as [Hs | Hs].
  - now rewrite (X1 s t Hs).
  - rewrite (X2 s t Hs). apply orb_true_r.
Qed.

Lemma signature_patterns_proper : Forall proper_pattern SIGNATURE_PATTERNS.
Proof.
  unfold SIGNATURE_PATTERNS.
  repeat (constructor;
          [ first [ apply match_dashes_proper
                  | apply starts_with_pat_proper; discriminate
                  | repeat apply proper_pattern_or;
                    apply starts_with_pat_proper; discriminate ] | ]).
  constructor.
Qed.

(** What [clean_for_processing] returns is in the normal form, when
    PII masking is off. *)
Lemma clean_normal (opts : CleanOptions) (x : text) :
  mask_pii opts = false ->
  normal (preserve_turkish opts) (remove_signatures opts)
    (clean_for_processing opts x).
Proof.
  intros Hmask. unfold clean_for_processing.
  destruct (negb (truthy x)).
  { split; try reflexivity; try exact I.
    intros _. apply Forall_forall. intros m Hm.
    pose proof signature_patterns_proper as Hp. rewrite Forall_forall in Hp.
    destruct (Hp m Hm) as [E _]. cbn [search]. now rewrite E. }
  rewrite Hmask.
  set (t3 := normalize_turkish _ (preserve_turkish opts)).
  destruct (normalize_whitespace_shape (preserve_turkish opts) t3
              (normalize_turkish_shape _ _)) as (Hc & Hp & Hs & He).
  set (t4 := normalize_whitespace t3) in *.
  destruct (remove_signatures opts) eqn:Esig.
  - unfold remove_signature_lines.
    set (t5 := fold_left (fun t pattern => cut pattern t) SIGNATURE_PATTERNS t4).
    destruct (cuts_prefix SIGNATURE_PATTERNS t4) as [q Hq]. fold t5 in Hq.
    assert (Hc5 : forallb (plain_char (preserve_turkish opts)) t5 = true).
    { rewrite Hq, forallb_app in Hc. apply andb_true_iff in Hc as [Hc _]. exact Hc. }
    assert (Hp5 : all_pairs okpair t5 = true).
    { rewrite Hq in Hp. apply all_pairs_app in Hp as [Hp _]. exact Hp. }
    destruct (strip_clean t5) as [Hs5 He5].
    rewrite (strip_id (strip t5) Hs5 He5).
    split; [apply forallb_strip; exact Hc5 | apply all_pairs_strip; exact Hp5
           | exact Hs5 | exact He5 |].
    intros _. pose proof (cuts_no_match SIGNATURE_PATTERNS t4 signature_patterns_proper)
      as Hno. fold t5 in Hno.
    pose proof signature_patterns_proper as Hpp.
    rewrite Forall_forall in *. intros m Hm.
    destruct (strip_block t5) as (a & b & Eb).
    apply (search_block m a (strip t5) b (Hpp m Hm)). rewrite <- Eb.
    apply Hno. exact Hm.
  - rewrite (strip_id t4 Hs He).
    split; [exact Hc | exact Hp | exact Hs | exact He | discriminate].
Qed.

End FirstPass.

Section Idempotence.
Context `{PyRuntime}.
Import TextProcessor Shape.

(** C9, as the code has it. [clean_for_processing] strips tags before
    it decodes entities, once each, so it is not idempotent on every
    input. With PII masking off, cleaning a cleaned text changes nothing
    whenever the cleaned text is left alone by NFC normalization and,
    when HTML removal is on, holds no [<] and is left alone by entity
    decoding, and holds no three line breaks in a row. *)
Theorem C9_clean_is_idempotent_on_markup_free_results
    (opts : CleanOptions) (x : text) :
  mask_pii opts = false ->
  py_nfc (clean_for_processing opts x) = clean_for_processing opts x ->
  (remove_html opts = true ->
   contains [LT] (clean_for_processing opts x) = false
   /\ html_unescape (clean_for_processing opts x) = clean_for_processing opts x) ->
  contains [NL; NL; NL] (clean_for_processing opts x) = false ->
  clean_for_processing opts (clean_for_processing opts x)
  = clean_for_processing opts x.
Proof.
  intros Hmask Hnfc Hhtml Hnl.
  apply clean_fixed_point; try assumption.
  apply clean_normal. exact Hmask.
Qed.

(** The same with the condition on entities put on the text: a decoder
    that leaves text without [&] alone, as [html.unescape] does, and a
    cleaned text without [&]. *)
Corollary clean_is_idempotent_without_ampersand (opts : CleanOptions) (x : text) :
  (forall s, contains [AMP] s = false -> html_unescape s = s) ->
  mask_pii opts = false ->
  py_nfc (clean_for_processing opts x) = clean_for_processing opts x ->
  (remove_html opts = true ->
   contains [LT] (clean_for_processing opts x) = false
   /\ contains [AMP] (clean_for_processing opts x) = false) ->
  contains [NL; NL; NL] (clean_for_processing opts x) = false ->
  clean_for_processing opts (clean_for_processing opts x)
  = clean_for_processing opts x.
Proof.
  intros Hlaw Hmask Hnfc Hhtml Hnl.
  apply clean_fixed_point; try assumption.
  - apply clean_normal. exact Hmask.
  - intros Hon. destruct (Hhtml Hon) as [Hlt Hamp]. split; [exact Hlt|].
    apply Hlaw. exact Hamp.
Qed.

End Idempotence.

(** The entity decoder of the ASCII runtime leaves text without [&]
    alone. *)
Lemma ascii_unescape_plain (s : text) :
  contains [TextProcessor.AMP] s = false -> html_unescape s = s.
Proof.
  intros Hs. apply contains_single_false in Hs.
  cbn [html_unescape ascii_runtime].
  induction Hs as [|c s Hc Hs IH]; [reflexivity|].
  cbn [ascii_unescape_from].
  assert (E : (c =? 38)%N = false) by now apply N.eqb_neq.
  now rewrite E, IH.
Qed.

(** C9 at a message with markup, entities and a signature: its cleaned
    text holds none of them any more, and cleaning it again changes
    nothing. *)
Lemma C9_witness_html_message :
  TextProcessor.mask_pii TextProcessor.default_options = false
  /\ TextProcessor.clean_for_processing TextProcessor.default_options
       Examples.html_message
     = str "Hello," ++ [NL] ++ str "The invoice " ++ [34%N] ++ str "A-17" ++ [34%N]
       ++ str " and the receipt differ."
  /\ TextProcessor.clean_for_processing TextProcessor.default_options
       (TextProcessor.clean_for_processing TextProcessor.default_options
          Examples.html_message)
     = TextProcessor.clean_for_processing TextProcessor.default_options
         Examples.html_message.
Proof.
  split; [reflexivity|]. split; [vm_compute; reflexivity|].
  apply (C9_clean_is_idempotent_on_markup_free_results TextProcessor.default_options
           Examples.html_message eq_refl).
  - reflexivity.
  - intros _. split; vm_compute; reflexivity.
  - vm_compute. reflexivity.
Defined.

(** C9 as stated fails, on the input of the repository's own test of
    entity decoding: the first pass decodes [&lt;test&gt;] into a tag,
    the second pass strips it. *)
Lemma C9_counterexample_decoded_markup :
  TextProcessor.clean_for_processing TextProcessor.default_options
    Examples.escaped_markup
  = str "Hello & World <test>"
  /\ TextProcessor.clean_for_processing TextProcessor.default_options
       (TextProcessor.clean_for_processing TextProcessor.default_options
          Examples.escaped_markup)
     = str "Hello & World"
  /\ TextProcessor.clean_for_processing TextProcessor.default_options
       (TextProcessor.clean_for_processing TextProcessor.default_options
          Examples.escaped_markup)
     <> TextProcessor.clean_for_processing TextProcessor.default_options
          Examples.escaped_markup.
Proof.
  split; [vm_compute; reflexivity|]. split; [vm_compute; reflexivity|].
  vm_compute. discriminate.
Qed.

(** The whitespace stage collapses line breaks before it strips the
    lines: a blank line made of spaces leaves three line breaks in a
    row after one pass, which a second pass collapses. *)
Lemma normalize_whitespace_leaves_three_newlines :
  TextProcessor.normalize_whitespace Examples.spaced_blank_lines
  = str "a" ++ [NL; NL; NL] ++ str "b"
  /\ TextProcessor.normalize_whitespace
       (TextProcessor.normalize_whitespace Examples.spaced_blank_lines)
     = str "a" ++ [NL; NL] ++ str "b".
Proof. split; vm_compute; reflexivity. Qed.

(** So does the whole normalizer: the fourth condition of C9 cannot be
    dropped. *)
Lemma clean_leaves_three_newlines :
  TextProcessor.clean_for_processing TextProcessor.default_options
    Examples.spaced_blank_lines
  = str "a" ++ [NL; NL; NL] ++ str "b"
  /\ TextProcessor.clean_for_processing TextProcessor.default_options
       (TextProcessor.clean_for_processing TextProcessor.default_options
          Examples.spaced_blank_lines)
     = str "a" ++ [NL; NL] ++ str "b".
Proof. split; vm_compute; reflexivity. Qed.

(** ** The model on the inputs of the repository's unit tests

    The tests whose text is ASCII, run on the ASCII runtime. *)

(* test_default_priority *)
Example test_default_priority :
  let result :=
    PriorityScorer.calculate [] (str "Bir sorum var") (Some (str "neutral")) None
      (str "standard") None (str "en") ∅ in
  PriorityScorer.score result = 3
  /\ PriorityScorer.level result = PriorityScorer.MEDIUM.
Proof. vm_compute. split; reflexivity. Qed.

(* test_critical_category_boost *)
Example test_critical_category_boost :
  let result :=
    PriorityScorer.calculate [] (str "Bir sorunum var") (Some (str "neutral")) None
      (str "standard") (Some (str "complaint")) (str "en") ∅ in
  4 <= PriorityScorer.score result
  /\ mem (str "critical_category_complaint") (PriorityScorer.factors result) = true.
Proof. vm_compute. split; [discriminate | reflexivity]. Qed.

(* test_high_anger_level_boost *)
Example test_high_anger_level_boost :
  let calculate anger :=
    PriorityScorer.calculate [] (str "Bir sorunum var") (Some (str "neutral"))
      (Some anger) (str "standard") None (str "en") ∅ in
  PriorityScorer.score (calculate (2 # 10)) < PriorityScorer.score (calculate (8 # 10))
  /\ mem (str "high_anger") (PriorityScorer.factors (calculate (8 # 10))) = true.
Proof. vm_compute. split; reflexivity. Qed.

(* test_rule_based_fallback_feature_request *)
Example test_rule_based_fallback_feature_request :
  TicketClassifier.primary_category
    (TicketClassifier._rule_based_fallback
       (str "It would be nice if you could add a new feature for exporting data"))
  = str "feature_request".
Proof. vm_compute. reflexivity. Qed.

(* test_classify_whitespace_text *)
Example test_classify_whitespace_text :
  let result :=
    fst (TicketClassifier.classify Examples.caching_classifier Examples.answering_world
           (str "   " ++ [NL; TextProcessor.TAB] ++ str "  ") (str "en") true) in
  TicketClassifier.primary_category result = str "general_inquiry"
  /\ TicketClassifier.confidence result = Some 0%Q.
Proof. vm_compute. split; reflexivity. Qed.

(* test_remove_html_simple *)
Example test_remove_html_simple :
  let result := TextProcessor.remove_html_tags (str "<p>Hello <b>World</b></p>") in
  contains [TextProcessor.LT] result = false
  /\ contains [TextProcessor.GT] result = false
  /\ contains (str "Hello") result = true
  /\ contains (str "World") result = true.
Proof. vm_compute. repeat split. Qed.

(* test_remove_html_with_breaks *)
Example test_remove_html_with_breaks :
  contains [NL] (TextProcessor.remove_html_tags (str "Line 1<br>Line 2</p>Line 3")) = true.
Proof. vm_compute. reflexivity. Qed.

(* test_remove_html_entities *)
Example test_remove_html_entities :
  let result := TextProcessor.remove_html_tags (str "Hello &amp; World &lt;test&gt;") in
  contains (str "& World") result = true /\ contains (str "<test>") result = true.
Proof. vm_compute. split; reflexivity. Qed.

(* test_normalize_whitespace *)
Example test_normalize_whitespace :
  let result :=
    TextProcessor.normalize_whitespace
      (str "Hello    World" ++ [NL; NL; NL; NL] ++ str "Test") in
  contains (str "    ") result = false /\ contains [NL; NL; NL] result = false.
Proof. vm_compute. split; reflexivity. Qed.

(* test_normalize_whitespace_tabs *)
Example test_normalize_whitespace_tabs :
  contains [TextProcessor.TAB]
    (TextProcessor.normalize_whitespace (str "Hello" ++ [TextProcessor.TAB] ++ str "World"))
  = false.
Proof. vm_compute. reflexivity. Qed.

(* test_remove_signatures_regards *)
Example test_remove_signatures_regards :
  let result :=
    TextProcessor.remove_signature_lines
      (str "Please help me." ++ [NL; NL] ++ str "Best regards," ++ [NL]
       ++ str "John Doe" ++ [NL] ++ str "Company Inc.") in
  contains (str "Please help me") result = true
  /\ contains (str "John Doe") result = false.
Proof. vm_compute. split; reflexivity. Qed.
